(** * DataAcademy teacher dashboard and data generator

    A shallow embedding of [app/dashboard.py] (the Streamlit dashboard
    and its SQL statements) and of [scripts/generate_data.py] (the seeded
    CSV generator), followed by the properties proved about them.

    Conventions.
    - A Python [date] is its proleptic Gregorian ordinal, a [Z]; adding a
      [timedelta(days=n)] is integer addition.  The generator keeps dates
      in its row dictionaries as ISO strings and parses them back with
      [date.fromisoformat]; since that parse inverts [isoformat], rows here
      hold the date itself and the ISO text is produced when a CSV file is
      written.
    - Text is [string].  The lower-casing that the database applies for
      ILIKE and its collation depend on its locale; both are parameters
      of the search.  Python's [str.lower], which the generator applies
      to the names it gets from Faker, is the ASCII one.
    - A Python [float] is a binary64 floating-point number, Rocq's
      primitive [float]; its literals, sums, products and comparisons are
      those of IEEE 754.
    - The file system is known by its answers: the script asks it to
      create a directory and to write files, and it does so, refuses, or
      fails half-way. *)

From Stdlib Require Import List ZArith Bool Ascii String Lia Floats.
From Stdlib Require Import Permutation Sorted DecimalString DecimalZ DecimalPos.
Import ListNotations.

Set Warnings "-inexact-float".

Local Open Scope string_scope.
Local Open Scope Z_scope.

(* ================================================================== *)
(** * Text: case folding, substrings and SQL [LIKE] patterns          *)
(* ================================================================== *)

Module Text.

(** ASCII lower-casing of one byte: [A-Z] become [a-z]. *)
Definition lower_ascii (c : ascii) : ascii :=
  let n := nat_of_ascii c in
  if ((65 <=? n)%nat && (n <=? 90)%nat)%bool then ascii_of_nat (n + 32) else c.

Fixpoint lower (s : string) : string :=
  match s with
  | EmptyString => EmptyString
  | String c s' => String (lower_ascii c) (lower s')
  end.

(** [contains t s]: [t] occurs in [s] as a contiguous substring
    (Python's [t in s]). *)
Fixpoint contains (t s : string) : bool :=
  String.prefix t s
  || match s with
     | EmptyString => false
     | String _ s' => contains t s'
     end.

(** The same notion as a proposition. *)
Definition Substring (t s : string) : Prop :=
  exists a b, s = a ++ t ++ b.

(** Substring tests that ignore case, as the database does: both texts
    are lower-cased by [fold], the lower-casing of the database's locale
    (PostgreSQL's [lower()]), and then compared. *)
Definition icontains (fold : string -> string) (t s : string) : bool :=
  contains (fold t) (fold s).

Definition ISubstring (fold : string -> string) (t s : string) : Prop :=
  Substring (fold t) (fold s).

(** ** [LIKE] patterns

    PostgreSQL: [%] matches any sequence of characters, [_] any single
    character, and a backslash (the default escape character) makes
    the following character match itself.  A pattern that ends in a
    lone escape character is an error. *)

Inductive tok : Type :=
| TAny                (* % *)
| TOne                (* _ *)
| TLit (c : ascii).

Definition percent : ascii := "%"%char.
Definition underscore : ascii := "_"%char.
Definition backslash : ascii := "\"%char.

Definition tok_of (c : ascii) : tok :=
  if Ascii.eqb c percent then TAny
  else if Ascii.eqb c underscore then TOne
  else TLit c.

Fixpoint tokenize (p : string) : option (list tok) :=
  match p with
  | EmptyString => Some []
  | String c p' =>
      if Ascii.eqb c backslash then
        match p' with
        | EmptyString => None
        | String d p'' => option_map (cons (TLit d)) (tokenize p'')
        end
      else option_map (cons (tok_of c)) (tokenize p')
  end.

Fixpoint matches (ts : list tok) : string -> bool :=
  match ts with
  | [] => fun s => match s with EmptyString => true | _ => false end
  | TAny :: ts' =>
      fix star (s : string) : bool :=
        matches ts' s
        || match s with
           | EmptyString => false
           | String _ s' => star s'
           end
  | TOne :: ts' =>
      fun s => match s with
               | EmptyString => false
               | String _ s' => matches ts' s'
               end
  | TLit c :: ts' =>
      fun s => match s with
               | EmptyString => false
               | String d s' => Ascii.eqb c d && matches ts' s'
               end
  end.

(** The tokens of a text without escape characters, one per character,
    and the tokens that match a text literally. *)
Fixpoint toks (t : string) : list tok :=
  match t with
  | EmptyString => []
  | String c t' => tok_of c :: toks t'
  end.

Fixpoint lits (t : string) : list tok :=
  match t with
  | EmptyString => []
  | String c t' => TLit c :: lits t'
  end.

(** [s LIKE p]; [None] is the error raised for a malformed pattern. *)
Definition like (s p : string) : option bool :=
  option_map (fun ts => matches ts s) (tokenize p).

(** [s ILIKE p]: the text and the pattern are lower-cased first, then
    matched as for [LIKE].  The lower-casing [fold] follows the locale of
    the database. *)
Definition ilike (fold : string -> string) (s p : string) : option bool :=
  like (fold s) (fold p).

(** A term free of the three pattern metacharacters. *)
Fixpoint plain (t : string) : bool :=
  match t with
  | EmptyString => true
  | String c t' =>
      negb (Ascii.eqb c percent) && negb (Ascii.eqb c underscore)
      && negb (Ascii.eqb c backslash) && plain t'
  end.

(** A term free of the escape character. *)
Fixpoint no_escape (t : string) : bool :=
  match t with
  | EmptyString => true
  | String c t' => negb (Ascii.eqb c backslash) && no_escape t'
  end.

(** One of the three pattern characters. *)
Definition meta (c : ascii) : bool :=
  Ascii.eqb c percent || Ascii.eqb c underscore || Ascii.eqb c backslash.

(** What is asked of the lower-casing of a locale: a pattern character
    stays what and where it is, with the text before it and the text
    after it lower-cased as they are on their own, and the lower-casing
    of a text without pattern characters has none.  The lower-casing of
    every locale does this, the three characters being ASCII
    punctuation; [lower] is the one of the C locale. *)
Record folding (fold : string -> string) : Prop :=
  { fold_empty : fold "" = "";
    fold_meta : forall a c b,
        meta c = true -> fold (a ++ String c b) = fold a ++ String c (fold b);
    fold_plain : forall t, plain t = true -> plain (fold t) = true }.

End Text.

(* ================================================================== *)
(** * [ORDER BY]: a stable sort on a boolean order                     *)
(* ================================================================== *)

Section Sorting.
Context {A : Type}.
Variable leb : A -> A -> bool.

Fixpoint insert_sorted (x : A) (l : list A) : list A :=
  match l with
  | [] => [x]
  | y :: l' => if leb x y then x :: l else y :: insert_sorted x l'
  end.

Fixpoint order_by (l : list A) : list A :=
  match l with
  | [] => []
  | x :: l' => insert_sorted x (order_by l')
  end.
End Sorting.

(* ================================================================== *)
(** * Python exceptions and a state-and-exception monad               *)
(* ================================================================== *)

(** Constraint violations reported by the database. *)
Inductive db_error : Type :=
| UniqueViolation (constraint : string)
| ForeignKeyViolation (constraint : string).

(** The exceptions the two programs can meet. *)
Inductive exn : Type :=
| ValueError (msg : string)
| IndexError (msg : string)
| KeyError (key : string)
| IntegrityError (e : db_error)
| ResultError (msg : string)
| OSError (msg : string).

(** A computation over a state [S] that returns a value or raises.  The
    state reached when the exception is raised is kept: what was written
    to the database before a failure stays written. *)
Definition M (S A : Type) : Type := S -> (exn + A) * S.

Definition ret {S A} (a : A) : M S A := fun s => (inr a, s).

Definition bind {S A B} (c : M S A) (k : A -> M S B) : M S B :=
  fun s =>
    match c s with
    | (inr a, s') => k a s'
    | (inl e, s') => (inl e, s')
    end.

Definition raise {S A} (e : exn) : M S A := fun s => (inl e, s).

(** [try: c except Exception as e: h e] *)
Definition try_except {S A} (c : M S A) (h : exn -> M S A) : M S A :=
  fun s =>
    match c s with
    | (inr a, s') => (inr a, s')
    | (inl e, s') => h e s'
    end.

Declare Scope py_scope.
Delimit Scope py_scope with py.
Notation "x <- c ;; k" := (bind c (fun x => k))
  (at level 61, c at next level, right associativity) : py_scope.
Notation "c ;;; k" := (bind c (fun _ => k))
  (at level 61, right associativity) : py_scope.
Local Open Scope py_scope.

(** [for x in l: body x] *)
Fixpoint for_each {S A} (l : list A) (body : A -> M S unit) : M S unit :=
  match l with
  | [] => ret tt
  | x :: l' => body x ;;; for_each l' body
  end.

(** [for x in l: out.append(body x)], returning [out]. *)
Fixpoint for_collect {S A B} (l : list A) (body : A -> M S B) : M S (list B) :=
  match l with
  | [] => ret []
  | x :: l' => y <- body x ;; ys <- for_collect l' body ;; ret (y :: ys)
  end.

(* ================================================================== *)
(** * The relational schema                                            *)
(* ================================================================== *)

Definition date : Type := Z.

Module Teacher.
Record t : Type := mk
  { id : Z; first_name : string; last_name : string;
    email : string; bio : string }.
End Teacher.

Module Student.
Record t : Type := mk
  { id : Z; first_name : string; last_name : string;
    email : string; registration_date : date }.
End Student.

Module Course.
Record t : Type := mk
  { id : Z; title : string; description : string; level : string;
    credits : Z; start_date : date; end_date : date; teacher_id : Z }.
End Course.

Module Enrollment.
Record t : Type := mk
  { id : Z; student_id : Z; course_id : Z; enrollment_date : date;
    status : string; final_grade : option string }.
End Enrollment.

(** The four tables, and the two sequences that generate the ids of
    inserted rows. *)
Record database : Type := mkdb
  { teacher : list Teacher.t;
    student : list Student.t;
    course : list Course.t;
    enrollment : list Enrollment.t;
    student_id_seq : Z;
    enrollment_id_seq : Z }.

Module Schema.

(** The table definitions (the DDL) are not part of the sources; the
    constraints below are taken from section 3 of the specification. *)

(** Modelled from the spec: the primary key of [student] ("id (unique)"),
    whose definition is missing from the sources. *)
Definition student_pkey_free (d : database) (i : Z) : bool :=
  negb (existsb (fun s => Student.id s =? i) (student d)).

(** Modelled from the spec: the uniqueness constraint on [student.email]
    ("email (unique constraint)"); its name [student_email_key] is the one
    the dashboard looks for in the error text. *)
Definition student_email_free (d : database) (em : string) : bool :=
  negb (existsb (fun s => String.eqb (Student.email s) em) (student d)).

(** Modelled from the spec: the primary key of [enrollment]. *)
Definition enrollment_pkey_free (d : database) (i : Z) : bool :=
  negb (existsb (fun e => Enrollment.id e =? i) (enrollment d)).

(** Modelled from the spec: [enrollment.student_id] references an existing
    student. *)
Definition student_exists (d : database) (i : Z) : bool :=
  existsb (fun s => Student.id s =? i) (student d).

(** Modelled from the spec: [enrollment.course_id] references an existing
    course. *)
Definition course_exists (d : database) (i : Z) : bool :=
  existsb (fun c => Course.id c =? i) (course d).

(** Modelled from the spec: [course.teacher_id] references an existing
    teacher ("teacher_id (references Teacher, required)"). *)
Definition teacher_exists (d : database) (i : Z) : bool :=
  existsb (fun t => Teacher.id t =? i) (teacher d).

(** Modelled from the spec: what the primary keys of [teacher] and
    [course] and the reference from course to teacher guarantee of every
    state of the database. *)
Record well_formed (d : database) : Prop :=
  { teacher_pkey : NoDup (map Teacher.id (teacher d));
    course_pkey : NoDup (map Course.id (course d));
    course_teacher_fkey :
      forall c, In c (course d) -> teacher_exists d (Course.teacher_id c) = true }.

End Schema.

(* ================================================================== *)
(** * Running statements: [run_exec]                                  *)
(* ================================================================== *)

(** The two data-changing statements of the dashboard. *)
Inductive statement : Type :=
| insert_student (fn ln em : string) (reg_date : date)
    (* INSERT INTO student (...) VALUES (:fn, :ln, :em, :reg_date) RETURNING id *)
| insert_enrollment (sid cid : Z).
    (* INSERT INTO enrollment (...) VALUES (:sid, :cid, CURRENT_DATE, 'active') *)

Definition bump_student_seq (d : database) : database :=
  mkdb (teacher d) (student d) (course d) (enrollment d)
       (student_id_seq d + 1) (enrollment_id_seq d).

Definition bump_enrollment_seq (d : database) : database :=
  mkdb (teacher d) (student d) (course d) (enrollment d)
       (student_id_seq d) (enrollment_id_seq d + 1).

Definition add_student (s : Student.t) (d : database) : database :=
  mkdb (teacher d) (student d ++ [s])%list (course d) (enrollment d)
       (student_id_seq d) (enrollment_id_seq d).

Definition add_enrollment (e : Enrollment.t) (d : database) : database :=
  mkdb (teacher d) (student d) (course d) (enrollment d ++ [e])%list
       (student_id_seq d) (enrollment_id_seq d).

(** One statement inside an open transaction.  The result is the list of
    returned scalars ([RETURNING id] gives one).  The sequence is advanced
    before the constraints are checked. *)
Definition execute (current_date : date) (q : statement) : M database (list Z) :=
  match q with
  | insert_student fn ln em reg_date =>
      fun d =>
        let i := student_id_seq d in
        let d1 := bump_student_seq d in
        if negb (Schema.student_pkey_free d i) then
          (inl (IntegrityError (UniqueViolation "student_pkey")), d1)
        else if negb (Schema.student_email_free d em) then
          (inl (IntegrityError (UniqueViolation "student_email_key")), d1)
        else (inr [i], add_student (Student.mk i fn ln em reg_date) d1)
  | insert_enrollment sid cid =>
      fun d =>
        let i := enrollment_id_seq d in
        let d1 := bump_enrollment_seq d in
        if negb (Schema.enrollment_pkey_free d i) then
          (inl (IntegrityError (UniqueViolation "enrollment_pkey")), d1)
        else if negb (Schema.student_exists d sid) then
          (inl (IntegrityError (ForeignKeyViolation "enrollment_student_id_fkey")), d1)
        else if negb (Schema.course_exists d cid) then
          (inl (IntegrityError (ForeignKeyViolation "enrollment_course_id_fkey")), d1)
        else
          (inr [], add_enrollment (Enrollment.mk i sid cid current_date "active" None) d1)
  end.

(** Leaving a transaction by an exception restores the tables; sequence
    values already handed out are not given back. *)
Definition rollback (before now : database) : database :=
  mkdb (teacher before) (student before) (course before) (enrollment before)
       (student_id_seq now) (enrollment_id_seq now).

(** [run_exec]: [with engine.begin() as conn: return conn.execute(...)].
    The transaction spans exactly this one statement: it commits when the
    block is left normally and rolls back when the statement raises. *)
Definition run_exec (current_date : date) (q : statement) : M database (list Z) :=
  fun d =>
    match execute current_date q d with
    | (inr r, d') => (inr r, d')
    | (inl e, d') => (inl e, rollback d d')
    end.

(** [result.scalar_one()]: the one scalar of the one returned row. *)
Definition scalar_one {S} (r : list Z) : M S Z :=
  match r with
  | [x] => ret x
  | [] => raise (ResultError "No row was found when one was required")
  | _ => raise (ResultError "Multiple rows were found when exactly one was required")
  end.

(* ================================================================== *)
(** * The dashboard ([app/dashboard.py])                               *)
(* ================================================================== *)

Module Dashboard.

(** [a <= b] under a three-way comparison. *)
Definition le_of {A} (cmp : A -> A -> comparison) (a b : A) : bool :=
  match cmp a b with Gt => false | _ => true end.

(** ** Tab 1: course overview *)

(** A row of [course c JOIN teacher t LEFT JOIN enrollment e]; the
    enrollment columns are all NULL ([None]) for a course without
    enrollments. *)
Record joined : Type := mkjoined
  { jc : Course.t; jt : Teacher.t; je : option Enrollment.t }.

(** The predicates the page can put into the WHERE clause. *)
Inductive predicate : Type :=
| teacher_id_eq (teacher_id : Z)        (* c.teacher_id = :teacher_id *)
| level_any (levels : list string)      (* c.level = ANY(:levels)     *)
| start_date_ge (start_date : date)     (* c.start_date >= :start_date *)
| start_date_le (end_date : date).      (* c.start_date <= :end_date   *)

Definition eval_predicate (p : predicate) (c : Course.t) : bool :=
  match p with
  | teacher_id_eq i => Course.teacher_id c =? i
  | level_any ls => existsb (String.eqb (Course.level c)) ls
  | start_date_ge d => d <=? Course.start_date c
  | start_date_le d => Course.start_date c <=? d
  end.

(** [where_clause]: empty, or the filters joined by AND. *)
Definition where_clause (filters : list predicate) (r : joined) : bool :=
  forallb (fun p => eval_predicate p (jc r)) filters.

Definition teacher_name (t : Teacher.t) : string :=
  Teacher.first_name t ++ " " ++ Teacher.last_name t.

(** One row of the course statistics. *)
Record course_stats : Type := mkstats
  { id : Z; title : string; level : string;
    start_date : date; end_date : date; teacher_name_col : string;
    total_enrollments : Z; active_count : Z;
    completed_count : Z; dropped_count : Z }.

(** The GROUP BY columns. *)
Definition group_key : Type := (Z * string * string * date * date * string)%type.

Definition key_of (r : joined) : group_key :=
  (Course.id (jc r), Course.title (jc r), Course.level (jc r),
   Course.start_date (jc r), Course.end_date (jc r), teacher_name (jt r)).

Definition group_key_dec (a b : group_key) : {a = b} + {a <> b}.
Proof.
  repeat decide equality; try apply Z.eq_dec; apply string_dec.
Defined.

Definition same_group (k : group_key) (r : joined) : bool :=
  if group_key_dec (key_of r) k then true else false.

(** FROM course c JOIN teacher t ON t.id = c.teacher_id
         LEFT JOIN enrollment e ON e.course_id = c.id *)
Definition left_join_enrollment (d : database) (c : Course.t) (t : Teacher.t)
  : list joined :=
  match filter (fun e => Enrollment.course_id e =? Course.id c) (enrollment d) with
  | [] => [mkjoined c t None]
  | es => map (fun e => mkjoined c t (Some e)) es
  end.

Definition from_clause (d : database) : list joined :=
  flat_map
    (fun c =>
       flat_map (left_join_enrollment d c)
                (filter (fun t => Teacher.id t =? Course.teacher_id c) (teacher d)))
    (course d).

(** COUNT(e.id): the rows whose [e.id] is not NULL. *)
Definition count_id (rows : list joined) : Z :=
  Z.of_nat (List.length (filter (fun r => match je r with Some _ => true | None => false end) rows)).

(** [CASE WHEN e.status = s THEN 1 ELSE 0 END]; comparing the NULL
    status of an unmatched row is not true, so the ELSE branch is taken. *)
Definition case_status (s : string) (r : joined) : Z :=
  match je r with
  | Some e => if String.eqb (Enrollment.status e) s then 1 else 0
  | None => 0
  end.

Definition sum (l : list Z) : Z := fold_right Z.add 0 l.

Definition aggregate (k : group_key) (rows : list joined) : course_stats :=
  let '(i, ti, lv, sd, ed, tn) := k in
  mkstats i ti lv sd ed tn
          (count_id rows)
          (sum (map (case_status "active") rows))
          (sum (map (case_status "completed") rows))
          (sum (map (case_status "dropped") rows)).

(** [query_courses_stats]: the whole SELECT ... GROUP BY ... ORDER BY
    c.start_date.  The order among courses with equal start dates is
    not fixed by SQL; the sort used here is one admissible choice. *)
Definition query_courses_stats (filters : list predicate) (d : database)
  : list course_stats :=
  let rows := filter (where_clause filters) (from_clause d) in
  let groups := nodup group_key_dec (map key_of rows) in
  order_by (fun a b => start_date a <=? start_date b)
           (map (fun k => aggregate k (filter (same_group k) rows)) groups).

Section Collation.
(** The three-way comparison of text used by ORDER BY (the collation
    of the database). *)
Variable collate : string -> string -> comparison.

(** The lower-casing that ILIKE applies (the locale of the database). *)
Variable fold : string -> string.

(** [teachers_df]: SELECT id, first_name || ' ' || last_name AS name
    FROM teacher ORDER BY name *)
Definition teachers_df (d : database) : list (Z * string) :=
  order_by (fun a b => le_of collate (snd a) (snd b))
           (map (fun t => (Teacher.id t, teacher_name t)) (teacher d)).

(** Building the filter list.  [teacher_choice] is ["All"] or a
    teacher's name, resolved to the id of the first row of
    [teachers_df] with that name ([.iloc[0]], an IndexError when there
    is none).  A [date] is always truthy, so both date predicates are
    always present. *)
Definition build_filters (tdf : list (Z * string)) (teacher_choice : string)
           (level_filter : list string) (start_filter end_filter : date)
  : exn + list predicate :=
  let dates := [start_date_ge start_filter; start_date_le end_filter] in
  let levels := match level_filter with
                | [] => []
                | _ => [level_any level_filter]
                end in
  if String.eqb teacher_choice "All" then inr (levels ++ dates)%list
  else
    match filter (fun r => String.eqb (snd r) teacher_choice) tdf with
    | [] => inl (IndexError "single positional indexer is out-of-bounds")
    | r :: _ => inr (teacher_id_eq (fst r) :: levels ++ dates)%list
    end.

Definition course_overview (teacher_choice : string) (level_filter : list string)
           (start_filter end_filter : date) (d : database)
  : exn + list course_stats :=
  match build_filters (teachers_df d) teacher_choice level_filter
                      start_filter end_filter with
  | inl e => inl e
  | inr filters => inr (query_courses_stats filters d)
  end.

(** The filter set in plain words: an optional teacher id, a set of
    levels (empty: no constraint) and an inclusive range of start dates. *)
Definition passes (teacher : option Z) (levels : list string)
           (start_filter end_filter : date) (c : Course.t) : bool :=
  (match teacher with
   | None => true
   | Some i => Course.teacher_id c =? i
   end
   && match levels with
      | [] => true
      | _ => existsb (String.eqb (Course.level c)) levels
      end
   && (start_filter <=? Course.start_date c)
   && (Course.start_date c <=? end_filter))%bool.

(** ** Tab 2: student search *)

(** The WHERE clause of [query_students] for one row; [None] when a
    pattern is malformed. *)
Definition students_where (term : string) (s : Student.t) : option bool :=
  let pat := "%" ++ term ++ "%" in
  match Text.ilike fold (Student.first_name s) pat,
        Text.ilike fold (Student.last_name s) pat,
        Text.ilike fold (Student.email s) pat,
        Text.ilike fold (Student.first_name s ++ " " ++ Student.last_name s) pat with
  | Some a, Some b, Some c, Some f => Some (a || b || c || f)%bool
  | _, _, _, _ => None
  end.

Fixpoint select_where {A} (p : A -> option bool) (l : list A) : option (list A) :=
  match l with
  | [] => Some []
  | x :: l' =>
      match p x, select_where p l' with
      | Some b, Some r => Some (if b then x :: r else r)
      | _, _ => None
      end
  end.

(** ORDER BY last_name, first_name *)
Definition by_last_first (a b : Student.t) : bool :=
  match collate (Student.last_name a) (Student.last_name b) with
  | Lt => true
  | Gt => false
  | Eq => le_of collate (Student.first_name a) (Student.first_name b)
  end.

(** The rows before LIMIT is applied. *)
Definition students_matching (term : string) (d : database)
  : option (list Student.t) :=
  option_map (order_by by_last_first) (select_where (students_where term) (student d)).

(** [query_students] with [:term] bound; [None] is a failed query. *)
Definition query_students (term : string) (d : database)
  : option (list Student.t) :=
  option_map (firstn 50) (students_matching term d).

(** [if search_term: students_found = run_query(query_students, ...)];
    the outer [None] is the search that is not run. *)
Definition student_search (search_term : string) (d : database)
  : option (option (list Student.t)) :=
  if String.eqb search_term "" then None
  else Some (query_students search_term d).

End Collation.

(** The search condition in plain words: the term occurs, ignoring case
    as the database does, in the first name, the last name, the email or
    the full name. *)
Definition term_occurs (fold : string -> string) (term : string) (s : Student.t) : bool :=
  (Text.icontains fold term (Student.first_name s)
   || Text.icontains fold term (Student.last_name s)
   || Text.icontains fold term (Student.email s)
   || Text.icontains fold term (Student.first_name s ++ " " ++ Student.last_name s))%bool.

(** The condition of the specification, without the email. *)
Definition term_in_name (fold : string -> string) (term : string) (s : Student.t) : bool :=
  (Text.icontains fold term (Student.first_name s)
   || Text.icontains fold term (Student.last_name s)
   || Text.icontains fold term (Student.first_name s ++ " " ++ Student.last_name s))%bool.

(** A text that ends in a percent sign. *)
Fixpoint ends_in_percent (s : string) : bool :=
  match s with
  | EmptyString => false
  | String c EmptyString => Ascii.eqb c Text.percent
  | String _ s' => ends_in_percent s'
  end.

(** ** Tab 3: add a student and enroll them *)

(** [str(n)] for an integer. *)
Definition str_int (n : Z) : string := NilZero.string_of_int (Z.to_int n).

(** [course_options]: the dictionary from label to course id built from
    [courses_df] (SELECT id, title, ... FROM course). *)
Definition course_options (courses_df : list Course.t) : list (string * Z) :=
  map (fun row => (Course.title row ++ " (#" ++ str_int (Course.id row) ++ ")",
                   Course.id row))
      courses_df.

(** [options[label]]: a later entry with the same key replaces an
    earlier one; a missing key raises KeyError. *)
Definition dict_get {S} (options : list (string * Z)) (label : string) : M S Z :=
  match fold_left (fun acc kv => if String.eqb (fst kv) label then Some (snd kv) else acc)
                  options None with
  | Some v => ret v
  | None => raise (KeyError label)
  end.

(** What the page shows after a submission. *)
Inductive message : Type :=
| error_required                         (* "First name, last name and email are required." *)
| success (new_student_id : Z) (n : nat) (* "Student created with ID ..." *)
| error_duplicate_email                  (* "A student with this email already exists. ..." *)
| error_saving (msg : string).           (* "Error while saving to database: ..." *)

Section Manage.
(** [str(e)]: the text of an exception, as produced by the database
    driver. *)
Variable str : exn -> string.

Variable current_date : date.

(** The body of the [try] block: insert the student, read the new id,
    then insert one enrollment per selected course. *)
Definition create_student_and_enroll
           (courses_df : list Course.t)
           (first_name last_name email : string) (registration_date : date)
           (selected_courses_labels : list string)
  : M database (option message) :=
  result <- run_exec current_date
              (insert_student first_name last_name email registration_date) ;;
  new_student_id <- scalar_one result ;;
  for_each selected_courses_labels
    (fun label =>
       course_id <- dict_get (course_options courses_df) label ;;
       _ <- run_exec current_date (insert_enrollment new_student_id course_id) ;;
       ret tt) ;;;
  ret (Some (success new_student_id (List.length selected_courses_labels))).

(** The [except Exception as e] block. *)
Definition report_failure (e : exn) : M database (option message) :=
  let msg := str e in
  if (Text.contains "duplicate key value violates unique constraint" msg
      && (Text.contains "student_email_key" msg || Text.contains "email" msg))%bool
  then ret (Some error_duplicate_email)
  else ret (Some (error_saving msg)).

(** [if submitted: ...] *)
Definition add_student_form
           (courses_df : list Course.t) (submitted : bool)
           (first_name last_name email : string) (registration_date : date)
           (selected_courses_labels : list string)
  : M database (option message) :=
  if negb submitted then ret None
  else if (String.eqb first_name "" || String.eqb last_name ""
           || String.eqb email "")%bool
  then ret (Some error_required)
  else
    try_except
      (create_student_and_enroll courses_df first_name last_name email
                                 registration_date selected_courses_labels)
      report_failure.
End Manage.

(** ** The other parts of the page *)

(** *** Tab 1: the chart under the course statistics *)

(** [course_stats_df.sort_values("total_enrollments", ascending=False)
    .head(10)].  The order among rows with equal totals is not fixed by
    pandas; the sort used here is one admissible choice. *)
Definition chart_df (course_stats_df : list course_stats) : list course_stats :=
  firstn 10 (order_by (fun a b => total_enrollments b <=? total_enrollments a)
                      course_stats_df).

(** [max(200, bar_height * len(chart_df))] with [bar_height = 35]. *)
Definition chart_height (chart : list course_stats) : Z :=
  Z.max 200 (35 * Z.of_nat (List.length chart)).

(** What is drawn under the table: the chart rows and the chart height,
    or [None] for the note "No courses match the selected filters." *)
Definition overview_chart (course_stats_df : list course_stats)
  : option (list course_stats * Z) :=
  match course_stats_df with
  | [] => None
  | _ => Some (chart_df course_stats_df, chart_height (chart_df course_stats_df))
  end.

(** *** Tab 2: example students and the enrollments of one student *)

(** SELECT id, first_name, last_name, email, registration_date
    FROM student ORDER BY id LIMIT 10 *)
Definition sample_students (d : database) : list Student.t :=
  firstn 10 (order_by (fun a b => Student.id a <=? Student.id b) (student d)).

(** A row of [enrollments_query]. *)
Record enrollment_view : Type := mkview
  { course_title : string; view_level : string; view_enrollment_date : date;
    view_status : string; view_final_grade : option string }.

Definition view_of (e : Enrollment.t) (c : Course.t) : enrollment_view :=
  mkview (Course.title c) (Course.level c) (Enrollment.enrollment_date e)
         (Enrollment.status e) (Enrollment.final_grade e).

(** FROM enrollment e JOIN course c ON c.id = e.course_id *)
Definition enrollment_join_course (d : database) : list (Enrollment.t * Course.t) :=
  flat_map
    (fun e => map (fun c => (e, c))
                  (filter (fun c => Course.id c =? Enrollment.course_id e) (course d)))
    (enrollment d).

(** [enrollments_query] with [:sid] bound: ... WHERE e.student_id = :sid
    ORDER BY e.enrollment_date DESC *)
Definition enrollments_query (sid : Z) (d : database) : list enrollment_view :=
  order_by (fun a b => view_enrollment_date b <=? view_enrollment_date a)
           (map (fun ec => view_of (fst ec) (snd ec))
                (filter (fun ec => Enrollment.student_id (fst ec) =? sid)
                        (enrollment_join_course d))).

(** Which student's enrollments are shown after a search: the only one
    found, or the one picked in the select box ([selectbox_index] is the
    position picked among the ids found); [if selected_id:] then skips an
    id that is zero.  [None]: no enrollment table is shown. *)
Definition shown_enrollments (students_found : list Student.t) (selectbox_index : nat)
           (d : database) : option (list enrollment_view) :=
  match students_found with
  | [] => None
  | first :: rest =>
      let selected_id :=
        match rest with
        | [] => Student.id first
        | _ => nth selectbox_index (map Student.id students_found) (Student.id first)
        end in
      if selected_id =? 0 then None else Some (enrollments_query selected_id d)
  end.

(** *** Tab 4: the example queries *)

(** COUNT over the rows of a group, and the grouping itself: the distinct
    keys, each with the number of rows that [counted] accepts. *)
Definition count_where {A} (p : A -> bool) (rows : list A) : Z :=
  Z.of_nat (List.length (filter p rows)).

Definition pair_dec (a b : Z * string) : {a = b} + {a <> b}.
Proof. decide equality; [apply string_dec | apply Z.eq_dec]. Defined.

Section Insights.
Variable collate : string -> string -> comparison.

(** ORDER BY n DESC, name: more first, then by name. *)
Definition count_desc_then_name {K} (name : K -> string) (a b : K * Z) : bool :=
  if snd b <? snd a then true
  else if snd a <? snd b then false
  else le_of collate (name (fst a)) (name (fst b)).

(** "Students per course":
    SELECT c.id, c.title, COUNT(e.student_id) AS student_count
    FROM course c LEFT JOIN enrollment e ON e.course_id = c.id
    GROUP BY c.id, c.title ORDER BY student_count DESC, c.title *)
Definition students_per_course (d : database) : list ((Z * string) * Z) :=
  let rows :=
    flat_map
      (fun c =>
         match filter (fun e => Enrollment.course_id e =? Course.id c) (enrollment d) with
         | [] => [(c, None)]
         | es => map (fun e => (c, Some e)) es
         end)
      (course d) in
  let key (r : Course.t * option Enrollment.t) := (Course.id (fst r), Course.title (fst r)) in
  order_by (count_desc_then_name snd)
           (map (fun k =>
                   (k, count_where
                         (fun r => match snd r with Some _ => true | None => false end)
                         (filter (fun r => if pair_dec (key r) k then true else false) rows)))
                (nodup pair_dec (map key rows))).

(** "Enrollment status distribution":
    SELECT e.status, COUNT( * ) AS enrollment_count FROM enrollment e
    GROUP BY e.status ORDER BY enrollment_count DESC *)
Definition enrollment_status_distribution (d : database) : list (string * Z) :=
  order_by (fun a b => snd b <=? snd a)
           (map (fun k =>
                   (k, count_where (fun e => String.eqb (Enrollment.status e) k)
                                   (enrollment d)))
                (nodup string_dec (map Enrollment.status (enrollment d)))).

(** "Active enrollments per level":
    SELECT c.level, COUNT( * ) AS active_enrollments
    FROM enrollment e JOIN course c ON c.id = e.course_id
    WHERE e.status = 'active' GROUP BY c.level
    ORDER BY active_enrollments DESC *)
Definition active_enrollments_per_level (d : database) : list (string * Z) :=
  let rows := filter (fun ec => String.eqb (Enrollment.status (fst ec)) "active")
                     (enrollment_join_course d) in
  order_by (fun a b => snd b <=? snd a)
           (map (fun k =>
                   (k, count_where (fun ec => String.eqb (Course.level (snd ec)) k) rows))
                (nodup string_dec (map (fun ec => Course.level (snd ec)) rows))).

(** "Courses per teacher":
    SELECT t.id, t.first_name || ' ' || t.last_name AS teacher_name,
           COUNT(c.id) AS course_count
    FROM teacher t LEFT JOIN course c ON c.teacher_id = t.id
    GROUP BY t.id, teacher_name ORDER BY course_count DESC, teacher_name *)
Definition courses_per_teacher (d : database) : list ((Z * string) * Z) :=
  let rows :=
    flat_map
      (fun t =>
         match filter (fun c => Course.teacher_id c =? Teacher.id t) (course d) with
         | [] => [(t, None)]
         | cs => map (fun c => (t, Some c)) cs
         end)
      (teacher d) in
  let key (r : Teacher.t * option Course.t) := (Teacher.id (fst r), teacher_name (fst r)) in
  order_by (count_desc_then_name snd)
           (map (fun k =>
                   (k, count_where
                         (fun r => match snd r with Some _ => true | None => false end)
                         (filter (fun r => if pair_dec (key r) k then true else false) rows)))
                (nodup pair_dec (map key rows))).

End Insights.

(** *** Words for the properties of the add-student form *)

(** The label of a course in the multi-select, and the lookup of a label
    in the options (the pure part of [dict_get]). *)
Definition label_of (row : Course.t) : string :=
  Course.title row ++ " (#" ++ str_int (Course.id row) ++ ")".

Definition resolve (options : list (string * Z)) (label : string) : option Z :=
  fold_left (fun acc kv => if String.eqb (fst kv) label then Some (snd kv) else acc)
            options None.

(** [d'] has the teachers and courses of [d], and its students and
    enrollments with more rows after them. *)
Definition only_appends (d d' : database) : Prop :=
  teacher d' = teacher d /\ course d' = course d
  /\ (exists ss, student d' = (student d ++ ss)%list)
  /\ (exists es, enrollment d' = (enrollment d ++ es)%list)
  /\ student_id_seq d <= student_id_seq d'
  /\ enrollment_id_seq d <= enrollment_id_seq d'.

(** A search term made of percent signs only. *)
Fixpoint only_percent (t : string) : bool :=
  match t with
  | EmptyString => true
  | String c t' => Ascii.eqb c "%"%char && only_percent t'
  end.

(** The sequences are ahead of the ids in the tables: what holds of a
    database whose rows all got their ids from the sequences. *)
Definition sequences_ahead (d : database) : Prop :=
  (forall s, In s (student d) -> Student.id s < student_id_seq d)
  /\ (forall e, In e (enrollment d) -> Enrollment.id e < enrollment_id_seq d).

End Dashboard.

(* ================================================================== *)
(** * The interfaces of [random], [Faker] and [datetime]               *)
(* ================================================================== *)

Module Py.

(** The generator of pseudo-random numbers behind Python's [random]
    module: a state, reseeded by [seed], from which [random()] draws a
    float in [0, 1) and [_randbelow(n)] an integer in [0, n).
    [sample_indices n k] gives the positions that [sample] picks from a
    population of [n], [k] distinct ones. *)
Class Random (R : Type) : Type :=
  { seed : Z -> R;
    random : R -> float * R;
    randbelow : Z -> R -> Z * R;
    sample_indices : nat -> nat -> R -> list nat * R;
    random_unit : forall g, (0 <=? fst (random g))%float = true
                            /\ (fst (random g) <? 1)%float = true;
    randbelow_range : forall n g, 0 < n -> 0 <= fst (randbelow n g) < n;
    sample_indices_spec :
      forall n k g, (k <= n)%nat ->
        List.length (fst (sample_indices n k g)) = k
        /\ NoDup (fst (sample_indices n k g))
        /\ Forall (fun i => (i < n)%nat) (fst (sample_indices n k g)) }.

(** The providers of [Faker] that the generator calls, drawing from the
    library's own shared generator state. *)
Class Faker (F : Type) : Type :=
  { faker_seed : Z -> F;
    first_name : F -> string * F;
    last_name : F -> string * F;
    sentence : Z -> F -> string * F;       (* nb_words *)
    paragraph : Z -> F -> string * F }.    (* nb_sentences *)

(** [date(y, m, d).toordinal()] for a valid date. *)
Definition is_leap (y : Z) : bool :=
  ((y mod 4 =? 0) && (negb (y mod 100 =? 0) || (y mod 400 =? 0)))%bool.

Definition days_before_month (y m : Z) : Z :=
  nth (Z.to_nat (m - 1)) [0; 31; 59; 90; 120; 151; 181; 212; 243; 273; 304; 334] 0
  + (if (2 <? m) && is_leap y then 1 else 0)%bool.

Definition mkdate (y m d : Z) : date :=
  let y1 := y - 1 in
  y1 * 365 + y1 / 4 - y1 / 100 + y1 / 400 + days_before_month y m + d.

(** [itertools.accumulate]: the running sums, each a floating-point
    addition. *)
Fixpoint accumulate_from (acc : float) (l : list float) : list float :=
  match l with
  | [] => []
  | x :: l' => (acc + x)%float :: accumulate_from (acc + x)%float l'
  end.

Definition accumulate (l : list float) : list float :=
  match l with
  | [] => []
  | x :: l' => x :: accumulate_from x l'
  end.

(** [bisect.bisect(a, x, lo, hi)], the binary search of the library:

      while lo < hi:
          mid = (lo + hi) // 2
          if x < a[mid]: hi = mid
          else: lo = mid + 1
      return lo

    Each turn of the loop makes [hi - lo] smaller, so [hi - lo] turns
    end it. *)
Fixpoint bisect_loop (turns : nat) (a : list float) (x : float) (lo hi : nat) : nat :=
  match turns with
  | O => lo
  | S turns' =>
      if (lo <? hi)%nat then
        let mid := ((lo + hi) / 2)%nat in
        if (x <? nth mid a 0)%float then bisect_loop turns' a x lo mid
        else bisect_loop turns' a x (mid + 1) hi
      else lo
  end.

Definition bisect (a : list float) (x : float) (lo hi : nat) : nat :=
  bisect_loop (hi - lo) a x lo hi.

End Py.

(* ================================================================== *)
(** * The data generator ([scripts/generate_data.py])                  *)
(* ================================================================== *)

Module Generator.
Import Py.

(** What the file system answers when it is asked to create a directory
    or to write a file: it does it, it refuses (the directory or the
    file cannot be created or opened), or it breaks off after part of
    the file is written (a full disk); the last two raise OSError. *)
Inductive os_answer : Type :=
| Done
| Refused (msg : string)
| Broke (written : nat) (msg : string).

(** What a run of the script works on: the state of [random], the state
    of Faker's generator, the files written so far (path and content,
    in the order written), and the answers the file system gives to the
    requests to come, in order; past the end of that list it does what
    it is asked. *)
Record world (R F : Type) : Type := mkworld
  { rng : R; fake : F; files : list (string * string); os : list os_answer }.
Arguments mkworld {R F}.
Arguments rng {R F}.
Arguments fake {R F}.
Arguments files {R F}.
Arguments os {R F}.

(** A row of [enrollments.csv]; [final_grade] is the text written
    ([grade or ""]). *)
Record enrollment_row : Type := mkrow
  { id : Z; student_id : Z; course_id : Z; enrollment_date : date;
    status : string; final_grade : string }.

Definition NUM_TEACHERS : Z := 40.
Definition NUM_STUDENTS : Z := 1500.
Definition NUM_COURSES : Z := 120.
Definition MIN_ENROLLMENTS_PER_STUDENT : Z := 1.
Definition MAX_ENROLLMENTS_PER_STUDENT : Z := 4.

(** [range(a, b)] *)
Definition range (a b : Z) : list Z :=
  map (fun k => a + Z.of_nat k) (seq 0 (Z.to_nat (b - a))).

(** [for x in l: acc = body acc x], for loops that update local
    variables. *)
Fixpoint for_fold {S A B} (l : list A) (acc : B) (body : B -> A -> M S B) : M S B :=
  match l with
  | [] => ret acc
  | x :: l' => acc' <- body acc x ;; for_fold l' acc' body
  end.

Section Run.
Context {R F : Type} `{Random R} `{Faker F}.

Local Abbreviation W := (world R F).

(** ** [random] and [Faker] calls as steps of the run *)

Definition with_rng {A} (f : R -> A * R) : M W A :=
  fun w => let (a, g) := f (rng w) in (inr a, mkworld g (fake w) (files w) (os w)).

Definition with_fake {A} (f : F -> A * F) : M W A :=
  fun w => let (a, g) := f (fake w) in (inr a, mkworld (rng w) g (files w) (os w)).

(** The world after one draw from [random]. *)
Definition after_random (w : W) : W :=
  mkworld (snd (random (rng w))) (fake w) (files w) (os w).

(** [random.seed(n)] and [Faker.seed(n)] *)
Definition random_seed (n : Z) : M W unit :=
  fun w => (inr tt, mkworld (seed n) (fake w) (files w) (os w)).

Definition Faker_seed (n : Z) : M W unit :=
  fun w => (inr tt, mkworld (rng w) (faker_seed n) (files w) (os w)).

(** [random.randint(a, b)]: [a + _randbelow(b - a + 1)], a ValueError
    for an empty range. *)
Definition randint (a b : Z) : M W Z :=
  if 0 <? b + 1 - a
  then n <- with_rng (randbelow (b + 1 - a)) ;; ret (a + n)
  else raise (ValueError "empty range for randrange()").

(** [random.choice(seq)]: [seq[_randbelow(len(seq))]]. *)
Definition choice {A} (seq : list A) : M W A :=
  match seq with
  | [] => raise (IndexError "Cannot choose from an empty sequence")
  | x :: _ =>
      j <- with_rng (randbelow (Z.of_nat (List.length seq))) ;;
      ret (nth (Z.to_nat j) seq x)
  end.

(** [random.choices(population, weights=weights, k=1)[0]], as in
    CPython's [random.py]:

      cum_weights = list(_accumulate(weights))
      if len(cum_weights) != n: raise ValueError(...)
      total = cum_weights[-1] + 0.0
      if total <= 0.0: raise ValueError(...)
      if not _isfinite(total): raise ValueError(...)
      hi = n - 1
      return [population[bisect(cum_weights, random() * total, 0, hi)]] *)
Definition choices {A} (population : list A) (weights : list float) : M W A :=
  let n := List.length population in
  let cum_weights := accumulate weights in
  if negb (List.length cum_weights =? n)%nat then
    raise (ValueError "The number of weights does not match the population")
  else
    match population with
    | [] => raise (IndexError "list index out of range")
    | x0 :: _ =>
        let total := (last cum_weights 0 + 0)%float in
        if (total <=? 0)%float then
          raise (ValueError "Total of weights must be greater than zero")
        else if negb (is_finite total) then
          raise (ValueError "Total of weights must be finite")
        else
          u <- with_rng random ;;
          ret (nth (bisect cum_weights (u * total)%float 0 (n - 1)) population x0)
    end.

(** [random.sample(population, k)] *)
Definition sample {A} (population : list A) (k : Z) : M W (list A) :=
  let n := List.length population in
  if ((0 <=? k) && (k <=? Z.of_nat n))%bool then
    match population with
    | [] => ret []
    | x0 :: _ =>
        idx <- with_rng (sample_indices n (Z.to_nat k)) ;;
        ret (map (fun i => nth i population x0) idx)
    end
  else raise (ValueError "Sample larger than population or is negative").

(** ** The generator proper *)

Definition random_date_between (start end_ : date) : M W date :=
  let delta := end_ - start in
  n <- randint 0 delta ;;
  ret (start + n).

Definition generate_teachers : M W (list Teacher.t) :=
  for_collect (range 1 (NUM_TEACHERS + 1))
    (fun i =>
       first_name <- with_fake first_name ;;
       last_name <- with_fake last_name ;;
       let email := Text.lower first_name ++ "." ++ Text.lower last_name
                    ++ Dashboard.str_int i ++ "@example.edu" in
       bio <- with_fake (sentence 12) ;;
       ret (Teacher.mk i first_name last_name email bio)).

Definition generate_students : M W (list Student.t) :=
  let start_reg := mkdate 2021 1 1 in
  let end_reg := mkdate 2025 1 1 in
  for_collect (range 1 (NUM_STUDENTS + 1))
    (fun i =>
       first_name <- with_fake first_name ;;
       last_name <- with_fake last_name ;;
       let email := Text.lower first_name ++ "." ++ Text.lower last_name
                    ++ Dashboard.str_int i ++ "@student.example.com" in
       registration_date <- random_date_between start_reg end_reg ;;
       ret (Student.mk i first_name last_name email registration_date)).

Definition levels : list string := ["Beginner"; "Intermediate"; "Advanced"].

Definition titles_samples : list string :=
  [ "Python for Data Analysis"; "Introduction to SQL";
    "Web Development with Flask"; "Machine Learning Basics";
    "Data Visualization with Python"; "Linux for Developers";
    "Docker & Containers"; "Cloud Fundamentals";
    "Object-Oriented Programming"; "Data Engineering Pipelines" ].

Definition generate_courses (teachers : list Teacher.t) : M W (list Course.t) :=
  let overall_start := mkdate 2023 1 1 in
  let overall_end := mkdate 2025 12 31 in
  for_collect (range 1 (NUM_COURSES + 1))
    (fun i =>
       teacher <- choice teachers ;;
       level <- choice levels ;;
       base_title <- choice titles_samples ;;
       let title := base_title ++ " #" ++ Dashboard.str_int i in
       description <- with_fake (paragraph 3) ;;
       credits <- choice [3; 4; 5] ;;
       start_date <- random_date_between overall_start overall_end ;;
       duration_days <- randint 30 90 ;;
       let end_date := start_date + duration_days in
       ret (Course.mk i title description level credits
                      start_date end_date (Teacher.id teacher))).

(** The fixed reference date. *)
Definition today : date := mkdate 2025 1 15.

Definition choose_status_and_grade (course_start course_end enrollment_date : date)
  : M W (string * option string) :=
  status <-
    (if course_end <? today then
       choices ["completed"; "active"; "dropped"] [0.75; 0.05; 0.20]%float
     else if today <? course_start then
       choices ["active"; "completed"; "dropped"] [0.70; 0.0; 0.30]%float
     else
       choices ["active"; "completed"; "dropped"] [0.60; 0.20; 0.20]%float) ;;
  grade <-
    (if String.eqb status "completed" then
       g <- choices ["A"; "B"; "C"; "D"; "E"; "F"]
                    [0.25; 0.30; 0.25; 0.10; 0.05; 0.05]%float ;;
       ret (Some g)
     else ret None) ;;
  ret (status, grade).

(** [grade or ""] *)
Definition or_empty (grade : option string) : string :=
  match grade with
  | Some g => if String.eqb g "" then "" else g
  | None => ""
  end.

(** The body of the inner loop: one enrollment of [student] in
    [course]; the local variables are the list built so far and the
    next id. *)
Definition enroll (student : Student.t) (acc : list enrollment_row * Z)
           (course : Course.t) : M W (list enrollment_row * Z) :=
  let '(enrollments, enrollment_id) := acc in
  let course_start := Course.start_date course in
  let course_end := Course.end_date course in
  let enroll_start := course_start - 30 in
  let enroll_end := Z.min (course_start + 20) course_end in
  enrollment_date <- random_date_between enroll_start enroll_end ;;
  sg <- choose_status_and_grade course_start course_end enrollment_date ;;
  let '(status, grade) := sg in
  ret ((enrollments ++
          [mkrow enrollment_id (Student.id student) (Course.id course)
                 enrollment_date status (or_empty grade)])%list,
       enrollment_id + 1).

Definition generate_enrollments (students : list Student.t) (courses : list Course.t)
  : M W (list enrollment_row) :=
  r <- for_fold students ([], 1)
         (fun acc student =>
            num_enrollments <- randint MIN_ENROLLMENTS_PER_STUDENT
                                       MAX_ENROLLMENTS_PER_STUDENT ;;
            chosen_courses <- sample courses num_enrollments ;;
            for_fold chosen_courses acc (enroll student)) ;;
  ret (fst r).
(** The two properties of a generated enrollment: its date lies in the
    enrollment window of its course, and it carries a grade exactly when
    it is completed. *)
Definition in_window (courses : list Course.t) (e : enrollment_row) : Prop :=
  exists c, In c courses /\ Course.id c = course_id e
            /\ Course.start_date c - 30 <= enrollment_date e
               <= Z.min (Course.start_date c + 20) (Course.end_date c).

Definition grades : list string := ["A"; "B"; "C"; "D"; "E"; "F"].

Definition grade_consistent (e : enrollment_row) : Prop :=
  (final_grade e <> "" <-> status e = "completed")
  /\ (status e = "completed" -> In (final_grade e) grades).

(** A three-way weighted choice, in plain words: the draw [u] of
    [random()] is scaled by the total of the weights, and the first
    outcome is taken when the scaled draw lies below the first weight,
    the second when it does not but lies below the sum of the first two,
    and the third otherwise.  All of it is binary64 arithmetic. *)
Definition drawn (u total w1 w2 : float) (first second third chosen : string) : Prop :=
  let x := (u * total)%float in
  (chosen = first <-> (x <? w1)%float = true)
  /\ (chosen = second <-> (x <? w1)%float = false /\ (x <? w1 + w2)%float = true)
  /\ (chosen = third <-> (x <? w1 + w2)%float = false).

(** The status of a generated enrollment follows the weights of its
    course: it is the outcome of one draw of [random()] at some state of
    the generator, with the weights picked by the position of the
    reference date with respect to the course of the row. *)
Definition status_by_window (courses : list Course.t) (e : enrollment_row) : Prop :=
  exists c g,
    In c courses /\ Course.id c = course_id e
    /\ let u := fst (random g) in
       (0 <=? u)%float = true /\ (u <? 1)%float = true
       /\ (Course.end_date c < today ->
           drawn u 1 0.75 0.05 "completed" "active" "dropped" (status e))
       /\ (today <= Course.end_date c -> today < Course.start_date c ->
           drawn u 1 0.70 0.0 "active" "completed" "dropped" (status e)
           /\ status e <> "completed")
       /\ (Course.start_date c <= today <= Course.end_date c ->
           drawn u 1 0.60 0.20 "active" "completed" "dropped" (status e)).

(** ** Writing the CSV files *)

(** [csv.DictWriter] with the default dialect: fields separated by a
    comma, rows ended by CR LF, and a field quoted exactly when it
    contains the delimiter, the quote character or a character of the
    line terminator; a quote character inside a quoted field is
    doubled. *)
Definition quotechar : ascii := ascii_of_nat 34.
Definition CR : ascii := ascii_of_nat 13.
Definition LF : ascii := ascii_of_nat 10.

Fixpoint needs_quoting (s : string) : bool :=
  match s with
  | EmptyString => false
  | String c s' =>
      (Ascii.eqb c ","%char || Ascii.eqb c quotechar || Ascii.eqb c CR
       || Ascii.eqb c LF || needs_quoting s')%bool
  end.

Fixpoint double_quotes (s : string) : string :=
  match s with
  | EmptyString => EmptyString
  | String c s' =>
      if Ascii.eqb c quotechar then String c (String c (double_quotes s'))
      else String c (double_quotes s')
  end.

Definition csv_field (s : string) : string :=
  if needs_quoting s
  then String quotechar (double_quotes s ++ String quotechar EmptyString)
  else s.

Definition csv_line (fields : list string) : string :=
  String.concat "," (map csv_field fields) ++ String CR (String LF EmptyString).

(** A row dictionary: column name and the text [str] gives its value. *)
Definition rowdict : Type := list (string * string).

Definition rowdict_get (row : rowdict) (key : string) : string :=
  match find (fun kv => String.eqb (fst kv) key) row with
  | Some kv => snd kv
  | None => ""
  end.

(** [DictWriter.writerow]: the values of the row in the order of the field
    names.  The rows written below have exactly the field names as keys,
    so the check for extra keys never fires and is left out. *)
Definition dict_to_list (fieldnames : list string) (row : rowdict) : list string :=
  map (rowdict_get row) fieldnames.

Definition csv_rows (fieldnames : list string) (rows : list rowdict) : string :=
  String.concat "" (map (fun row => csv_line (dict_to_list fieldnames row)) rows).

(** The next answer of the file system, and the answers that remain. *)
Definition next_answer (w : W) : os_answer * list os_answer :=
  match os w with
  | [] => (Done, [])
  | a :: rest => (a, rest)
  end.

(** [os.makedirs(path, exist_ok=True)] *)
Definition makedirs (path : string) : M W unit :=
  fun w =>
    let (answer, rest) := next_answer w in
    let w' := mkworld (rng w) (fake w) (files w) rest in
    match answer with
    | Done => (inr tt, w')
    | Refused msg | Broke _ msg => (inl (OSError msg), w')
    end.

(** [write_csv(path, rows, fieldnames)]: the file is opened for writing,
    then come the header and the rows.  When the file system refuses to
    open the file nothing is written; when it breaks off, the file is
    left with the part written so far. *)
Definition write_csv (path : string) (rows : list rowdict) (fieldnames : list string)
  : M W unit :=
  fun w =>
    let content := csv_line fieldnames ++ csv_rows fieldnames rows in
    let (answer, rest) := next_answer w in
    match answer with
    | Done =>
        (inr tt, mkworld (rng w) (fake w) (app (files w) [(path, content)]) rest)
    | Refused msg =>
        (inl (OSError msg), mkworld (rng w) (fake w) (files w) rest)
    | Broke written msg =>
        (inl (OSError msg),
         mkworld (rng w) (fake w)
                 (app (files w) [(path, String.substring 0 written content)]) rest)
    end.

(** The file system as the run sees it: the files written and the
    answers to come. *)
Definition disk (w : W) : list (string * string) * list os_answer :=
  (files w, os w).

Section Main.
(** [date.isoformat], and [DATA_DIR], the directory next to the script. *)
Variable isoformat : date -> string.
Variable DATA_DIR : string.

Definition teacher_dict (t : Teacher.t) : rowdict :=
  [ ("id", Dashboard.str_int (Teacher.id t));
    ("first_name", Teacher.first_name t);
    ("last_name", Teacher.last_name t);
    ("email", Teacher.email t);
    ("bio", Teacher.bio t) ].

Definition student_dict (s : Student.t) : rowdict :=
  [ ("id", Dashboard.str_int (Student.id s));
    ("first_name", Student.first_name s);
    ("last_name", Student.last_name s);
    ("email", Student.email s);
    ("registration_date", isoformat (Student.registration_date s)) ].

Definition course_dict (c : Course.t) : rowdict :=
  [ ("id", Dashboard.str_int (Course.id c));
    ("title", Course.title c);
    ("description", Course.description c);
    ("level", Course.level c);
    ("credits", Dashboard.str_int (Course.credits c));
    ("start_date", isoformat (Course.start_date c));
    ("end_date", isoformat (Course.end_date c));
    ("teacher_id", Dashboard.str_int (Course.teacher_id c)) ].

Definition enrollment_dict (e : enrollment_row) : rowdict :=
  [ ("id", Dashboard.str_int (id e));
    ("student_id", Dashboard.str_int (student_id e));
    ("course_id", Dashboard.str_int (course_id e));
    ("enrollment_date", isoformat (enrollment_date e));
    ("status", status e);
    ("final_grade", final_grade e) ].

(** [os.path.join(DATA_DIR, name)] *)
Definition path_join (dir name : string) : string := dir ++ "/" ++ name.

Definition main : M W unit :=
  teachers <- generate_teachers ;;
  students <- generate_students ;;
  courses <- generate_courses teachers ;;
  enrollments <- generate_enrollments students courses ;;
  write_csv (path_join DATA_DIR "teachers.csv") (map teacher_dict teachers)
            ["id"; "first_name"; "last_name"; "email"; "bio"] ;;;
  write_csv (path_join DATA_DIR "students.csv") (map student_dict students)
            ["id"; "first_name"; "last_name"; "email"; "registration_date"] ;;;
  write_csv (path_join DATA_DIR "courses.csv") (map course_dict courses)
            ["id"; "title"; "description"; "level"; "credits";
             "start_date"; "end_date"; "teacher_id"] ;;;
  write_csv (path_join DATA_DIR "enrollments.csv") (map enrollment_dict enrollments)
            ["id"; "student_id"; "course_id"; "enrollment_date"; "status"; "final_grade"].

(** The script as run: the two module-level seedings, the creation of
    the data directory, then [main()]. *)
Definition script : M W unit :=
  random_seed 42 ;;; Faker_seed 42 ;;; makedirs DATA_DIR ;;; main.

(** The contents of the files a run leaves, in the order written, and how
    the run ended ([None]: normally), for a run that starts with the
    generators in the states [g] and [f] and meets the given answers of
    the file system. *)
Definition run (answers : list os_answer) (g : R) (f : F) : option exn * list string :=
  match script (mkworld g f [] answers) with
  | (inr _, w) => (None, map snd (files w))
  | (inl e, w) => (Some e, map snd (files w))
  end.

End Main.
End Run.
End Generator.

(* ================================================================== *)
(** * A small concrete generator, for running the definitions          *)
(* ================================================================== *)

Module Lcg.

(** A linear congruential generator on [Z]; it stands in for the Mersenne
    Twister where a definition has to be evaluated on an example. *)
Definition next (g : Z) : Z := (g * 1103515245 + 12345) mod 2147483648.

Definition random (g : Z) : float * Z :=
  (nth (Z.to_nat (g mod 8))
       [0; 0.125; 0.25; 0.375; 0.5; 0.625; 0.75; 0.875]%float 0%float,
   next g).

Definition randbelow (n g : Z) : Z * Z := (g mod n, next g).

Definition sample_indices (n k : nat) (g : Z) : list nat * Z := (seq 0 k, next g).

Definition name_of (g : Z) : string :=
  nth (Z.to_nat (g mod 3)) ["Ada"; "Grace"; "Alan"] "Ada".

Definition first_name (g : Z) : string * Z := (name_of g, next g).
Definition last_name (g : Z) : string * Z := (name_of (g + 1), next g).
Definition sentence (nb_words g : Z) : string * Z := ("Lorem ipsum.", next g).
Definition paragraph (nb_sentences g : Z) : string * Z := ("Lorem ipsum. Dolor sit.", next g).

#[global] Instance lcg_random : Py.Random Z.
Proof.
  refine {| Py.seed := fun n => n;
            Py.random := random;
            Py.randbelow := randbelow;
            Py.sample_indices := sample_indices |}.
  - intros g. unfold random. cbn [fst].
    pose proof (Z.mod_pos_bound g 8 ltac:(lia)) as Hk.
    assert (Hn : (Z.to_nat (g mod 8) < 8)%nat) by lia.
    remember (Z.to_nat (g mod 8)) as k eqn:Heqk. clear Heqk Hk.
    do 8 (destruct k as [|k]; [split; reflexivity|]).
    lia.
  - intros n g Hn. unfold randbelow; simpl. apply Z.mod_pos_bound, Hn.
  - intros n k g Hk. unfold sample_indices; simpl. split; [apply length_seq|].
    split; [apply seq_NoDup|].
    apply Forall_forall. intros i Hi. apply in_seq in Hi. lia.
Defined.

#[global] Instance lcg_faker : Py.Faker Z :=
  {| Py.faker_seed := fun n => n;
     Py.first_name := first_name;
     Py.last_name := last_name;
     Py.sentence := sentence;
     Py.paragraph := paragraph |}.

End Lcg.

(* ================================================================== *)
(** * Example data                                                     *)
(* ================================================================== *)

Module Example.

Definition ada : Teacher.t := Teacher.mk 1 "Ada" "Byron" "ada.byron1@example.edu" "".
Definition alan : Teacher.t := Teacher.mk 2 "Alan" "Turing" "alan.turing2@example.edu" "".

Definition ann : Student.t := Student.mk 1 "Ann" "Lee" "ann.lee1@student.example.com" 738000.
Definition bob : Student.t := Student.mk 2 "Bob" "Ray" "zed@example.com" 738001.
Definition eve : Student.t := Student.mk 3 "Eve" "Fox" "e\f@example.com" 738002.

Definition intro : Course.t :=
  Course.mk 1 "Introduction to SQL #1" "" "Beginner" 3 738521 738581 1.
Definition docker : Course.t :=
  Course.mk 2 "Docker & Containers #2" "" "Advanced" 4 738600 738650 2.

(** A course that was listed when the page was built and is no longer in
    the table when the inserts run. *)
Definition ghost : Course.t :=
  Course.mk 7 "Cloud Fundamentals #7" "" "Beginner" 3 738700 738760 1.

Definition linux : Course.t :=
  Course.mk 9 "Linux for Developers #9" "" "Intermediate" 5 739300 739360 2.

Definition catalogue : list Course.t := [intro; docker; ghost; linux].

(** A starting state for the example generator. *)
Definition start : Generator.world Z Z := Generator.mkworld 2024 7 [] [].

Definition ann_intro : Enrollment.t := Enrollment.mk 1 1 1 738500 "active" None.

Definition academy : database :=
  mkdb [ada; alan] [ann; bob; eve] [intro; docker] [ann_intro] 4 2.

End Example.

(* ================================================================== *)
(** * Properties of text matching                                      *)
(* ================================================================== *)

Module TextFacts.
Import Text.

Lemma prefix_spec (t s : string) :
  String.prefix t s = true <-> exists b, s = t ++ b.
Proof.
  revert s; induction t as [|c t IH]; intros s; simpl.
  - split; [intros _; exists s; reflexivity | destruct s; reflexivity].
  - destruct s as [|d s].
    + split; [discriminate | intros [b Hb]; discriminate].
    + simpl. destruct (Ascii.ascii_dec c d) as [->|Hne].
      * rewrite IH. split; intros [b Hb]; exists b; [now subst | now inversion Hb].
      * split; [discriminate | intros [b Hb]; inversion Hb; congruence].
Qed.

Lemma contains_spec (t s : string) :
  contains t s = true <-> Substring t s.
Proof.
  unfold Substring. induction s as [|d s IH]; cbn [contains].
  - rewrite orb_false_r, prefix_spec. split.
    + intros [b Hb]. exists "", b. exact Hb.
    + intros [a [b Hab]]. destruct a; [exists b; exact Hab | discriminate].
  - rewrite orb_true_iff, prefix_spec, IH. split.
    + intros [[b Hb] | [a [b Hab]]].
      * exists "", b. exact Hb.
      * exists (String d a), b. simpl. now rewrite Hab.
    + intros [a [b Hab]]. destruct a as [|e a].
      * left. exists b. exact Hab.
      * right. exists a, b. simpl in Hab. now inversion Hab.
Qed.

Lemma lower_app (a b : string) : lower (a ++ b) = lower a ++ lower b.
Proof. induction a as [|c a IH]; simpl; [reflexivity | now rewrite IH]. Qed.

Lemma lower_ascii_meta (c : ascii) :
  Ascii.eqb (lower_ascii c) percent = Ascii.eqb c percent
  /\ Ascii.eqb (lower_ascii c) underscore = Ascii.eqb c underscore
  /\ Ascii.eqb (lower_ascii c) backslash = Ascii.eqb c backslash.
Proof.
  destruct c as [[] [] [] [] [] [] [] []]; vm_compute; repeat split.
Qed.

Lemma plain_lower (t : string) : plain (lower t) = plain t.
Proof.
  induction t as [|c t IH]; simpl; [reflexivity|].
  destruct (lower_ascii_meta c) as (-> & -> & ->). now rewrite IH.
Qed.

Lemma no_escape_lower (t : string) : no_escape (lower t) = no_escape t.
Proof.
  induction t as [|c t IH]; simpl; [reflexivity|].
  destruct (lower_ascii_meta c) as (_ & _ & ->). now rewrite IH.
Qed.

Lemma plain_no_escape (t : string) : plain t = true -> no_escape t = true.
Proof.
  induction t as [|c t IH]; simpl; [reflexivity|].
  rewrite !andb_true_iff. intros [[[_ _] Hb] Hp]. split; [exact Hb | now apply IH].
Qed.

Lemma toks_plain (t : string) : plain t = true -> toks t = lits t.
Proof.
  induction t as [|c t IH]; simpl; [reflexivity|].
  rewrite !andb_true_iff, !negb_true_iff. intros [[[Hp Hu] _] Ht].
  unfold tok_of. rewrite Hp, Hu, IH by assumption. reflexivity.
Qed.

Lemma tokenize_app (t p : string) :
  no_escape t = true ->
  tokenize (t ++ p) = option_map (app (toks t)) (tokenize p).
Proof.
  induction t as [|c t IH]; simpl.
  - intros _. destruct (tokenize p); reflexivity.
  - rewrite andb_true_iff, negb_true_iff. intros [Hc Ht].
    rewrite Hc, IH by assumption. destruct (tokenize p); reflexivity.
Qed.

(** The pattern the search builds always parses when the term has no
    escape character. *)
Lemma tokenize_wrapped (t : string) :
  no_escape t = true ->
  tokenize ("%" ++ t ++ "%") = Some (TAny :: toks t ++ [TAny])%list.
Proof.
  intros Ht. change ("%" ++ t ++ "%") with (String percent (t ++ "%")).
  simpl. rewrite tokenize_app by assumption. reflexivity.
Qed.

Lemma matches_any (ts : list tok) (s : string) :
  matches (TAny :: ts) s = true <-> exists a b, s = a ++ b /\ matches ts b = true.
Proof.
  induction s as [|d s IH].
  - simpl. rewrite orb_false_r. split.
    + intros Hm. exists "", "". split; [reflexivity | exact Hm].
    + intros [a [b [Hab Hm]]]. destruct a; [|discriminate]. simpl in Hab. now subst.
  - change (matches (TAny :: ts) (String d s))
      with (matches ts (String d s) || matches (TAny :: ts) s).
    rewrite orb_true_iff, IH. split.
    + intros [Hm | [a [b [Hab Hm]]]].
      * exists "", (String d s). split; [reflexivity | exact Hm].
      * exists (String d a), b. split; [simpl; now rewrite Hab | exact Hm].
    + intros [a [b [Hab Hm]]]. destruct a as [|e a].
      * left. simpl in Hab. now subst.
      * right. simpl in Hab. inversion Hab; subst. now exists a, b.
Qed.

Lemma matches_only_any (s : string) : matches [TAny] s = true.
Proof. apply matches_any. exists s, "". split; [|reflexivity].
  induction s as [|c s IH]; simpl; [reflexivity | now rewrite <- IH]. Qed.

Lemma matches_lits (t : string) (ts : list tok) (s : string) :
  matches (lits t ++ ts) s = true <-> exists b, s = t ++ b /\ matches ts b = true.
Proof.
  revert s; induction t as [|c t IH]; intros s.
  - simpl. split; [intros Hm; now exists s | intros [b [-> Hm]]; exact Hm].
  - simpl. destruct s as [|d s].
    + split; [discriminate | intros [b [Hb _]]; discriminate].
    + rewrite andb_true_iff, IH. split.
      * intros [Hc [b [-> Hm]]]. apply Ascii.eqb_eq in Hc. subst. now exists b.
      * intros [b [Hb Hm]]. inversion Hb; subst. split; [apply Ascii.eqb_refl | now exists b].
Qed.

Lemma matches_toks (t : string) (ts : list tok) (b : string) :
  matches ts b = true -> matches (toks t ++ ts) (t ++ b) = true.
Proof.
  induction t as [|c t IH]; intros Hm; [exact Hm|].
  change (toks (String c t) ++ ts)%list with (tok_of c :: (toks t ++ ts))%list.
  change (String c t ++ b) with (String c (t ++ b)).
  unfold tok_of.
  destruct (Ascii.eqb c percent); [|destruct (Ascii.eqb c underscore)].
  - apply matches_any. exists (String c ""), (t ++ b). split; [reflexivity | now apply IH].
  - simpl. now apply IH.
  - simpl. rewrite Ascii.eqb_refl. now apply IH.
Qed.

(** For a term without metacharacters, [LIKE '%' || t || '%'] is the
    substring test. *)
Lemma like_plain (t s : string) :
  plain t = true -> like s ("%" ++ t ++ "%") = Some (contains t s).
Proof.
  intros Hp. unfold like.
  rewrite tokenize_wrapped by now apply plain_no_escape.
  rewrite toks_plain by assumption. cbv [option_map]. f_equal.
  apply eq_true_iff_eq. rewrite matches_any, contains_spec. unfold Substring. split.
  - intros [a [b [-> Hm]]]. apply matches_lits in Hm. destruct Hm as [b' [-> _]].
    now exists a, b'.
  - intros [a [b ->]]. exists a, (t ++ b). split; [reflexivity|].
    apply matches_lits. exists b. split; [reflexivity | apply matches_only_any].
Qed.

(** For a term without the escape character, a string that contains it is
    matched by [LIKE '%' || t || '%']. *)
Lemma like_substring (t s : string) :
  no_escape t = true -> Substring t s -> like s ("%" ++ t ++ "%") = Some true.
Proof.
  intros Hn [a [b ->]]. unfold like. rewrite tokenize_wrapped by assumption.
  cbv [option_map]. f_equal. apply matches_any. exists a, (t ++ b). split; [reflexivity|].
  apply matches_toks, matches_only_any.
Qed.

Lemma meta_lower_ascii (c : ascii) : meta c = true -> lower_ascii c = c.
Proof.
  destruct c as [[] [] [] [] [] [] [] []]; vm_compute; intros Hm;
    first [reflexivity | discriminate].
Qed.

(** The lower-casing of the C locale is a folding. *)
Lemma lower_folding : folding lower.
Proof.
  split.
  - reflexivity.
  - intros a c b Hm. rewrite lower_app. cbn [lower].
    now rewrite (meta_lower_ascii c Hm).
  - intros t Hp. now rewrite plain_lower.
Qed.

Lemma no_escape_app (a b : string) :
  no_escape (a ++ b) = (no_escape a && no_escape b)%bool.
Proof.
  induction a as [|c a IH]; simpl; [reflexivity|].
  rewrite IH. now rewrite andb_assoc.
Qed.

Lemma length_app (a b : string) :
  String.length (a ++ b) = (String.length a + String.length b)%nat.
Proof. induction a as [|c a IH]; simpl; [reflexivity | now rewrite IH]. Qed.

(** A text is free of pattern characters, or it has a first one. *)
Lemma first_meta (t : string) :
  plain t = true
  \/ exists a c b, t = a ++ String c b /\ plain a = true /\ meta c = true.
Proof.
  induction t as [|c t IH]; [now left|].
  destruct (meta c) eqn:Hc.
  - right. exists "", c, t. repeat split. exact Hc.
  - unfold meta in Hc. rewrite !orb_false_iff in Hc. destruct Hc as [[Hp Hu] Hb].
    destruct IH as [Ht | (a & m & b & -> & Ha & Hm)].
    + left. simpl. now rewrite Hp, Hu, Hb, Ht.
    + right. exists (String c a), m, b. repeat split; [|exact Hm].
      simpl. now rewrite Hp, Hu, Hb, Ha.
Qed.

Section Folding.
Variable fold : string -> string.
Hypothesis Hfold : folding fold.

Lemma fold_percent_cons (t : string) : fold (String percent t) = String percent (fold t).
Proof.
  change (String percent t) with ("" ++ String percent t).
  rewrite (fold_meta fold Hfold) by reflexivity.
  now rewrite (fold_empty fold Hfold).
Qed.

Lemma fold_backslash_cons (t : string) :
  fold (String backslash t) = String backslash (fold t).
Proof.
  change (String backslash t) with ("" ++ String backslash t).
  rewrite (fold_meta fold Hfold) by reflexivity.
  now rewrite (fold_empty fold Hfold).
Qed.

Lemma fold_wrapped (t : string) : fold ("%" ++ t ++ "%") = "%" ++ fold t ++ "%".
Proof.
  change ("%" ++ t ++ "%") with (String percent (t ++ String percent "")).
  rewrite fold_percent_cons, (fold_meta fold Hfold) by reflexivity.
  now rewrite (fold_empty fold Hfold).
Qed.

Lemma fold_no_escape (t : string) : no_escape t = true -> no_escape (fold t) = true.
Proof.
  assert (Hlen : forall n t, (String.length t <= n)%nat ->
                             no_escape t = true -> no_escape (fold t) = true).
  { clear t. induction n as [|n IH]; intros t Hn Ht.
    - destruct t; [|simpl in Hn; lia].
      now rewrite (fold_empty fold Hfold).
    - destruct (first_meta t) as [Hp | (a & c & b & -> & Ha & Hc)].
      + now apply plain_no_escape, (fold_plain fold Hfold).
      + rewrite (fold_meta fold Hfold) by exact Hc.
        rewrite no_escape_app in Ht |- *. cbn [no_escape] in Ht |- *.
        rewrite !andb_true_iff in Ht |- *. destruct Ht as (_ & Hcb & Hb).
        rewrite length_app in Hn. cbn [String.length] in Hn.
        repeat split.
        * now apply plain_no_escape, (fold_plain fold Hfold).
        * exact Hcb.
        * apply IH; [lia | exact Hb]. }
  apply (Hlen (String.length t)). lia.
Qed.

Lemma ilike_plain (t s : string) :
  plain t = true -> ilike fold s ("%" ++ t ++ "%") = Some (icontains fold t s).
Proof.
  intros Hp. unfold ilike, icontains. rewrite fold_wrapped.
  apply like_plain. now apply (fold_plain fold Hfold).
Qed.

Lemma ilike_substring (t s : string) :
  no_escape t = true -> ISubstring fold t s ->
  ilike fold s ("%" ++ t ++ "%") = Some true.
Proof.
  intros Hn Hs. unfold ilike. rewrite fold_wrapped.
  apply like_substring; [now apply fold_no_escape | exact Hs].
Qed.

Lemma ilike_defined (t s : string) :
  no_escape t = true -> exists b, ilike fold s ("%" ++ t ++ "%") = Some b.
Proof.
  intros Hn. unfold ilike, like. rewrite fold_wrapped, tokenize_wrapped.
  - eexists; reflexivity.
  - now apply fold_no_escape.
Qed.

End Folding.

Lemma icontains_spec (fold : string -> string) (t s : string) :
  icontains fold t s = true <-> ISubstring fold t s.
Proof. apply contains_spec. Qed.

End TextFacts.

(* ================================================================== *)
(** * Properties of [order_by]                                         *)
(* ================================================================== *)

Section SortFacts.
Context {A : Type}.
Variable leb : A -> A -> bool.

Lemma insert_sorted_perm (x : A) (l : list A) :
  Permutation (insert_sorted leb x l) (x :: l).
Proof.
  induction l as [|y l IH]; simpl; [reflexivity|].
  destruct (leb x y); [reflexivity|].
  rewrite IH. apply perm_swap.
Qed.

Lemma order_by_perm (l : list A) : Permutation (order_by leb l) l.
Proof.
  induction l as [|x l IH]; simpl; [reflexivity|].
  rewrite insert_sorted_perm. now constructor.
Qed.

Lemma order_by_In (l : list A) (x : A) : In x (order_by leb l) <-> In x l.
Proof.
  split; apply Permutation_in; [|symmetry]; apply order_by_perm.
Qed.

Lemma order_by_length (l : list A) : List.length (order_by leb l) = List.length l.
Proof. apply Permutation_length, order_by_perm. Qed.

Hypothesis leb_total : forall a b, leb a b = true \/ leb b a = true.

Lemma insert_sorted_sorted (x : A) (l : list A) :
  Sorted (fun a b => leb a b = true) l ->
  Sorted (fun a b => leb a b = true) (insert_sorted leb x l).
Proof.
  induction l as [|y l IH]; simpl; intros Hs.
  - repeat constructor.
  - destruct (leb x y) eqn:Hxy.
    + constructor; [exact Hs | now constructor].
    + apply Sorted_inv in Hs. destruct Hs as [Hs Hhd].
      constructor; [now apply IH|].
      destruct l as [|z l]; simpl.
      * constructor. destruct (leb_total x y); congruence.
      * destruct (leb x z); constructor.
        -- destruct (leb_total x y); congruence.
        -- now inversion Hhd.
Qed.

Lemma order_by_sorted (l : list A) :
  Sorted (fun a b => leb a b = true) (order_by leb l).
Proof.
  induction l as [|x l IH]; simpl; [constructor | now apply insert_sorted_sorted].
Qed.

End SortFacts.

Lemma Sorted_firstn {A} (R : A -> A -> Prop) (n : nat) (l : list A) :
  Sorted R l -> Sorted R (firstn n l).
Proof.
  revert l; induction n as [|n IH]; intros l Hs; [constructor|].
  destruct l as [|x l]; [constructor|].
  apply Sorted_inv in Hs. destruct Hs as [Hs Hhd]. simpl.
  constructor; [now apply IH|].
  destruct l as [|y l]; [destruct n; constructor|].
  destruct n; simpl; constructor. now inversion Hhd.
Qed.

Lemma In_firstn {A} (n : nat) (l : list A) (x : A) : In x (firstn n l) -> In x l.
Proof.
  intros Hin. rewrite <- (firstn_skipn n l). apply in_or_app. now left.
Qed.

(* ================================================================== *)
(** * Student search                                                   *)
(* ================================================================== *)

Module SearchFacts.
Import Text TextFacts Dashboard.

Lemma select_where_filter {A} (p : A -> option bool) (f : A -> bool) (l : list A) :
  (forall x, In x l -> p x = Some (f x)) ->
  select_where p l = Some (filter f l).
Proof.
  induction l as [|x l IH]; intros Hp; simpl; [reflexivity|].
  rewrite (Hp x) by now left. rewrite IH by (intros; apply Hp; now right).
  reflexivity.
Qed.

Lemma select_where_defined {A} (p : A -> option bool) (l : list A) :
  (forall x, In x l -> exists b, p x = Some b) ->
  exists f, (forall x, In x l -> p x = Some (f x)) /\ select_where p l = Some (filter f l).
Proof.
  intros Hp.
  exists (fun x => match p x with Some b => b | None => false end).
  assert (Hf : forall x, In x l ->
                p x = Some (match p x with Some b => b | None => false end)).
  { intros x Hx. destruct (Hp x Hx) as [b ->]. reflexivity. }
  split; [exact Hf | now apply select_where_filter].
Qed.

Section Folding.
Variable fold : string -> string.
Hypothesis Hfold : folding fold.

Lemma students_where_plain (term : string) (s : Student.t) :
  plain term = true -> students_where fold term s = Some (term_occurs fold term s).
Proof.
  intros Hp. unfold students_where, term_occurs.
  rewrite !(ilike_plain fold Hfold) by assumption. reflexivity.
Qed.

Lemma students_where_defined (term : string) (s : Student.t) :
  no_escape term = true -> exists b, students_where fold term s = Some b.
Proof.
  intros Hn. unfold students_where.
  destruct (ilike_defined fold Hfold term (Student.first_name s) Hn) as [a ->].
  destruct (ilike_defined fold Hfold term (Student.last_name s) Hn) as [b ->].
  destruct (ilike_defined fold Hfold term (Student.email s) Hn) as [c ->].
  destruct (ilike_defined fold Hfold term
              (Student.first_name s ++ " " ++ Student.last_name s) Hn) as [f ->].
  eexists; reflexivity.
Qed.

Lemma students_where_email (term : string) (s : Student.t) :
  no_escape term = true -> ISubstring fold term (Student.email s) ->
  students_where fold term s = Some true.
Proof.
  intros Hn He. unfold students_where.
  destruct (ilike_defined fold Hfold term (Student.first_name s) Hn) as [a ->].
  destruct (ilike_defined fold Hfold term (Student.last_name s) Hn) as [b ->].
  rewrite (ilike_substring fold Hfold _ _ Hn He).
  destruct (ilike_defined fold Hfold term
              (Student.first_name s ++ " " ++ Student.last_name s) Hn) as [f ->].
  now rewrite orb_true_r.
Qed.

(** The pattern built from the term that is one backslash is [%\%]: any
    text, then a percent sign taken literally. *)
Lemma matches_literal_percent (x : string) :
  matches [TAny; TLit percent] x = ends_in_percent x.
Proof.
  induction x as [|c x IH]; [reflexivity|].
  change (matches [TAny; TLit percent] (String c x))
    with (matches [TLit percent] (String c x) || matches [TAny; TLit percent] x)%bool.
  rewrite IH. cbn [matches ends_in_percent].
  destruct x as [|d x].
  - cbn [ends_in_percent]. rewrite andb_true_r, orb_false_r. apply Ascii.eqb_sym.
  - now rewrite andb_false_r.
Qed.

Lemma ilike_backslash (x : string) :
  ilike fold x ("%" ++ "\" ++ "%") = Some (ends_in_percent (fold x)).
Proof.
  unfold ilike, like.
  change ("%" ++ "\" ++ "%") with (String percent (String backslash (String percent ""))).
  rewrite (fold_percent_cons fold Hfold), (fold_backslash_cons fold Hfold),
    (fold_percent_cons fold Hfold), (fold_empty fold Hfold).
  cbn [tokenize Ascii.eqb Bool.eqb percent backslash option_map].
  now rewrite matches_literal_percent.
Qed.

End Folding.

Section Collation.
Variable collate : string -> string -> comparison.
Hypothesis collate_antisym : forall a b, collate b a = CompOpp (collate a b).

Lemma by_last_first_total (a b : Student.t) :
  by_last_first collate a b = true \/ by_last_first collate b a = true.
Proof.
  unfold by_last_first, le_of.
  rewrite (collate_antisym (Student.last_name a) (Student.last_name b)).
  rewrite (collate_antisym (Student.first_name a) (Student.first_name b)).
  destruct (collate (Student.last_name a) (Student.last_name b));
    destruct (collate (Student.first_name a) (Student.first_name b)); simpl; auto.
Qed.

End Collation.

(** C4, as amended.  For a non-empty search term without the pattern
    characters [%], [_] and backslash, the search returns the first 50,
    in the order of last name then first name, of exactly those students
    whose first name, last name, email or full name contains the term
    once both are lower-cased as the database does.  The lower-casing
    and the collation are those of the database, whatever they are. *)
Theorem student_search_plain_term
        (collate : string -> string -> comparison)
        (collate_antisym : forall a b, collate b a = CompOpp (collate a b))
        (fold : string -> string) (Hfold : folding fold)
        (term : string) (d : database) :
  term <> "" -> plain term = true ->
  let all := order_by (by_last_first collate)
                      (filter (term_occurs fold term) (student d)) in
  student_search collate fold term d = Some (Some (firstn 50 all))
  /\ (List.length (firstn 50 all) <= 50)%nat
  /\ Sorted (fun a b => by_last_first collate a b = true) (firstn 50 all)
  /\ (forall s, In s (firstn 50 all) ->
        In s (student d)
        /\ (ISubstring fold term (Student.first_name s)
            \/ ISubstring fold term (Student.last_name s)
            \/ ISubstring fold term (Student.email s)
            \/ ISubstring fold term (Student.first_name s ++ " " ++ Student.last_name s)))
  /\ ((List.length all <= 50)%nat ->
      forall s, In s (student d) ->
        (ISubstring fold term (Student.first_name s)
         \/ ISubstring fold term (Student.last_name s)
         \/ ISubstring fold term (Student.email s)
         \/ ISubstring fold term (Student.first_name s ++ " " ++ Student.last_name s)) ->
        In s (firstn 50 all)).
Proof.
  intros Hne Hp all.
  assert (Hocc : forall s, term_occurs fold term s = true <->
            (ISubstring fold term (Student.first_name s)
             \/ ISubstring fold term (Student.last_name s)
             \/ ISubstring fold term (Student.email s)
             \/ ISubstring fold term (Student.first_name s ++ " " ++ Student.last_name s))).
  { intros s. unfold term_occurs. rewrite !orb_true_iff, !icontains_spec. tauto. }
  repeat split.
  - unfold student_search. apply String.eqb_neq in Hne. rewrite Hne.
    unfold query_students, students_matching.
    rewrite (select_where_filter _ (term_occurs fold term))
      by (intros; now apply students_where_plain).
    reflexivity.
  - apply firstn_le_length.
  - apply Sorted_firstn, order_by_sorted, by_last_first_total, collate_antisym.
  - apply In_firstn, order_by_In, filter_In in H. tauto.
  - apply In_firstn, order_by_In, filter_In in H. now apply Hocc.
  - intros Hlen s Hs Hm. rewrite firstn_all2 by exact Hlen.
    apply order_by_In, filter_In. split; [exact Hs | now apply Hocc].
Qed.

Lemma student_search_plain_term_witness :
  "ann" <> "" /\ plain "ann" = true
  /\ student_search String.compare lower "ann" Example.academy
     = Some (Some [Example.ann]).
Proof.
  split; [discriminate|]. split; [reflexivity|].
  pose proof (proj1 (student_search_plain_term String.compare
                       (fun a b => String.compare_antisym b a) lower lower_folding
                       "ann" Example.academy ltac:(discriminate) eq_refl)) as H.
  vm_compute in H. vm_compute. exact H.
Defined.

(** C4, as stated, fails: a student is returned for a term that occurs
    only in the email. *)
Lemma student_search_name_only_counterexample :
  student_search String.compare lower "zed" Example.academy = Some (Some [Example.bob])
  /\ term_in_name lower "zed" Example.bob = false.
Proof. split; vm_compute; reflexivity. Qed.

(** C10.  The search looks for the term in the email too, and finds it
    there for every term without a backslash: a student whose email
    contains such a term, ignoring case, is among the matching rows, and
    is returned when at most 50 rows match.  But the term is put into
    the pattern as it is, where a backslash is the escape character:
    for the term that is one backslash the pattern is [%\%], and the
    search returns only students with a text that ends in a percent
    sign, so it misses the students whose email contains the
    backslash. *)
Theorem student_search_email_backslash
        (collate : string -> string -> comparison)
        (fold : string -> string) (Hfold : folding fold) (d : database) :
  (forall term s,
      term <> "" -> no_escape term = true ->
      In s (student d) -> ISubstring fold term (Student.email s) ->
      exists all,
        students_matching collate fold term d = Some all
        /\ In s all
        /\ student_search collate fold term d = Some (Some (firstn 50 all))
        /\ ((List.length all <= 50)%nat -> In s (firstn 50 all)))
  /\ (exists found,
        student_search collate fold "\" d = Some (Some found)
        /\ forall s, In s found ->
             In s (student d)
             /\ (ends_in_percent (fold (Student.first_name s)) = true
                 \/ ends_in_percent (fold (Student.last_name s)) = true
                 \/ ends_in_percent (fold (Student.email s)) = true
                 \/ ends_in_percent
                      (fold (Student.first_name s ++ " " ++ Student.last_name s)) = true)).
Proof.
  split.
  - intros term s Hne Hn Hs He.
    destruct (select_where_defined (students_where fold term) (student d))
      as [f [Hf Hsel]].
    { intros x _. now apply students_where_defined. }
    exists (order_by (by_last_first collate) (filter f (student d))).
    assert (Hin : In s (order_by (by_last_first collate) (filter f (student d)))).
    { apply order_by_In, filter_In. split; [exact Hs|].
      pose proof (Hf s Hs) as Hfs.
      rewrite (students_where_email fold Hfold _ _ Hn He) in Hfs.
      now inversion Hfs. }
    repeat split.
    + unfold students_matching. now rewrite Hsel.
    + exact Hin.
    + unfold student_search. apply String.eqb_neq in Hne. rewrite Hne.
      unfold query_students, students_matching. now rewrite Hsel.
    + intros Hlen. now rewrite firstn_all2.
  - set (f := fun s : Student.t =>
                (ends_in_percent (fold (Student.first_name s))
                 || ends_in_percent (fold (Student.last_name s))
                 || ends_in_percent (fold (Student.email s))
                 || ends_in_percent
                      (fold (Student.first_name s ++ " " ++ Student.last_name s)))%bool).
    exists (firstn 50 (order_by (by_last_first collate) (filter f (student d)))).
    split.
    + unfold student_search, query_students, students_matching.
      cbn [String.eqb Ascii.eqb Bool.eqb].
      rewrite (select_where_filter _ f); [reflexivity|].
      intros s _. unfold students_where.
      change ("%" ++ "\" ++ "%") with ("%" ++ "\" ++ "%").
      rewrite !(ilike_backslash fold Hfold). reflexivity.
    + intros s Hin. apply In_firstn, order_by_In, filter_In in Hin.
      destruct Hin as [Hs Hf]. split; [exact Hs|].
      unfold f in Hf. rewrite !orb_true_iff in Hf. tauto.
Qed.

Lemma student_search_email_backslash_witness :
  In Example.eve (student Example.academy)
  /\ ISubstring lower "\" (Student.email Example.eve)
  /\ exists found,
      student_search String.compare lower "\" Example.academy = Some (Some found)
      /\ ~ In Example.eve found.
Proof.
  split; [simpl; tauto|].
  split; [exists "e", "f@example.com"; reflexivity|].
  destruct (proj2 (student_search_email_backslash String.compare lower lower_folding
                     Example.academy)) as (found & Hrun & Hall).
  exists found. split; [exact Hrun|].
  intros Hin. destruct (Hall Example.eve Hin) as (_ & [H | [H | [H | H]]]);
    vm_compute in H; discriminate.
Defined.

End SearchFacts.

(* ================================================================== *)
(** * Course overview                                                  *)
(* ================================================================== *)

Module OverviewFacts.
Import Dashboard.

Lemma NoDup_map_eq {A B} (f : A -> B) (l : list A) (x y : A) :
  NoDup (map f l) -> In x l -> In y l -> f x = f y -> x = y.
Proof.
  induction l as [|a l IH]; simpl; intros Hnd Hx Hy Hf; [contradiction|].
  inversion Hnd as [|? ? Hnotin Hnd']; subst.
  destruct Hx as [-> | Hx], Hy as [-> | Hy]; auto.
  - exfalso. apply Hnotin. rewrite Hf. now apply in_map.
  - exfalso. apply Hnotin. rewrite <- Hf. now apply in_map.
Qed.

(** The rows of the two joins. *)
Lemma in_left_join (d : database) (c : Course.t) (t : Teacher.t) (r : joined) :
  In r (left_join_enrollment d c t) <->
  jc r = c /\ jt r = t
  /\ match je r with
     | None => forall e, In e (enrollment d) -> Enrollment.course_id e <> Course.id c
     | Some e => In e (enrollment d) /\ Enrollment.course_id e = Course.id c
     end.
Proof.
  unfold left_join_enrollment.
  destruct (filter (fun e => Enrollment.course_id e =? Course.id c) (enrollment d))
    as [|e0 es] eqn:Hf.
  - simpl. split.
    + intros [<- | []]. simpl. repeat split.
      intros e He Heq.
      assert (Hin : In e (filter (fun e => Enrollment.course_id e =? Course.id c)
                                 (enrollment d))).
      { apply filter_In. split; [exact He | now apply Z.eqb_eq]. }
      rewrite Hf in Hin. exact Hin.
    + intros (Hc & Ht & He). left. destruct r as [c' t' [e|]]; simpl in *; subst.
      * exfalso. destruct He as [He Heq].
        assert (Hin : In e (filter (fun e => Enrollment.course_id e =? Course.id c)
                                   (enrollment d))).
        { apply filter_In. split; [exact He | now apply Z.eqb_eq]. }
        rewrite Hf in Hin. exact Hin.
      * reflexivity.
  - rewrite <- Hf. rewrite in_map_iff. split.
    + intros [e [<- He]]. apply filter_In in He. destruct He as [He Heq].
      apply Z.eqb_eq in Heq. simpl. auto.
    + intros (Hc & Ht & He). destruct r as [c' t' [e|]]; simpl in *; subst.
      * exists e. split; [reflexivity|]. apply filter_In.
        split; [tauto | apply Z.eqb_eq; tauto].
      * exfalso. apply (He e0).
        -- assert (Hin : In e0 (e0 :: es)) by now left.
           rewrite <- Hf in Hin. now apply filter_In in Hin.
        -- assert (Hin : In e0 (e0 :: es)) by now left.
           rewrite <- Hf in Hin. apply filter_In in Hin. now apply Z.eqb_eq.
Qed.

Lemma in_from_clause (d : database) (r : joined) :
  In r (from_clause d) <->
  In (jc r) (course d) /\ In (jt r) (teacher d)
  /\ Teacher.id (jt r) = Course.teacher_id (jc r)
  /\ match je r with
     | None => forall e, In e (enrollment d) -> Enrollment.course_id e <> Course.id (jc r)
     | Some e => In e (enrollment d) /\ Enrollment.course_id e = Course.id (jc r)
     end.
Proof.
  unfold from_clause. rewrite in_flat_map. split.
  - intros [c [Hc Hr]]. apply in_flat_map in Hr. destruct Hr as [t [Ht Hr]].
    apply filter_In in Ht. destruct Ht as [Ht Hid]. apply Z.eqb_eq in Hid.
    apply in_left_join in Hr. destruct Hr as (-> & -> & He). auto.
  - intros (Hc & Ht & Hid & He). exists (jc r). split; [exact Hc|].
    apply in_flat_map. exists (jt r). split.
    + apply filter_In. split; [exact Ht | now apply Z.eqb_eq].
    + apply in_left_join. auto.
Qed.

(** Every course with a teacher has a row in the join. *)
Lemma course_has_row (d : database) (c : Course.t) :
  In c (course d) -> Schema.teacher_exists d (Course.teacher_id c) = true ->
  exists r, In r (from_clause d) /\ jc r = c.
Proof.
  intros Hc Ht. unfold Schema.teacher_exists in Ht. apply existsb_exists in Ht.
  destruct Ht as [t [Ht Hid]]. apply Z.eqb_eq in Hid.
  destruct (filter (fun e => Enrollment.course_id e =? Course.id c) (enrollment d))
    as [|e0 es] eqn:Hf.
  - exists (mkjoined c t None). split; [|reflexivity].
    apply in_from_clause. simpl. repeat split; auto.
    intros e He Heq.
    assert (Hin : In e (filter (fun e => Enrollment.course_id e =? Course.id c)
                               (enrollment d))).
    { apply filter_In. split; [exact He | now apply Z.eqb_eq]. }
    rewrite Hf in Hin. exact Hin.
  - exists (mkjoined c t (Some e0)). split; [|reflexivity].
    assert (Hin : In e0 (e0 :: es)) by now left.
    rewrite <- Hf in Hin. apply filter_In in Hin. destruct Hin as [He Heq].
    apply Z.eqb_eq in Heq. apply in_from_clause. simpl. auto.
Qed.

Lemma same_group_iff (k : group_key) (r : joined) :
  same_group k r = true <-> key_of r = k.
Proof.
  unfold same_group. destruct (group_key_dec (key_of r) k); split; congruence.
Qed.

(** The rows of the statistics: one per group of the filtered join. *)
Lemma in_query_courses_stats (filters : list predicate) (d : database) (row : course_stats) :
  In row (query_courses_stats filters d) <->
  exists r,
    In r (from_clause d) /\ where_clause filters r = true
    /\ row = aggregate (key_of r)
                       (filter (same_group (key_of r))
                               (filter (where_clause filters) (from_clause d))).
Proof.
  unfold query_courses_stats. rewrite order_by_In, in_map_iff. split.
  - intros [k [<- Hk]]. apply nodup_In, in_map_iff in Hk.
    destruct Hk as [r [<- Hr]]. apply filter_In in Hr. exists r. tauto.
  - intros [r (Hr & Hw & ->)]. exists (key_of r). split; [reflexivity|].
    apply nodup_In, in_map. apply filter_In. tauto.
Qed.

Lemma aggregate_columns (r : joined) (rows : list joined) :
  id (aggregate (key_of r) rows) = Course.id (jc r)
  /\ title (aggregate (key_of r) rows) = Course.title (jc r)
  /\ level (aggregate (key_of r) rows) = Course.level (jc r)
  /\ start_date (aggregate (key_of r) rows) = Course.start_date (jc r)
  /\ end_date (aggregate (key_of r) rows) = Course.end_date (jc r)
  /\ teacher_name_col (aggregate (key_of r) rows) = teacher_name (jt r).
Proof. repeat split. Qed.

(** Aggregates over rows without an enrollment are all zero. *)
Lemma aggregate_unmatched (k : group_key) (rows : list joined) :
  (forall r, In r rows -> je r = None) ->
  total_enrollments (aggregate k rows) = 0
  /\ active_count (aggregate k rows) = 0
  /\ completed_count (aggregate k rows) = 0
  /\ dropped_count (aggregate k rows) = 0.
Proof.
  intros Hnone.
  assert (Hsum : forall s, sum (map (case_status s) rows) = 0).
  { intros s. induction rows as [|r rows IH]; [reflexivity|].
    simpl. unfold case_status at 1. rewrite (Hnone r) by now left.
    rewrite IH by (intros; apply Hnone; now right). reflexivity. }
  assert (Hcnt : count_id rows = 0).
  { clear Hsum. unfold count_id. induction rows as [|r rows IH]; [reflexivity|].
    simpl. rewrite (Hnone r) by now left. apply IH. intros; apply Hnone; now right. }
  destruct k as [[[[[i ti] lv] sd] ed] tn]. simpl. auto.
Qed.

Lemma NoDup_map_in {A B} (f : A -> B) (l : list A) :
  (forall x y, In x l -> In y l -> f x = f y -> x = y) ->
  NoDup l -> NoDup (map f l).
Proof.
  induction l as [|a l IH]; intros Hinj Hnd; simpl; [constructor|].
  inversion Hnd as [|? ? Hnotin Hnd']; subst. constructor.
  - intros Hin. apply in_map_iff in Hin. destruct Hin as [b [Hfb Hb]].
    apply Hnotin. rewrite <- (Hinj b a); simpl; auto.
  - apply IH; [|exact Hnd']. intros x y Hx Hy. apply Hinj; simpl; auto.
Qed.

Lemma Sorted_weaken {A} (R R' : A -> A -> Prop) (l : list A) :
  (forall a b, R a b -> R' a b) -> Sorted R l -> Sorted R' l.
Proof.
  intros HR Hs. induction Hs as [|a l Hs IH Hhd]; constructor; [exact IH|].
  destruct Hhd; constructor. now apply HR.
Qed.

(** Under the primary keys, two rows of the join about the same course id
    fall into the same group. *)
Lemma key_of_course_id (d : database) (r1 r2 : joined) :
  Schema.well_formed d ->
  In r1 (from_clause d) -> In r2 (from_clause d) ->
  Course.id (jc r1) = Course.id (jc r2) -> key_of r1 = key_of r2.
Proof.
  intros [Htp Hcp _] H1 H2 Hid.
  apply in_from_clause in H1. destruct H1 as (Hc1 & Ht1 & Hid1 & _).
  apply in_from_clause in H2. destruct H2 as (Hc2 & Ht2 & Hid2 & _).
  assert (Hc : jc r1 = jc r2) by (eapply NoDup_map_eq; eauto).
  assert (Ht : jt r1 = jt r2).
  { eapply NoDup_map_eq; eauto. rewrite Hid1, Hid2, Hc. reflexivity. }
  unfold key_of. now rewrite Hc, Ht.
Qed.

Lemma forallb_levels_dates (level_filter : list string) (start_filter end_filter : date)
      (c : Course.t) :
  forallb (fun p => eval_predicate p c)
          (match level_filter with [] => [] | _ => [level_any level_filter] end
           ++ [start_date_ge start_filter; start_date_le end_filter])%list
  = passes None level_filter start_filter end_filter c.
Proof.
  unfold passes. destruct level_filter as [|l ls]; simpl;
    rewrite ?andb_true_r, ?andb_assoc; reflexivity.
Qed.

Lemma in_teachers_df (collate : string -> string -> comparison) (d : database)
      (r : Z * string) :
  In r (teachers_df collate d) <->
  exists t, In t (teacher d) /\ r = (Teacher.id t, teacher_name t).
Proof.
  unfold teachers_df. rewrite order_by_In, in_map_iff.
  split; intros [t [H1 H2]]; exists t; auto.
Qed.

Lemma build_filters_spec (collate : string -> string -> comparison)
      (teacher_choice : string) (level_filter : list string)
      (start_filter end_filter : date) (d : database) :
  teacher_choice = "All"
  \/ (exists t, In t (teacher d) /\ teacher_name t = teacher_choice) ->
  exists chosen filters,
    build_filters (teachers_df collate d) teacher_choice level_filter
                  start_filter end_filter = inr filters
    /\ (teacher_choice = "All" -> chosen = None)
    /\ (teacher_choice <> "All" ->
        exists t, In t (teacher d) /\ teacher_name t = teacher_choice
                  /\ chosen = Some (Teacher.id t))
    /\ forall c, forallb (fun p => eval_predicate p c) filters
                 = passes chosen level_filter start_filter end_filter c.
Proof.
  intros Hchoice. unfold build_filters.
  destruct (String.eqb teacher_choice "All") eqn:Hall.
  - apply String.eqb_eq in Hall. exists None. eexists. split; [reflexivity|].
    split; [reflexivity|]. split; [congruence|]. apply forallb_levels_dates.
  - apply String.eqb_neq in Hall.
    destruct Hchoice as [Heq | [t [Ht Hname]]]; [congruence|].
    destruct (filter (fun r => String.eqb (snd r) teacher_choice) (teachers_df collate d))
      as [|r rs] eqn:Hf.
    + exfalso.
      assert (Hin : In (Teacher.id t, teacher_name t)
                       (filter (fun r => String.eqb (snd r) teacher_choice)
                               (teachers_df collate d))).
      { apply filter_In. split; [apply in_teachers_df; eauto|].
        simpl. now apply String.eqb_eq. }
      rewrite Hf in Hin. exact Hin.
    + assert (Hin : In r (r :: rs)) by now left.
      rewrite <- Hf in Hin. apply filter_In in Hin. destruct Hin as [Hr Hrn].
      apply String.eqb_eq in Hrn. apply in_teachers_df in Hr.
      destruct Hr as [t' [Ht' ->]]. simpl in Hrn.
      exists (Some (Teacher.id t')). eexists. split; [reflexivity|].
      split; [congruence|]. split; [intros _; eauto|].
      intros c. cbn [forallb eval_predicate fst].
      rewrite forallb_levels_dates. unfold passes. simpl.
      rewrite !andb_assoc. reflexivity.
Qed.

(** C2.  In a database that satisfies its keys, and for a teacher choice
    that is "All" or the name of a teacher, the course overview returns
    one row for each course that passes the filter set and no other row:
    the teacher matches when one is chosen, the level is among the chosen
    levels when some are chosen, and the start date lies in the closed
    range; the rows are in ascending order of start date. *)
Theorem course_overview_filters
        (collate : string -> string -> comparison)
        (teacher_choice : string) (level_filter : list string)
        (start_filter end_filter : date) (d : database) :
  Schema.well_formed d ->
  teacher_choice = "All"
  \/ (exists t, In t (teacher d) /\ teacher_name t = teacher_choice) ->
  exists chosen rows,
    course_overview collate teacher_choice level_filter start_filter end_filter d
    = inr rows
    /\ (teacher_choice = "All" -> chosen = None)
    /\ (teacher_choice <> "All" ->
        exists t, In t (teacher d) /\ teacher_name t = teacher_choice
                  /\ chosen = Some (Teacher.id t))
    /\ (forall row, In row rows ->
          exists c, In c (course d)
                    /\ passes chosen level_filter start_filter end_filter c = true
                    /\ id row = Course.id c /\ title row = Course.title c
                    /\ level row = Course.level c
                    /\ start_date row = Course.start_date c
                    /\ end_date row = Course.end_date c)
    /\ (forall c, In c (course d) ->
          passes chosen level_filter start_filter end_filter c = true ->
          exists row, In row rows /\ id row = Course.id c)
    /\ NoDup (map id rows)
    /\ Sorted (fun a b => start_date a <= start_date b) rows.
Proof.
  intros Hwf Hchoice.
  destruct (build_filters_spec collate teacher_choice level_filter
                               start_filter end_filter d Hchoice)
    as (chosen & filters & Hbuild & Hall & Hone & Hpass).
  exists chosen, (query_courses_stats filters d).
  unfold course_overview. rewrite Hbuild.
  split; [reflexivity|]. split; [exact Hall|]. split; [exact Hone|].
  split; [|split; [|split]].
  - intros row Hrow. apply in_query_courses_stats in Hrow.
    destruct Hrow as [r (Hr & Hw & ->)].
    exists (jc r). apply in_from_clause in Hr. destruct Hr as (Hc & _).
    split; [exact Hc|]. split; [rewrite <- Hpass; exact Hw|].
    repeat split.
  - intros c Hc Hp.
    destruct (course_has_row d c Hc (Schema.course_teacher_fkey d Hwf c Hc))
      as [r [Hr <-]].
    eexists. split.
    + apply in_query_courses_stats. exists r. split; [exact Hr|].
      split; [|reflexivity]. unfold where_clause. now rewrite Hpass.
    + reflexivity.
  - unfold query_courses_stats.
    eapply Permutation_NoDup.
    { apply Permutation_map. symmetry. apply order_by_perm. }
    rewrite map_map. apply NoDup_map_in; [|apply NoDup_nodup].
    intros k1 k2 Hk1 Hk2 Hid.
    apply nodup_In, in_map_iff in Hk1. destruct Hk1 as [r1 [<- Hr1]].
    apply nodup_In, in_map_iff in Hk2. destruct Hk2 as [r2 [<- Hr2]].
    apply filter_In in Hr1. apply filter_In in Hr2.
    apply (key_of_course_id d); tauto.
  - unfold query_courses_stats.
    eapply Sorted_weaken; [|apply order_by_sorted].
    + intros a b Hab. now apply Z.leb_le.
    + intros a b. simpl. rewrite !Z.leb_le. lia.
Qed.

(** C3.  A course that passes the filters (and whose teacher exists) but
    has no enrollment has a row in the statistics, and every row for it
    has total, active, completed and dropped counts equal to zero. *)
Theorem zero_enrollment_course_counts
        (filters : list predicate) (d : database) (c : Course.t) :
  In c (course d) ->
  Schema.teacher_exists d (Course.teacher_id c) = true ->
  forallb (fun p => eval_predicate p c) filters = true ->
  (forall e, In e (enrollment d) -> Enrollment.course_id e <> Course.id c) ->
  (exists row, In row (query_courses_stats filters d) /\ id row = Course.id c)
  /\ (forall row, In row (query_courses_stats filters d) -> id row = Course.id c ->
        total_enrollments row = 0 /\ active_count row = 0
        /\ completed_count row = 0 /\ dropped_count row = 0).
Proof.
  intros Hc Ht Hp Hnone. split.
  - destruct (course_has_row d c Hc Ht) as [r [Hr <-]].
    eexists. split.
    + apply in_query_courses_stats. exists r. auto.
    + reflexivity.
  - intros row Hrow Hid. apply in_query_courses_stats in Hrow.
    destruct Hrow as [r (Hr & Hw & ->)].
    apply aggregate_unmatched. intros r' Hr'.
    apply filter_In in Hr'. destruct Hr' as [Hr' Hsame].
    apply filter_In in Hr'. destruct Hr' as [Hr' _].
    apply same_group_iff in Hsame.
    assert (Hid' : Course.id (jc r') = Course.id c).
    { change (Course.id (jc r')) with (fst (fst (fst (fst (fst (key_of r')))))).
      rewrite Hsame. exact Hid. }
    apply in_from_clause in Hr'. destruct Hr' as (_ & _ & _ & He).
    destruct (je r') as [e|]; [|reflexivity].
    exfalso. destruct He as [He Heq]. apply (Hnone e He). congruence.
Qed.

Lemma academy_well_formed : Schema.well_formed Example.academy.
Proof.
  split.
  - simpl. repeat constructor; simpl; intuition discriminate.
  - simpl. repeat constructor; simpl; intuition discriminate.
  - intros c [<- | [<- | []]]; reflexivity.
Qed.

Lemma course_overview_filters_witness :
  exists rows,
    course_overview String.compare "Ada Byron" ["Beginner"] 738000 739000 Example.academy
    = inr rows
    /\ NoDup (map id rows)
    /\ Sorted (fun a b => start_date a <= start_date b) rows.
Proof.
  destruct (course_overview_filters String.compare "Ada Byron" ["Beginner"]
              738000 739000 Example.academy academy_well_formed)
    as (chosen & rows & Hrows & _ & _ & _ & _ & Hnd & Hsorted).
  - right. exists Example.ada. split; [simpl; tauto | reflexivity].
  - exists rows. auto.
Defined.

Lemma zero_enrollment_course_counts_witness :
  exists row,
    In row (query_courses_stats [] Example.academy)
    /\ id row = 2 /\ total_enrollments row = 0 /\ active_count row = 0
    /\ completed_count row = 0 /\ dropped_count row = 0.
Proof.
  assert (Hnone : forall e, In e (enrollment Example.academy) ->
                            Enrollment.course_id e <> Course.id Example.docker).
  { intros e [<- | []]. discriminate. }
  destruct (zero_enrollment_course_counts [] Example.academy Example.docker
              ltac:(simpl; tauto) eq_refl eq_refl Hnone)
    as [[row [Hrow Hid]] Hzero].
  exists row. split; [exact Hrow|]. split; [exact Hid|]. now apply Hzero.
Defined.

End OverviewFacts.

(* ================================================================== *)
(** * Adding a student                                                 *)
(* ================================================================== *)

Module ManageFacts.
Import Dashboard.

(** C5.  A submission whose first name, last name or email is empty is
    answered with the validation error, and the database is left exactly
    as it was: no statement is run. *)
Theorem add_student_requires_fields
        (str : exn -> string) (current_date : date) (courses_df : list Course.t)
        (first_name last_name email : string) (registration_date : date)
        (selected_courses_labels : list string) (d : database) :
  first_name = "" \/ last_name = "" \/ email = "" ->
  add_student_form str current_date courses_df true first_name last_name email
                   registration_date selected_courses_labels d
  = (inr (Some error_required), d).
Proof.
  intros Hempty. unfold add_student_form. simpl negb. cbv iota.
  assert (Htest : (String.eqb first_name "" || String.eqb last_name ""
                   || String.eqb email "")%bool = true).
  { rewrite !orb_true_iff, !String.eqb_eq. tauto. }
  rewrite Htest. reflexivity.
Qed.

Lemma add_student_requires_fields_witness :
  add_student_form (fun _ => "") 739000 [Example.intro] true "Dan" "Poe" ""
                   739000 ["Introduction to SQL #1 (#1)"] Example.academy
  = (inr (Some error_required), Example.academy).
Proof.
  apply (add_student_requires_fields (fun _ => "") 739000 [Example.intro]
           "Dan" "Poe" "" 739000 ["Introduction to SQL #1 (#1)"] Example.academy).
  right. right. reflexivity.
Defined.

(** C1 fails on the code.  The student is inserted in one transaction
    and each enrollment in a transaction of its own.  Here the second of
    three chosen courses is no longer in the course table: its insert is
    refused, an error is shown, and the student row and the first
    enrollment stay in the database. *)
Theorem add_student_partial_write (str : exn -> string) :
  let dan := Student.mk 4 "Dan" "Poe" "dan@example.com" 739000 in
  exists msg d',
    add_student_form str 739000 [Example.intro; Example.docker; Example.ghost] true
                     "Dan" "Poe" "dan@example.com" 739000
                     ["Introduction to SQL #1 (#1)"; "Cloud Fundamentals #7 (#7)";
                      "Docker & Containers #2 (#2)"]
                     Example.academy
    = (inr (Some msg), d')
    /\ (msg = error_duplicate_email \/ exists text, msg = error_saving text)
    /\ student d' = (student Example.academy ++ [dan])%list
    /\ enrollment d'
       = (enrollment Example.academy ++ [Enrollment.mk 2 4 1 739000 "active" None])%list.
Proof.
  intros dan.
  assert (Hbody :
            create_student_and_enroll 739000
              [Example.intro; Example.docker; Example.ghost]
              "Dan" "Poe" "dan@example.com" 739000
              ["Introduction to SQL #1 (#1)"; "Cloud Fundamentals #7 (#7)";
               "Docker & Containers #2 (#2)"]
              Example.academy
            = (inl (IntegrityError (ForeignKeyViolation "enrollment_course_id_fkey")),
               mkdb (teacher Example.academy)
                    (student Example.academy ++ [dan])%list
                    (course Example.academy)
                    (enrollment Example.academy
                     ++ [Enrollment.mk 2 4 1 739000 "active" None])%list
                    5 4)).
  { vm_compute. reflexivity. }
  unfold add_student_form, try_except. cbn [negb orb String.eqb Ascii.eqb Bool.eqb].
  rewrite Hbody. unfold report_failure.
  match goal with
  | |- context [ if ?b then _ else _ ] => destruct b
  end; do 2 eexists; (split; [reflexivity|]); split; eauto.
Qed.

End ManageFacts.

(* ================================================================== *)
(** * The data generator                                               *)
(* ================================================================== *)

Module GeneratorFacts.
Import Py Generator.

(** ** Reasoning about runs *)

Lemma bind_inr {S A B} (c : M S A) (k : A -> M S B) (s s' : S) (b : B) :
  bind c k s = (inr b, s') ->
  exists a s1, c s = (inr a, s1) /\ k a s1 = (inr b, s').
Proof.
  unfold bind. destruct (c s) as [[e|a] s1]; [discriminate|]. intros Hk. eauto.
Qed.

Lemma bind_ok {S A B} (c : M S A) (k : A -> M S B) (s s1 : S) (a : A) :
  c s = (inr a, s1) -> bind c k s = k a s1.
Proof. unfold bind. now intros ->. Qed.

(** An invariant of the local variables of a loop holds when the loop
    ends normally. *)
Lemma for_fold_inv {S A B} (I : B -> Prop) (l : list A) (body : B -> A -> M S B) :
  (forall acc x s acc' s', In x l -> I acc -> body acc x s = (inr acc', s') -> I acc') ->
  forall acc s r s', I acc -> for_fold l acc body s = (inr r, s') -> I r.
Proof.
  induction l as [|x l IH]; intros Hbody acc s r s' Hacc Hrun.
  - simpl in Hrun. unfold ret in Hrun. now inversion Hrun; subst.
  - simpl in Hrun. apply bind_inr in Hrun. destruct Hrun as (acc1 & s1 & Hx & Hrest).
    apply (IH (fun acc x s acc' s' Hin => Hbody acc x s acc' s' (or_intror Hin))
              acc1 s1 r s'); [|exact Hrest].
    apply (Hbody acc x s acc1 s1); simpl; auto.
Qed.

(** A loop whose body never raises ends normally. *)
Lemma for_fold_returns {S A B} (l : list A) (body : B -> A -> M S B) :
  (forall acc x s, In x l -> exists acc' s', body acc x s = (inr acc', s')) ->
  forall acc s, exists r s', for_fold l acc body s = (inr r, s').
Proof.
  induction l as [|x l IH]; intros Hbody acc s.
  - simpl. unfold ret. eauto.
  - destruct (Hbody acc x s (or_introl eq_refl)) as (acc1 & s1 & Hx).
    destruct (IH (fun acc x s Hin => Hbody acc x s (or_intror Hin)) acc1 s1)
      as (r & s' & Hrest).
    exists r, s'. simpl. rewrite (bind_ok _ _ _ _ _ Hx). exact Hrest.
Qed.

Lemma for_collect_Forall {S A B} (P : B -> Prop) (l : list A) (body : A -> M S B) :
  (forall x s y s', body x s = (inr y, s') -> P y) ->
  forall s ys s', for_collect l body s = (inr ys, s') -> Forall P ys.
Proof.
  intros Hbody. induction l as [|x l IH]; intros s ys s' Hrun.
  - simpl in Hrun. unfold ret in Hrun. inversion Hrun; subst. constructor.
  - simpl in Hrun. apply bind_inr in Hrun. destruct Hrun as (y & s1 & Hy & Hrest).
    apply bind_inr in Hrest. destruct Hrest as (ys1 & s2 & Hys & Hret).
    unfold ret in Hret. inversion Hret; subst.
    constructor; [eapply Hbody; eauto | eapply IH; eauto].
Qed.

Section Run.
Context {R F : Type} `{Random R} `{Faker F}.

Local Abbreviation W := (world R F).

Lemma randint_spec (a b : Z) (w : W) :
  (a <= b -> exists n w', randint a b w = (inr n, w') /\ a <= n <= b)
  /\ (forall n w', randint a b w = (inr n, w') -> a <= n <= b).
Proof.
  unfold randint. destruct (0 <? b + 1 - a) eqn:Hw.
  - apply Z.ltb_lt in Hw.
    pose proof (randbelow_range (b + 1 - a) (rng w) Hw) as Hr.
    unfold bind, with_rng, ret.
    destruct (randbelow (b + 1 - a) (rng w)) as [n g] eqn:Hn. simpl in Hr.
    split.
    + intros _. do 2 eexists. split; [reflexivity | lia].
    + intros n' w' Heq. inversion Heq; subst. lia.
  - apply Z.ltb_ge in Hw. split.
    + intros Hab. lia.
    + intros n w' Heq. discriminate.
Qed.

Lemma random_date_between_spec (start end_ : date) (w : W) :
  (start <= end_ ->
   exists dt w', random_date_between start end_ w = (inr dt, w') /\ start <= dt <= end_)
  /\ (forall dt w', random_date_between start end_ w = (inr dt, w') ->
                    start <= dt <= end_).
Proof.
  unfold random_date_between. split.
  - intros Hle.
    destruct (proj1 (randint_spec 0 (end_ - start) w) ltac:(lia)) as (n & w' & Hn & Hr).
    exists (start + n), w'. rewrite (bind_ok _ _ _ _ _ Hn). unfold ret.
    split; [reflexivity | lia].
  - intros dt w' Hrun. apply bind_inr in Hrun. destruct Hrun as (n & w1 & Hn & Hret).
    apply (proj2 (randint_spec 0 (end_ - start) w)) in Hn.
    unfold ret in Hret. inversion Hret; subst. lia.
Qed.

Lemma mid_between (lo hi : nat) :
  (lo < hi)%nat -> (lo <= (lo + hi) / 2 < hi)%nat.
Proof.
  intros Hlt.
  pose proof (Nat.div_mod_eq (lo + hi) 2) as Hd.
  pose proof (Nat.mod_upper_bound (lo + hi) 2 ltac:(lia)) as Hm.
  lia.
Qed.

(** The binary search returns a position between its bounds, and turns
    beyond [hi - lo] change nothing: the loop has ended by then. *)
Lemma bisect_loop_bounds (turns : nat) (a : list float) (x : float) :
  forall lo hi, (lo <= hi)%nat ->
                (lo <= bisect_loop turns a x lo hi <= hi)%nat.
Proof.
  induction turns as [|turns IH]; intros lo hi Hle; cbn [bisect_loop]; [lia|].
  destruct (lo <? hi)%nat eqn:Hlt; [|lia].
  apply Nat.ltb_lt in Hlt. pose proof (mid_between lo hi Hlt) as Hmid.
  cbv zeta. destruct (x <? nth ((lo + hi) / 2) a 0)%float.
  - specialize (IH lo ((lo + hi) / 2)%nat ltac:(lia)). lia.
  - specialize (IH ((lo + hi) / 2 + 1)%nat hi ltac:(lia)). lia.
Qed.

Lemma bisect_loop_turns (a : list float) (x : float) (turns : nat) :
  forall lo hi extra, (hi - lo <= turns)%nat ->
    bisect_loop (turns + extra) a x lo hi = bisect_loop turns a x lo hi.
Proof.
  induction turns as [|turns IH]; intros lo hi extra Hle.
  - destruct extra as [|extra]; [reflexivity|]. cbn [Nat.add bisect_loop].
    destruct (lo <? hi)%nat eqn:Hlt; [|reflexivity].
    apply Nat.ltb_lt in Hlt. lia.
  - cbn [Nat.add bisect_loop]. destruct (lo <? hi)%nat eqn:Hlt; [|reflexivity].
    apply Nat.ltb_lt in Hlt. pose proof (mid_between lo hi Hlt) as Hmid.
    cbv zeta. destruct (x <? nth ((lo + hi) / 2) a 0)%float; apply IH; lia.
Qed.

Lemma bisect_le (a : list float) (x : float) (hi : nat) : (bisect a x 0 hi <= hi)%nat.
Proof. unfold bisect. apply bisect_loop_bounds. lia. Qed.

Lemma accumulate_length (weights : list float) :
  List.length (accumulate weights) = List.length weights.
Proof.
  destruct weights as [|q ws]; [reflexivity|]. simpl. f_equal.
  generalize q. induction ws as [|q' ws IH]; intros q0; simpl; [reflexivity|].
  now rewrite IH.
Qed.

(** A weighted choice from a well-formed table returns a member of the
    population and uses one draw of [random()]. *)
Lemma choices_spec {A} (population : list A) (weights : list float) (w : W) :
  population <> [] ->
  List.length weights = List.length population ->
  (last (accumulate weights) 0 + 0 <=? 0)%float = false ->
  is_finite (last (accumulate weights) 0 + 0)%float = true ->
  exists x,
    choices population weights w = (inr x, after_random w) /\ In x population.
Proof.
  intros Hne Hlen Htot Hfin. unfold choices.
  cbv zeta. rewrite accumulate_length, Hlen, Nat.eqb_refl. cbn [negb].
  destruct population as [|x0 pop]; [congruence|].
  rewrite Htot, Hfin. cbn [negb]. unfold bind, with_rng, ret, after_random.
  destruct (random (rng w)) as [u g]. cbn [snd].
  eexists. split; [reflexivity|].
  apply nth_In.
  pose proof (bisect_le (accumulate weights)
                        (u * (last (accumulate weights) 0 + 0))%float
                        (List.length (x0 :: pop) - 1)) as Hb.
  simpl in *. lia.
Qed.

(** The choice among three, spelled out: the search looks at the second
    running sum first. *)
Lemma choices_three (a b c : string) (wa wb wc : float) (w : W) :
  (wa + wb + wc + 0 <=? 0)%float = false ->
  is_finite (wa + wb + wc + 0)%float = true ->
  choices [a; b; c] [wa; wb; wc] w
  = (inr (let x := (fst (random (rng w)) * (wa + wb + wc + 0))%float in
          if (x <? wa + wb)%float then if (x <? wa)%float then a else b else c),
     after_random w).
Proof.
  intros Htot Hfin. unfold choices, accumulate, accumulate_from.
  cbv zeta. cbn [List.length Nat.eqb negb last Nat.sub].
  rewrite Htot, Hfin. cbn [negb]. unfold bind, with_rng, ret, after_random.
  destruct (random (rng w)) as [u g]. cbn [fst snd].
  unfold bisect.
  change (bisect_loop (2 - 0) [wa; (wa + wb)%float; (wa + wb + wc)%float]
                      (u * (wa + wb + wc + 0))%float 0 2)
    with (if (u * (wa + wb + wc + 0) <? wa + wb)%float
          then if (u * (wa + wb + wc + 0) <? wa)%float then 0%nat else 1%nat
          else 2%nat).
  destruct (u * (wa + wb + wc + 0) <? wa + wb)%float; [|reflexivity].
  destruct (u * (wa + wb + wc + 0) <? wa)%float; reflexivity.
Qed.

(** ** The order of binary64 numbers *)

Lemma SFltb_SFleb_trans (x a b : spec_float) :
  SFltb x a = true -> SFleb a b = true -> SFltb x b = true.
Proof.
  unfold SFltb, SFleb.
  destruct x as [sx|sx| |sx mx ex], a as [sa|sa| |sa ma ea], b as [sb|sb| |sb mb eb];
    cbn [SFcompare]; try discriminate; try (intros; assumption);
    repeat match goal with s : bool |- _ => destruct s end;
    try discriminate; try reflexivity; try (intros; assumption).
  all: change (PosDef.Pos.compare_cont Eq) with Pos.compare.
  all: destruct (Z.compare_spec ex ea); destruct (Z.compare_spec ea eb);
       destruct (Z.compare_spec ex eb); try lia; try discriminate; try reflexivity.
  all: subst.
  all: destruct (Pos.compare_spec mx ma); destruct (Pos.compare_spec ma mb);
       destruct (Pos.compare_spec mx mb); simpl in *;
       try lia; try discriminate; try reflexivity.
Qed.

(** What lies below a number lies below every number that is not
    smaller. *)
Lemma ltb_leb_trans (x a b : float) :
  (x <? a)%float = true -> (a <=? b)%float = true -> (x <? b)%float = true.
Proof.
  rewrite !FloatAxioms.ltb_spec, FloatAxioms.leb_spec. apply SFltb_SFleb_trans.
Qed.

(** The three-way choice in plain words, for weights whose first
    running sum is not above the second. *)
Lemma drawn_three (u total w1 w2 : float) (first second third : string) :
  first <> second -> first <> third -> second <> third ->
  (w1 <=? w1 + w2)%float = true ->
  drawn u total w1 w2 first second third
        (let x := (u * total)%float in
         if (x <? w1 + w2)%float then if (x <? w1)%float then first else second
         else third).
Proof.
  intros H12 H13 H23 Hle. unfold drawn. cbv zeta.
  destruct (u * total <? w1 + w2)%float eqn:H2;
    destruct (u * total <? w1)%float eqn:H1;
    try (rewrite (ltb_leb_trans _ _ _ H1 Hle) in H2; discriminate);
    repeat split; intros; try reflexivity; try discriminate; try congruence;
    try match goal with Hc : _ /\ _ |- _ => destruct Hc; congruence end.
Qed.

Lemma grade_choice (w : W) :
  exists g,
    choices ["A"; "B"; "C"; "D"; "E"; "F"]
            [0.25; 0.30; 0.25; 0.10; 0.05; 0.05]%float w = (inr g, after_random w)
    /\ In g ["A"; "B"; "C"; "D"; "E"; "F"].
Proof.
  apply choices_spec; [discriminate | reflexivity | reflexivity | reflexivity].
Qed.

(** What [choose_status_and_grade] returns, in terms of the status draw. *)
Lemma choose_status_and_grade_run
      (course_start course_end enrollment_date : date) (w : W) :
  exists status,
    (if course_end <? today then
       choices ["completed"; "active"; "dropped"] [0.75; 0.05; 0.20]%float
     else if today <? course_start then
       choices ["active"; "completed"; "dropped"] [0.70; 0.0; 0.30]%float
     else
       choices ["active"; "completed"; "dropped"] [0.60; 0.20; 0.20]%float) w
    = (inr status, after_random w)
    /\ In status ["completed"; "active"; "dropped"]
    /\ ((status = "completed"
         /\ exists g,
             choices ["A"; "B"; "C"; "D"; "E"; "F"]
                     [0.25; 0.30; 0.25; 0.10; 0.05; 0.05]%float (after_random w)
             = (inr g, after_random (after_random w))
             /\ In g ["A"; "B"; "C"; "D"; "E"; "F"]
             /\ choose_status_and_grade course_start course_end enrollment_date w
                = (inr (status, Some g), after_random (after_random w)))
        \/ (status <> "completed"
            /\ choose_status_and_grade course_start course_end enrollment_date w
               = (inr (status, None), after_random w))).
Proof.
  assert (Hdraw : exists status,
             (if course_end <? today then
                choices ["completed"; "active"; "dropped"] [0.75; 0.05; 0.20]%float
              else if today <? course_start then
                choices ["active"; "completed"; "dropped"] [0.70; 0.0; 0.30]%float
              else
                choices ["active"; "completed"; "dropped"] [0.60; 0.20; 0.20]%float) w
             = (inr status, after_random w)
             /\ In status ["completed"; "active"; "dropped"]).
  { destruct (course_end <? today); [|destruct (today <? course_start)];
      (edestruct (@choices_spec string) as [st [Hst Hin]];
       [| | | | exists st; split; [exact Hst|]]);
      try discriminate; try reflexivity;
      simpl in Hin; simpl; tauto. }
  destruct Hdraw as [status [Hst Hin]]. exists status.
  split; [exact Hst|]. split; [exact Hin|].
  unfold choose_status_and_grade.
  rewrite (bind_ok _ _ _ _ _ Hst).
  destruct (grade_choice (after_random w)) as [g [Hg Hgin]].
  destruct (String.eqb status "completed") eqn:Hc.
  - left. apply String.eqb_eq in Hc. split; [exact Hc|]. exists g.
    split; [exact Hg|]. split; [exact Hgin|].
    unfold bind at 1. unfold bind at 1. rewrite Hg. reflexivity.
  - right. apply String.eqb_neq in Hc. split; [exact Hc | reflexivity].
Qed.

(** The status that [choose_status_and_grade] returns is drawn with the
    weights of the position of the reference date. *)
Lemma choose_status_drawn
      (course_start course_end enrollment_date : date) (w : W)
      (status : string) (grade : option string) (w' : W) :
  choose_status_and_grade course_start course_end enrollment_date w
  = (inr (status, grade), w') ->
  let u := fst (random (rng w)) in
  (course_end < today ->
   drawn u 1 0.75 0.05 "completed" "active" "dropped" status)
  /\ (today <= course_end -> today < course_start ->
      drawn u 1 0.70 0.0 "active" "completed" "dropped" status
      /\ status <> "completed")
  /\ (course_start <= today <= course_end ->
      drawn u 1 0.60 0.20 "active" "completed" "dropped" status).
Proof.
  intros Hrun u.
  destruct (choose_status_and_grade_run course_start course_end enrollment_date w)
    as (st & Hst & _ & Hcases).
  assert (Heq : st = status).
  { destruct Hcases as [(_ & g & _ & _ & Hr) | (_ & Hr)];
      rewrite Hr in Hrun; now inversion Hrun. }
  subst st. clear Hcases Hrun.
  destruct (course_end <? today) eqn:Hpast;
    [|destruct (today <? course_start) eqn:Hfuture];
    rewrite choices_three in Hst by reflexivity;
    inversion Hst as [Hstatus]; clear Hst;
    rewrite ?Z.ltb_lt, ?Z.ltb_ge in *; fold u.
  - change (0.75 + 0.05 + 0.20 + 0)%float with 1%float.
    split; [|split]; intros; try lia.
    apply drawn_three; [discriminate | discriminate | discriminate | reflexivity].
  - change (0.70 + 0.0 + 0.30 + 0)%float with 1%float.
    split; [|split]; intros; try lia.
    split; [apply drawn_three; [discriminate | discriminate | discriminate | reflexivity]|].
    cbv zeta. change (0.70 + 0.0)%float with 0.70%float.
    destruct (u * 1 <? 0.70)%float; discriminate.
  - change (0.60 + 0.20 + 0.20 + 0)%float with 1%float.
    split; [|split]; intros; try lia.
    apply drawn_three; [discriminate | discriminate | discriminate | reflexivity].
Qed.

Lemma sample_spec {A} (population : list A) (k : Z) (w : W) :
  (0 <= k <= Z.of_nat (List.length population) ->
   exists l w', sample population k w = (inr l, w'))
  /\ (forall l w', sample population k w = (inr l, w') -> incl l population).
Proof.
  unfold sample.
  destruct ((0 <=? k) && (k <=? Z.of_nat (List.length population)))%bool eqn:Hk.
  - apply andb_true_iff in Hk. destruct Hk as [Hk0 Hkn].
    apply Z.leb_le in Hk0. apply Z.leb_le in Hkn.
    destruct population as [|x0 pop].
    + split; [intros _; unfold ret; eauto|].
      intros l w' Hret. unfold ret in Hret. inversion Hret. intros x [].
    + remember (x0 :: pop) as pl eqn:Hpl.
      assert (Hle : (Z.to_nat k <= List.length pl)%nat) by lia.
      pose proof (sample_indices_spec _ _ (rng w) Hle) as (_ & _ & Hidx).
      unfold bind, with_rng, ret.
      destruct (sample_indices (List.length pl) (Z.to_nat k) (rng w)) as [idx g].
      split; [intros _; eauto|].
      intros l w' Hret. injection Hret as <- _. intros x Hx.
      apply in_map_iff in Hx. destruct Hx as [i [<- Hi]].
      apply nth_In. cbn [fst] in Hidx. rewrite Forall_forall in Hidx. now apply Hidx.
  - split; [|discriminate].
    intros Hr. apply andb_false_iff in Hk. rewrite Z.leb_gt, Z.leb_gt in Hk. lia.
Qed.

(** One pass of the inner loop appends one row, for the course at hand. *)
Lemma enroll_spec (student : Student.t) (acc : list enrollment_row * Z)
      (course : Course.t) (w : W) :
  (Course.start_date course - 30 <= Course.end_date course ->
   exists acc' w', enroll student acc course w = (inr acc', w'))
  /\ (forall acc' w', enroll student acc course w = (inr acc', w') ->
        exists row,
          acc' = ((fst acc ++ [row])%list, snd acc + 1)
          /\ id row = snd acc
          /\ student_id row = Student.id student
          /\ course_id row = Course.id course
          /\ Course.start_date course - 30 <= enrollment_date row
             <= Z.min (Course.start_date course + 20) (Course.end_date course)
          /\ grade_consistent row).
Proof.
  destruct acc as [enrollments enrollment_id]. unfold enroll.
  set (lo := Course.start_date course - 30).
  set (hi := Z.min (Course.start_date course + 20) (Course.end_date course)).
  split.
  - intros Hwin.
    destruct (proj1 (random_date_between_spec lo hi w) ltac:(subst lo hi; lia))
      as (dt & w1 & Hdt & _).
    rewrite (bind_ok _ _ _ _ _ Hdt).
    destruct (choose_status_and_grade_run (Course.start_date course)
                (Course.end_date course) dt w1) as (st & _ & _ & Hrun).
    destruct Hrun as [(_ & g & _ & _ & Hr) | (_ & Hr)];
      rewrite (bind_ok _ _ _ _ _ Hr); unfold ret; eauto.
  - intros acc' w' Hrun.
    apply bind_inr in Hrun. destruct Hrun as (dt & w1 & Hdt & Hrun).
    apply (proj2 (random_date_between_spec lo hi w)) in Hdt.
    apply bind_inr in Hrun. destruct Hrun as ([st gr] & w2 & Hsg & Hret).
    unfold ret in Hret. inversion Hret; subst acc' w'. clear Hret.
    eexists. split; [reflexivity|]. cbn [id student_id course_id enrollment_date fst snd].
    repeat split; try (subst lo hi; lia).
    + destruct (choose_status_and_grade_run (Course.start_date course)
                  (Course.end_date course) dt w1) as (st' & _ & Hin & Hrun).
      destruct Hrun as [(Hc & g & _ & Hg & Hr) | (Hc & Hr)];
        rewrite Hr in Hsg; inversion Hsg; subst; cbn [final_grade status or_empty].
      * intros _. reflexivity.
      * intros Hne. contradiction.
    + destruct (choose_status_and_grade_run (Course.start_date course)
                  (Course.end_date course) dt w1) as (st' & _ & Hin & Hrun).
      destruct Hrun as [(Hc & g & _ & Hg & Hr) | (Hc & Hr)];
        rewrite Hr in Hsg; inversion Hsg; subst; cbn [final_grade status or_empty].
      * intros _. simpl in Hg.
        destruct Hg as [<- | [<- | [<- | [<- | [<- | [<- | []]]]]]]; discriminate.
      * intros Hc'. contradiction.
    + cbn [final_grade status]. intros Hc.
      destruct (choose_status_and_grade_run (Course.start_date course)
                  (Course.end_date course) dt w1) as (st' & _ & Hin & Hrun).
      destruct Hrun as [(_ & g & _ & Hg & Hr) | (Hc' & Hr)];
        rewrite Hr in Hsg; inversion Hsg; subst; [|contradiction].
      simpl in Hg. unfold grades.
      destruct Hg as [<- | [<- | [<- | [<- | [<- | [<- | []]]]]]]; simpl; tauto.
Qed.

(** Every row that [generate_enrollments] returns has both properties. *)
Lemma generate_enrollments_rows (students : list Student.t) (courses : list Course.t)
      (w : W) (es : list enrollment_row) (w' : W) :
  generate_enrollments students courses w = (inr es, w') ->
  Forall (fun e => in_window courses e /\ grade_consistent e) es.
Proof.
  intros Hrun. unfold generate_enrollments in Hrun.
  apply bind_inr in Hrun. destruct Hrun as (r & w1 & Hloop & Hret).
  unfold ret in Hret. inversion Hret; subst es w'. clear Hret.
  revert Hloop.
  apply (for_fold_inv
           (fun acc : list enrollment_row * Z =>
              Forall (fun e => in_window courses e /\ grade_consistent e) (fst acc)));
    [|constructor].
  intros acc student s acc' s' _ Hacc Hbody.
  apply bind_inr in Hbody. destruct Hbody as (num & s1 & _ & Hbody).
  apply bind_inr in Hbody. destruct Hbody as (chosen & s2 & Hsample & Hinner).
  apply (proj2 (sample_spec courses num s1)) in Hsample.
  revert Hacc Hinner.
  apply (for_fold_inv
           (fun acc : list enrollment_row * Z =>
              Forall (fun e => in_window courses e /\ grade_consistent e) (fst acc))).
  intros acc0 course s0 acc1 s3 Hin Hacc0 Henroll.
  apply (proj2 (enroll_spec student acc0 course s0)) in Henroll.
  destruct Henroll as (row & -> & _ & _ & Hcid & Hdate & Hgrade).
  cbn [fst]. apply Forall_app. split; [exact Hacc0|].
  constructor; [|constructor]. split; [|exact Hgrade].
  exists course. split; [now apply Hsample|]. split; [now rewrite Hcid | exact Hdate].
Qed.

(** When there are at least four courses and every enrollment window is
    non-empty, [generate_enrollments] ends normally. *)
Lemma generate_enrollments_returns (students : list Student.t) (courses : list Course.t)
      (w : W) :
  (4 <= List.length courses)%nat ->
  (forall c, In c courses -> Course.start_date c - 30 <= Course.end_date c) ->
  exists es w', generate_enrollments students courses w = (inr es, w').
Proof.
  intros Hlen Hwin. unfold generate_enrollments.
  match goal with
  | |- context [ for_fold students _ ?b ] => set (body := b)
  end.
  assert (Hbody : forall acc x s, In x students ->
                    exists acc' s', body acc x s = (inr acc', s')).
  { intros acc student s _. subst body. cbv beta.
    destruct (proj1 (randint_spec MIN_ENROLLMENTS_PER_STUDENT
                                  MAX_ENROLLMENTS_PER_STUDENT s))
      as (num & s1 & Hnum & Hrange);
      [unfold MIN_ENROLLMENTS_PER_STUDENT, MAX_ENROLLMENTS_PER_STUDENT; lia|].
    unfold MIN_ENROLLMENTS_PER_STUDENT, MAX_ENROLLMENTS_PER_STUDENT in Hrange.
    rewrite (bind_ok _ _ _ _ _ Hnum).
    destruct (proj1 (sample_spec courses num s1)) as (chosen & s2 & Hsample); [lia|].
    rewrite (bind_ok _ _ _ _ _ Hsample).
    apply (proj2 (sample_spec courses num s1)) in Hsample.
    apply for_fold_returns. intros acc0 course s0 Hin.
    apply (proj1 (enroll_spec student acc0 course s0)), Hwin, Hsample, Hin. }
  destruct (for_fold_returns students body Hbody ([], 1) w) as (r & w' & Hloop).
  exists (fst r), w'. rewrite (bind_ok _ _ _ _ _ Hloop). reflexivity.
Qed.

Lemma generate_courses_window (teachers : list Teacher.t) (w : W)
      (courses : list Course.t) (w' : W) :
  generate_courses teachers w = (inr courses, w') ->
  Forall (fun c => Course.start_date c + 30 <= Course.end_date c
                   <= Course.start_date c + 90) courses.
Proof.
  unfold generate_courses. apply for_collect_Forall.
  intros i s c s' Hbody.
  repeat (apply bind_inr in Hbody; destruct Hbody as (? & ? & ? & Hbody)).
  unfold ret in Hbody. inversion Hbody; subst. cbn [Course.start_date Course.end_date].
  match goal with
  | Hd : randint 30 90 _ = _ |- _ => apply (proj2 (randint_spec 30 90 _)) in Hd
  end.
  lia.
Qed.

(** One enrollment: the status of the row is drawn with the weights of
    the course it is for. *)
Lemma enroll_status (student : Student.t) (acc : list enrollment_row * Z)
      (course : Course.t) (w : W) (acc' : list enrollment_row * Z) (w' : W) :
  enroll student acc course w = (inr acc', w') ->
  exists row,
    acc' = ((fst acc ++ [row])%list, snd acc + 1)
    /\ status_by_window [course] row.
Proof.
  destruct acc as [enrollments enrollment_id]. unfold enroll. intros Hrun.
  apply bind_inr in Hrun. destruct Hrun as (dt & w1 & _ & Hrun).
  apply bind_inr in Hrun. destruct Hrun as ([st gr] & w2 & Hsg & Hret).
  unfold ret in Hret. inversion Hret; subst acc' w'. clear Hret.
  eexists. split; [reflexivity|].
  exists course, (rng w1). split; [now left|]. split; [reflexivity|].
  cbv zeta. cbn [status].
  destruct (random_unit (rng w1)) as [Hlo Hhi].
  split; [exact Hlo|]. split; [exact Hhi|].
  exact (choose_status_drawn _ _ _ _ _ _ _ Hsg).
Qed.

Lemma status_by_window_incl (courses courses' : list Course.t) (e : enrollment_row) :
  incl courses courses' -> status_by_window courses e -> status_by_window courses' e.
Proof.
  intros Hincl (c & g & Hc & Hrest). exists c, g. split; [now apply Hincl | exact Hrest].
Qed.

Lemma generate_enrollments_status (students : list Student.t) (courses : list Course.t)
      (w : W) (es : list enrollment_row) (w' : W) :
  generate_enrollments students courses w = (inr es, w') ->
  Forall (status_by_window courses) es.
Proof.
  intros Hrun. unfold generate_enrollments in Hrun.
  apply bind_inr in Hrun. destruct Hrun as (r & w1 & Hloop & Hret).
  unfold ret in Hret. inversion Hret; subst es w'. clear Hret.
  revert Hloop.
  apply (for_fold_inv
           (fun acc : list enrollment_row * Z =>
              Forall (status_by_window courses) (fst acc)));
    [|constructor].
  intros acc student s acc' s' _ Hacc Hbody.
  apply bind_inr in Hbody. destruct Hbody as (num & s1 & _ & Hbody).
  apply bind_inr in Hbody. destruct Hbody as (chosen & s2 & Hsample & Hinner).
  apply (proj2 (sample_spec courses num s1)) in Hsample.
  revert Hacc Hinner.
  apply (for_fold_inv
           (fun acc : list enrollment_row * Z =>
              Forall (status_by_window courses) (fst acc))).
  intros acc0 course s0 acc1 s3 Hin Hacc0 Henroll.
  apply enroll_status in Henroll. destruct Henroll as (row & -> & Hrow).
  cbn [fst]. apply Forall_app. split; [exact Hacc0|].
  constructor; [|constructor].
  apply (status_by_window_incl [course]); [|exact Hrow].
  intros c [<- | []]. now apply Hsample.
Qed.

(** C6.  The status that [choose_status_and_grade] returns is the
    outcome of one draw [u] of [random()], in [0, 1), by a three-way
    weighted choice whose weights follow the position of the reference
    date: completed 0.75, active 0.05, dropped 0.20 when the course
    ended before it; active 0.70, completed 0, dropped 0.30 when the
    course starts after it (and then the status is never "completed");
    active 0.60, completed 0.20, dropped 0.20 otherwise.  And every
    enrollment that [generate_enrollments] returns has its status drawn
    in this way with the dates of its own course.  The weights are
    binary64 numbers, as are their sums and the comparisons. *)
Theorem status_weights_by_window :
  (forall course_start course_end enrollment_date (w : W) status grade w',
      choose_status_and_grade course_start course_end enrollment_date w
      = (inr (status, grade), w') ->
      let u := fst (random (rng w)) in
      (0 <=? u)%float = true /\ (u <? 1)%float = true
      /\ (course_end < today ->
          drawn u 1 0.75 0.05 "completed" "active" "dropped" status)
      /\ (today <= course_end -> today < course_start ->
          drawn u 1 0.70 0.0 "active" "completed" "dropped" status
          /\ status <> "completed")
      /\ (course_start <= today <= course_end ->
          drawn u 1 0.60 0.20 "active" "completed" "dropped" status))
  /\ (forall students courses (w : W) es w',
        generate_enrollments students courses w = (inr es, w') ->
        Forall (status_by_window courses) es).
Proof.
  split.
  - intros cs ce ed w status grade w' Hrun u.
    destruct (random_unit (rng w)) as [Hlo Hhi].
    split; [exact Hlo|]. split; [exact Hhi|].
    exact (choose_status_drawn _ _ _ _ _ _ _ Hrun).
  - intros students courses w es w'. apply generate_enrollments_status.
Qed.

(** C7.  The grade is drawn, by a weighted choice over A 0.25, B 0.30,
    C 0.25, D 0.10, E 0.05, F 0.05, exactly when the status drawn is
    "completed"; so every generated enrollment has a non-empty
    [final_grade], one of A to F, if and only if its status is
    "completed". *)
Theorem final_grade_iff_completed :
  (forall course_start course_end enrollment_date (w : W) status grade w',
      choose_status_and_grade course_start course_end enrollment_date w
      = (inr (status, grade), w') ->
      (status = "completed" ->
       exists g w1,
         grade = Some g
         /\ choices ["A"; "B"; "C"; "D"; "E"; "F"]
                    [0.25; 0.30; 0.25; 0.10; 0.05; 0.05]%float w1 = (inr g, w')
         /\ In g grades)
      /\ (status <> "completed" -> grade = None))
  /\ (forall students courses (w : W) es w',
        generate_enrollments students courses w = (inr es, w') ->
        Forall grade_consistent es).
Proof.
  split.
  - intros cs ce ed w status grade w' Hrun.
    destruct (choose_status_and_grade_run cs ce ed w) as (st & _ & _ & Hcases).
    destruct Hcases as [(Hc & g & Hg & Hgin & Hr) | (Hc & Hr)];
      rewrite Hr in Hrun; inversion Hrun; subst.
    + split; [|intros Hne; contradiction]. intros _. eauto.
    + split; [intros Hc'; contradiction | reflexivity].
  - intros students courses w es w' Hrun.
    apply generate_enrollments_rows in Hrun.
    eapply Forall_impl; [|exact Hrun]. intros e He. apply He.
Qed.

(** C8.  Every enrollment that [generate_enrollments] returns belongs to
    one of the given courses and its date lies between 30 days before
    the start of that course and the earlier of 20 days after the start
    and the end of the course, both ends included.  With at least four
    courses, each of which ends no earlier than 30 days before it starts,
    the generator does return. *)
Theorem enrollment_date_in_window
        (students : list Student.t) (courses : list Course.t) (w : W) :
  (forall es w', generate_enrollments students courses w = (inr es, w') ->
                 Forall (in_window courses) es)
  /\ ((4 <= List.length courses)%nat ->
      (forall c, In c courses -> Course.start_date c - 30 <= Course.end_date c) ->
      exists es w', generate_enrollments students courses w = (inr es, w')).
Proof.
  split.
  - intros es w' Hrun. apply generate_enrollments_rows in Hrun.
    eapply Forall_impl; [|exact Hrun]. intros e He. apply He.
  - apply generate_enrollments_returns.
Qed.

Section Main.
Variable isoformat : date -> string.

(** Two runs that start with the same step and continue in ways that end
    alike and write the same contents, end alike and write the same
    contents. *)
Lemma bind_same_contents {A B} (c : M W A) (k1 k2 : A -> M W B) (w : W) :
  (forall a s, fst (k1 a s) = fst (k2 a s)
               /\ map snd (files (snd (k1 a s))) = map snd (files (snd (k2 a s)))) ->
  fst (bind c k1 w) = fst (bind c k2 w)
  /\ map snd (files (snd (bind c k1 w))) = map snd (files (snd (bind c k2 w))).
Proof.
  intros Hk. unfold bind. destruct (c w) as [[e|a] s]; [split; reflexivity | apply Hk].
Qed.

Lemma write_csv_contents {B} (path1 path2 : string) (rows : list rowdict)
      (fieldnames : list string) (k1 k2 : unit -> M W B) :
  (forall a s1 s2, map snd (files s1) = map snd (files s2) -> os s1 = os s2 ->
                   fst (k1 a s1) = fst (k2 a s2)
                   /\ map snd (files (snd (k1 a s1))) = map snd (files (snd (k2 a s2)))) ->
  forall w1 w2, map snd (files w1) = map snd (files w2) -> os w1 = os w2 ->
    fst (bind (write_csv path1 rows fieldnames) k1 w1)
    = fst (bind (write_csv path2 rows fieldnames) k2 w2)
    /\ map snd (files (snd (bind (write_csv path1 rows fieldnames) k1 w1)))
       = map snd (files (snd (bind (write_csv path2 rows fieldnames) k2 w2))).
Proof.
  intros Hk w1 w2 Hfiles Hos. unfold bind, write_csv, next_answer. rewrite Hos.
  destruct (os w2) as [|[|msg|written msg] rest]; cbn [fst snd files];
    try (apply Hk; cbn [files os]; [rewrite !map_app, Hfiles|]; reflexivity);
    rewrite ?map_app, Hfiles; split; reflexivity.
Qed.

Lemma main_contents (dir1 dir2 : string) (w : W) :
  fst (main isoformat dir1 w) = fst (main isoformat dir2 w)
  /\ map snd (files (snd (main isoformat dir1 w)))
     = map snd (files (snd (main isoformat dir2 w))).
Proof.
  unfold main.
  apply bind_same_contents; intros teachers w1.
  apply bind_same_contents; intros students w2.
  apply bind_same_contents; intros courses w3.
  apply bind_same_contents; intros enrollments w4.
  apply write_csv_contents; [|reflexivity|reflexivity]. intros [] s1 s2 Hf1 Ho1.
  apply write_csv_contents; [|exact Hf1|exact Ho1]. intros [] s3 s4 Hf2 Ho2.
  apply write_csv_contents; [|exact Hf2|exact Ho2]. intros [] s5 s6 Hf3 Ho3.
  unfold write_csv, next_answer. rewrite Ho3.
  destruct (os s6) as [|[|msg|written msg] rest]; cbn [fst snd files];
    rewrite ?map_app, Hf3; split; reflexivity.
Qed.

(** C9.  Whatever the state of the two random generators when the script
    starts, wherever the script lies, and whatever the file system
    answers to the requests of a run, a run ends the same way and writes
    the same four file contents: the script reseeds both generators with
    42 before it draws anything, and reads nothing else that varies
    between runs. *)
Theorem script_deterministic (answers : list os_answer) (dir1 dir2 : string)
        (g1 g2 : R) (f1 f2 : F) :
  run isoformat dir1 answers g1 f1 = run isoformat dir2 answers g2 f2.
Proof.
  unfold run, script. unfold bind at 1 2 3 4.
  unfold random_seed, Faker_seed. cbn [rng fake files os].
  unfold bind, makedirs, next_answer. cbn [rng fake files os].
  destruct answers as [|[|msg|written msg] rest]; try reflexivity.
  - pose proof (main_contents dir1 dir2 (mkworld (seed 42) (faker_seed 42) [] []))
      as [Hres Hfiles].
    destruct (main isoformat dir1 (mkworld (seed 42) (faker_seed 42) [] []))
      as [[e1|u1] w1];
      destruct (main isoformat dir2 (mkworld (seed 42) (faker_seed 42) [] []))
        as [[e2|u2] w2];
      cbn [fst snd] in *; try discriminate; rewrite Hfiles; congruence.
  - pose proof (main_contents dir1 dir2 (mkworld (seed 42) (faker_seed 42) [] rest))
      as [Hres Hfiles].
    destruct (main isoformat dir1 (mkworld (seed 42) (faker_seed 42) [] rest))
      as [[e1|u1] w1];
      destruct (main isoformat dir2 (mkworld (seed 42) (faker_seed 42) [] rest))
        as [[e2|u2] w2];
      cbn [fst snd] in *; try discriminate; rewrite Hfiles; congruence.
Qed.

End Main.
End Run.

(** ** Runs of the example generator *)

Lemma status_weights_by_window_witness :
  exists es w',
    generate_enrollments [Example.ann; Example.bob] Example.catalogue Example.start
    = (inr es, w')
    /\ es <> []
    /\ Forall (status_by_window Example.catalogue) es.
Proof.
  destruct (generate_enrollments [Example.ann; Example.bob] Example.catalogue
                                 Example.start) as [[e|es] w'] eqn:Hrun.
  - vm_compute in Hrun. discriminate.
  - exists es, w'. split; [reflexivity|]. split.
    + intros ->. vm_compute in Hrun. discriminate.
    + exact (proj2 status_weights_by_window _ _ _ _ _ Hrun).
Defined.

Lemma final_grade_iff_completed_witness :
  exists es w',
    generate_enrollments [Example.ann; Example.bob] Example.catalogue Example.start
    = (inr es, w')
    /\ Forall grade_consistent es.
Proof.
  destruct (generate_enrollments [Example.ann; Example.bob] Example.catalogue
                                 Example.start) as [[e|es] w'] eqn:Hrun.
  - vm_compute in Hrun. discriminate.
  - exists es, w'. split; [reflexivity|].
    exact (proj2 final_grade_iff_completed _ _ _ _ _ Hrun).
Defined.

Lemma enrollment_date_in_window_witness :
  exists es w',
    generate_enrollments [Example.ann; Example.bob] Example.catalogue Example.start
    = (inr es, w')
    /\ Forall (in_window Example.catalogue) es.
Proof.
  destruct (proj2 (enrollment_date_in_window [Example.ann; Example.bob]
                     Example.catalogue Example.start))
    as (es & w' & Hrun).
  - simpl. lia.
  - intros c [<- | [<- | [<- | [<- | []]]]]; simpl; lia.
  - exists es, w'. split; [exact Hrun|].
    exact (proj1 (enrollment_date_in_window _ _ _) es w' Hrun).
Defined.

End GeneratorFacts.

(* ================================================================== *)
(** * More about the add-student form                                  *)
(* ================================================================== *)

Module ManageMore.
Import Dashboard.

(** ** What a step does to the state, whether it returns or raises *)

Section StateRelation.
Context {S : Type}.
Variable Rel : S -> S -> Prop.
Hypothesis Rel_refl : forall s, Rel s s.
Hypothesis Rel_trans : forall a b c, Rel a b -> Rel b c -> Rel a c.

Lemma bind_state {A B} (c : M S A) (k : A -> M S B) (s : S) :
  Rel s (snd (c s)) -> (forall a s1, Rel s1 (snd (k a s1))) ->
  Rel s (snd (bind c k s)).
Proof.
  intros Hc Hk. unfold bind. destruct (c s) as [[e|a] s1]; simpl in *; [exact Hc|].
  eapply Rel_trans; [exact Hc | apply Hk].
Qed.

Lemma for_each_state {A} (l : list A) (body : A -> M S unit) :
  (forall x s, Rel s (snd (body x s))) ->
  forall s, Rel s (snd (for_each l body s)).
Proof.
  intros Hbody. induction l as [|x l IH]; intros s; simpl.
  - apply Rel_refl.
  - apply bind_state; [apply Hbody | intros _ s1; apply IH].
Qed.

Lemma try_except_state {A} (c : M S A) (h : exn -> M S A) (s : S) :
  Rel s (snd (c s)) -> (forall e s1, Rel s1 (snd (h e s1))) ->
  Rel s (snd (try_except c h s)).
Proof.
  intros Hc Hh. unfold try_except. destruct (c s) as [[e|a] s1]; simpl in *; [|exact Hc].
  eapply Rel_trans; [exact Hc | apply Hh].
Qed.

End StateRelation.

Lemma only_appends_refl (d : database) : only_appends d d.
Proof.
  unfold only_appends. repeat split; try lia; exists []; now rewrite app_nil_r.
Qed.

Lemma only_appends_trans (a b c : database) :
  only_appends a b -> only_appends b c -> only_appends a c.
Proof.
  intros (Ht1 & Hc1 & [ss1 Hs1] & [es1 He1] & Hq1 & Hr1)
         (Ht2 & Hc2 & [ss2 Hs2] & [es2 He2] & Hq2 & Hr2).
  unfold only_appends. repeat split; try congruence; try lia.
  - exists (ss1 ++ ss2)%list. now rewrite Hs2, Hs1, <- app_assoc.
  - exists (es1 ++ es2)%list. now rewrite He2, He1, <- app_assoc.
Qed.

Lemma run_exec_only_appends (current_date : date) (q : statement) (d : database) :
  only_appends d (snd (run_exec current_date q d)).
Proof.
  unfold run_exec, execute, only_appends.
  destruct q as [fn ln em reg | sid cid]; cbv zeta.
  - destruct (negb (Schema.student_pkey_free d (student_id_seq d)));
      [|destruct (negb (Schema.student_email_free d em))]; simpl;
      repeat split; try lia; eauto; exists []; now rewrite app_nil_r.
  - destruct (negb (Schema.enrollment_pkey_free d (enrollment_id_seq d)));
      [|destruct (negb (Schema.student_exists d sid));
        [|destruct (negb (Schema.course_exists d cid))]]; simpl;
      repeat split; try lia; eauto; exists []; now rewrite app_nil_r.
Qed.

(** A statement that raises leaves all four tables as they were. *)
Lemma run_exec_raises (current_date : date) (q : statement) (d d' : database) (e : exn) :
  run_exec current_date q d = (inl e, d') ->
  teacher d' = teacher d /\ student d' = student d
  /\ course d' = course d /\ enrollment d' = enrollment d.
Proof.
  unfold run_exec. destruct (execute current_date q d) as [[e0|r] d1]; [|discriminate].
  intros Heq. inversion Heq; subst. unfold rollback. simpl. auto.
Qed.

Lemma dict_get_resolve {S} (options : list (string * Z)) (label : string) (s : S) :
  dict_get options label s
  = match resolve options label with
    | Some v => (inr v, s)
    | None => (inl (KeyError label), s)
    end.
Proof. unfold dict_get, resolve. now destruct (fold_left _ options None). Qed.

Lemma create_student_and_enroll_only_appends
      (current_date : date) (courses_df : list Course.t)
      (first_name last_name email : string) (registration_date : date)
      (labels : list string) (d : database) :
  only_appends d (snd (create_student_and_enroll current_date courses_df first_name
                         last_name email registration_date labels d)).
Proof.
  unfold create_student_and_enroll.
  apply (bind_state only_appends only_appends_trans); [apply run_exec_only_appends|].
  intros result s1.
  apply (bind_state only_appends only_appends_trans).
  { destruct result as [|x [|y r]]; apply only_appends_refl. }
  intros new_student_id s2.
  apply (bind_state only_appends only_appends_trans); [|intros; apply only_appends_refl].
  apply (for_each_state only_appends only_appends_refl only_appends_trans).
  intros label s3.
  apply (bind_state only_appends only_appends_trans).
  { rewrite dict_get_resolve. destruct (resolve _ label); apply only_appends_refl. }
  intros cid s4.
  apply (bind_state only_appends only_appends_trans);
    [apply run_exec_only_appends | intros; apply only_appends_refl].
Qed.

Lemma report_failure_returns (str : exn -> string) (e : exn) (d : database) :
  exists msg, report_failure str e d = (inr (Some msg), d)
              /\ (msg = error_duplicate_email \/ msg = error_saving (str e)).
Proof.
  unfold report_failure. cbv zeta.
  match goal with |- context [ if ?b then _ else _ ] => destruct b end;
    eexists; (split; [reflexivity|]); auto.
Qed.

(** The form never lets an exception escape, and whatever happens it
    only adds rows: teachers and courses stay as they are, and no student
    or enrollment that was there is changed or removed. *)
Theorem add_student_form_only_appends
        (str : exn -> string) (current_date : date) (courses_df : list Course.t)
        (submitted : bool) (first_name last_name email : string)
        (registration_date : date) (labels : list string) (d : database) :
  exists msg d',
    add_student_form str current_date courses_df submitted first_name last_name
                     email registration_date labels d = (inr msg, d')
    /\ only_appends d d'.
Proof.
  unfold add_student_form.
  destruct submitted; cbn [negb].
  2: { do 2 eexists. split; [reflexivity | apply only_appends_refl]. }
  destruct (String.eqb first_name "" || String.eqb last_name "" || String.eqb email "")%bool.
  { do 2 eexists. split; [reflexivity | apply only_appends_refl]. }
  pose proof (create_student_and_enroll_only_appends current_date courses_df
                first_name last_name email registration_date labels d) as Happ.
  unfold try_except. cbv beta.
  destruct (create_student_and_enroll current_date courses_df first_name last_name
              email registration_date labels d) as [[e|msg] d1]; simpl in Happ.
  - destruct (report_failure_returns str e d1) as [m [Hm _]]. rewrite Hm. eauto.
  - eauto.
Qed.

Lemma existsb_false_forall {A} (p : A -> bool) (l : list A) :
  (forall x, In x l -> p x = false) -> existsb p l = false.
Proof.
  induction l as [|x l IH]; intros Hp; simpl; [reflexivity|].
  rewrite (Hp x) by now left. apply IH. intros; apply Hp; now right.
Qed.

(** The enrollment loop when every label resolves to an existing course
    and the student is in the table. *)
Lemma enroll_loop_succeeds (current_date : date) (options : list (string * Z))
      (sid : Z) (labels : list string) :
  forall d,
    Schema.student_exists d sid = true ->
    (forall e, In e (enrollment d) -> Enrollment.id e < enrollment_id_seq d) ->
    Forall (fun label => exists cid, resolve options label = Some cid
                                     /\ Schema.course_exists d cid = true) labels ->
    exists d' new,
      for_each labels
        (fun label =>
           course_id <- dict_get options label ;;
           _ <- run_exec current_date (insert_enrollment sid course_id) ;;
           ret tt) d = (inr tt, d')
      /\ teacher d' = teacher d /\ student d' = student d /\ course d' = course d
      /\ student_id_seq d' = student_id_seq d
      /\ enrollment d' = (enrollment d ++ new)%list
      /\ enrollment_id_seq d' = enrollment_id_seq d + Z.of_nat (List.length labels)
      /\ map (fun e => Some (Enrollment.course_id e)) new = map (resolve options) labels
      /\ map Enrollment.id new
         = map (fun k => enrollment_id_seq d + Z.of_nat k) (seq 0 (List.length labels))
      /\ Forall (fun e => Enrollment.student_id e = sid
                          /\ Enrollment.enrollment_date e = current_date
                          /\ Enrollment.status e = "active"
                          /\ Enrollment.final_grade e = None) new.
Proof.
  induction labels as [|label labels IH]; intros d Hsid Hahead Hlabels.
  - exists d, []. simpl. rewrite app_nil_r, Z.add_0_r. repeat split; constructor.
  - inversion Hlabels as [|? ? (cid & Hres & Hcourse) Hrest]; subst.
    set (row := Enrollment.mk (enrollment_id_seq d) sid cid current_date "active" None).
    set (d1 := add_enrollment row (bump_enrollment_seq d)).
    assert (Hstep : run_exec current_date (insert_enrollment sid cid) d = (inr [], d1)).
    { unfold run_exec, execute. cbv zeta.
      assert (Hfree : Schema.enrollment_pkey_free d (enrollment_id_seq d) = true).
      { unfold Schema.enrollment_pkey_free. apply negb_true_iff, existsb_false_forall.
        intros e He. apply Z.eqb_neq. specialize (Hahead e He). lia. }
      rewrite Hfree, Hsid, Hcourse. reflexivity. }
    destruct (IH d1) as (d' & new & Hrun & Ht & Hs & Hc & Hq & He & Hn & Hcids & Hids & Hall).
    + exact Hsid.
    + intros e He. subst d1. simpl in *. apply in_app_or in He.
      destruct He as [He | [<- | []]]; [specialize (Hahead e He); lia | simpl; lia].
    + eapply Forall_impl; [|exact Hrest]. intros l (c & Hr & Hc). exists c. auto.
    + exists d', (row :: new). cbn [for_each].
      unfold bind at 1. unfold bind at 1. rewrite dict_get_resolve, Hres.
      unfold bind at 1. rewrite Hstep. unfold ret at 1. rewrite Hrun.
      subst d1. simpl in *. repeat split; try assumption.
      * rewrite He, <- app_assoc. reflexivity.
      * lia.
      * rewrite Hres, Hcids. reflexivity.
      * rewrite Z.add_0_r. f_equal. rewrite Hids, <- seq_shift, map_map.
        apply map_ext. intros k. lia.
      * constructor; [subst row; simpl; auto | exact Hall].
Qed.

(** A complete submission for a new email, with every chosen label among
    the options and its course in the table, succeeds on a database whose
    ids came from its sequences: the message names the new id, the student
    table gains exactly that student, and the enrollment table gains one
    active enrollment per chosen course, dated today, in the order
    chosen. *)
Theorem add_student_form_success
        (str : exn -> string) (current_date : date) (courses_df : list Course.t)
        (first_name last_name email : string) (registration_date : date)
        (labels : list string) (d : database) :
  first_name <> "" -> last_name <> "" -> email <> "" ->
  sequences_ahead d ->
  Schema.student_email_free d email = true ->
  Forall (fun label => exists cid, resolve (course_options courses_df) label = Some cid
                                   /\ Schema.course_exists d cid = true) labels ->
  exists d' new,
    add_student_form str current_date courses_df true first_name last_name email
                     registration_date labels d
    = (inr (Some (success (student_id_seq d) (List.length labels))), d')
    /\ teacher d' = teacher d /\ course d' = course d
    /\ student d'
       = (student d ++ [Student.mk (student_id_seq d) first_name last_name email
                                   registration_date])%list
    /\ enrollment d' = (enrollment d ++ new)%list
    /\ map (fun e => Some (Enrollment.course_id e)) new
       = map (resolve (course_options courses_df)) labels
    /\ map Enrollment.id new
       = map (fun k => enrollment_id_seq d + Z.of_nat k) (seq 0 (List.length labels))
    /\ Forall (fun e => Enrollment.student_id e = student_id_seq d
                        /\ Enrollment.enrollment_date e = current_date
                        /\ Enrollment.status e = "active"
                        /\ Enrollment.final_grade e = None) new.
Proof.
  intros Hfn Hln Hem [Hstud Henr] Hfree Hlabels.
  set (dan := Student.mk (student_id_seq d) first_name last_name email registration_date).
  set (d1 := add_student dan (bump_student_seq d)).
  assert (Hstep : run_exec current_date
                    (insert_student first_name last_name email registration_date) d
                  = (inr [student_id_seq d], d1)).
  { unfold run_exec, execute. cbv zeta.
    assert (Hpk : Schema.student_pkey_free d (student_id_seq d) = true).
    { unfold Schema.student_pkey_free. apply negb_true_iff, existsb_false_forall.
      intros s0 Hs0. apply Z.eqb_neq. specialize (Hstud s0 Hs0). lia. }
    rewrite Hpk, Hfree. reflexivity. }
  destruct (enroll_loop_succeeds current_date (course_options courses_df)
              (student_id_seq d) labels d1)
    as (d' & new & Hrun & Ht & Hs & Hc & Hq & He & Hn & Hcids & Hids & Hall).
  - subst d1. unfold Schema.student_exists. simpl. rewrite existsb_app. simpl.
    rewrite Z.eqb_refl. now rewrite orb_true_r.
  - subst d1. simpl. exact Henr.
  - eapply Forall_impl; [|exact Hlabels]. intros l (c & Hr & Hcx). exists c. auto.
  - exists d', new.
    unfold add_student_form. cbn [negb].
    apply String.eqb_neq in Hfn, Hln, Hem. rewrite Hfn, Hln, Hem. cbn [orb].
    unfold try_except, create_student_and_enroll. cbv beta.
    unfold bind at 1. rewrite Hstep. unfold scalar_one.
    unfold bind at 1. unfold ret at 1. unfold bind at 1. rewrite Hrun.
    unfold ret. subst d1. simpl in *. repeat split; assumption.
Qed.

Lemma add_student_form_success_witness :
  exists d',
    add_student_form (fun _ => "") 739000 [Example.intro; Example.docker] true
                     "Dan" "Poe" "dan@example.com" 739000
                     ["Docker & Containers #2 (#2)"; "Introduction to SQL #1 (#1)"]
                     Example.academy
    = (inr (Some (success 4 2)), d')
    /\ student d' = (student Example.academy
                     ++ [Student.mk 4 "Dan" "Poe" "dan@example.com" 739000])%list.
Proof.
  destruct (add_student_form_success (fun _ => "") 739000
              [Example.intro; Example.docker] "Dan" "Poe" "dan@example.com" 739000
              ["Docker & Containers #2 (#2)"; "Introduction to SQL #1 (#1)"]
              Example.academy)
    as (d' & new & Hrun & _ & _ & Hs & _); try discriminate; try reflexivity.
  - split.
    + intros s [<- | [<- | [<- | []]]]; simpl; lia.
    + intros e [<- | []]; simpl; lia.
  - repeat constructor; eexists; split; vm_compute; reflexivity.
  - exists d'. auto.
Defined.

(** When the email is already taken, the submission is answered with an
    error built from the unique-constraint violation, and all four tables
    are left as they were: neither the student nor any enrollment is
    created. *)
Theorem add_student_form_email_taken
        (str : exn -> string) (current_date : date) (courses_df : list Course.t)
        (first_name last_name email : string) (registration_date : date)
        (labels : list string) (d : database) :
  first_name <> "" -> last_name <> "" -> email <> "" ->
  Schema.student_email_free d email = false ->
  exists msg d' constraint,
    add_student_form str current_date courses_df true first_name last_name email
                     registration_date labels d = (inr (Some msg), d')
    /\ (constraint = "student_pkey" \/ constraint = "student_email_key")
    /\ (msg = error_duplicate_email
        \/ msg = error_saving (str (IntegrityError (UniqueViolation constraint))))
    /\ teacher d' = teacher d /\ student d' = student d
    /\ course d' = course d /\ enrollment d' = enrollment d.
Proof.
  intros Hfn Hln Hem Htaken.
  unfold add_student_form. cbn [negb].
  apply String.eqb_neq in Hfn, Hln, Hem. rewrite Hfn, Hln, Hem. cbn [orb].
  unfold try_except, create_student_and_enroll. cbv beta.
  unfold bind at 1. unfold run_exec, execute. cbv zeta. rewrite Htaken.
  destruct (Schema.student_pkey_free d (student_id_seq d)); cbn [negb];
    match goal with
    | |- context [ report_failure str (IntegrityError (UniqueViolation ?c)) ?s ] =>
        destruct (report_failure_returns str (IntegrityError (UniqueViolation c)) s)
          as [m [Hm Hcase]];
        rewrite Hm; exists m; eexists; exists c
    end;
    (split; [reflexivity|]); simpl; repeat split; auto.
Qed.

Lemma add_student_form_email_taken_witness :
  exists msg d',
    add_student_form (fun _ => "") 739000 [Example.intro] true
                     "Zed" "Ray" "zed@example.com" 739000
                     ["Introduction to SQL #1 (#1)"] Example.academy
    = (inr (Some msg), d')
    /\ student d' = student Example.academy
    /\ enrollment d' = enrollment Example.academy.
Proof.
  destruct (add_student_form_email_taken (fun _ => "") 739000 [Example.intro]
              "Zed" "Ray" "zed@example.com" 739000
              ["Introduction to SQL #1 (#1)"] Example.academy)
    as (msg & d' & c & Hrun & _ & _ & _ & Hs & _ & He);
    try discriminate; try reflexivity.
  exists msg, d'. auto.
Defined.

(** In the error text the test for "student_email_key" adds nothing to
    the test for "email": a failure is reported as a duplicate email
    exactly when its text contains the unique-constraint phrase and the
    word "email" anywhere. *)
Theorem report_failure_email_word (str : exn -> string) (e : exn) (d : database) :
  report_failure str e d
  = (inr (Some (if (Text.contains "duplicate key value violates unique constraint" (str e)
                    && Text.contains "email" (str e))%bool
                then error_duplicate_email
                else error_saving (str e))), d).
Proof.
  unfold report_failure. cbv zeta.
  assert (Hsub : Text.contains "student_email_key" (str e) = true ->
                 Text.contains "email" (str e) = true).
  { rewrite !TextFacts.contains_spec. intros (a & b & Hab).
    exists (a ++ "student_"), ("_key" ++ b). rewrite Hab. clear Hab.
    induction a as [|c a IH]; [reflexivity|].
    change (String c (a ++ "student_email_key" ++ b)
            = String c ((a ++ "student_") ++ "email" ++ "_key" ++ b)).
    now f_equal. }
  destruct (Text.contains "duplicate key value violates unique constraint" (str e));
    cbn [andb]; [|reflexivity].
  destruct (Text.contains "student_email_key" (str e)) eqn:Hkey.
  - rewrite Hsub by reflexivity. reflexivity.
  - cbn [orb]. destruct (Text.contains "email" (str e)); reflexivity.
Qed.

End ManageMore.

(* ================================================================== *)
(** * The course options of the add-student form                       *)
(* ================================================================== *)

Module OptionsFacts.
Import Text TextFacts Dashboard.

Lemma string_app_assoc (a b c : string) : (a ++ b) ++ c = a ++ (b ++ c).
Proof. induction a as [|x a IH]; simpl; [reflexivity | now rewrite IH]. Qed.

Lemma contains_hash_cons (c : ascii) (s : string) :
  contains "#" (String c s) = (Ascii.eqb c "#"%char || contains "#" s)%bool.
Proof.
  cbn [contains]. f_equal.
  apply eq_true_iff_eq. rewrite prefix_spec, Ascii.eqb_eq. split.
  - intros [b Hb]. now inversion Hb.
  - intros ->. now exists s.
Qed.

Lemma contains_hash_app (a b : string) :
  contains "#" (a ++ b) = (contains "#" a || contains "#" b)%bool.
Proof.
  induction a as [|c a IH].
  - simpl append. destruct (contains "#" b); reflexivity.
  - change (String c a ++ b) with (String c (a ++ b)).
    rewrite !contains_hash_cons, IH. now rewrite orb_assoc.
Qed.

Lemma no_hash_in_digits (d : Decimal.uint) :
  contains "#" (NilEmpty.string_of_uint d) = false.
Proof.
  induction d; cbn [NilEmpty.string_of_uint];
    [reflexivity | rewrite contains_hash_cons, IHd; reflexivity ..].
Qed.

Lemma no_hash_in_number (d : Decimal.uint) :
  contains "#" (NilZero.string_of_uint d) = false.
Proof.
  destruct d; [reflexivity | exact (no_hash_in_digits _) ..].
Qed.

Lemma no_hash_in_str_int (n : Z) : contains "#" (str_int n) = false.
Proof.
  unfold str_int, NilZero.string_of_int.
  destruct (Z.to_int n) as [d | d]; [apply no_hash_in_number|].
  rewrite contains_hash_cons, no_hash_in_number. reflexivity.
Qed.

Lemma str_int_inj (a b : Z) : str_int a = str_int b -> a = b.
Proof.
  unfold str_int. intros Heq. apply DecimalZ.to_int_inj.
  assert (Hnn : forall z, Z.to_int z <> Decimal.Pos Decimal.Nil
                          /\ Z.to_int z <> Decimal.Neg Decimal.Nil).
  { intros [|p|p]; simpl; split; try discriminate;
      intros Hp; inversion Hp as [Hq]; now apply Unsigned.to_uint_nonnil in Hq. }
  destruct (Hnn a) as [Ha1 Ha2]. destruct (Hnn b) as [Hb1 Hb2].
  pose proof (NilZero.isi _ Ha1 Ha2) as Hia.
  pose proof (NilZero.isi _ Hb1 Hb2) as Hib.
  rewrite Heq in Hia. congruence.
Qed.

(** Two texts cut at their last "#" agree piece by piece. *)
Lemma split_at_last_hash (a1 a2 b1 b2 : string) :
  contains "#" b1 = false -> contains "#" b2 = false ->
  a1 ++ "#" ++ b1 = a2 ++ "#" ++ b2 -> a1 = a2 /\ b1 = b2.
Proof.
  intros Hb1 Hb2. revert a2. induction a1 as [|c a1 IH]; intros a2 Heq.
  - destruct a2 as [|c2 a2]; simpl in Heq.
    + inversion Heq. auto.
    + exfalso. inversion Heq as [[Hc Hb]]. subst.
      rewrite contains_hash_app, contains_hash_cons, Ascii.eqb_refl in Hb1.
      cbn [orb] in Hb1. rewrite orb_true_r in Hb1. discriminate.
  - destruct a2 as [|c2 a2]; simpl in Heq.
    + exfalso. inversion Heq as [[Hc Hb]]. subst.
      rewrite contains_hash_app, contains_hash_cons, Ascii.eqb_refl in Hb2.
      cbn [orb] in Hb2. rewrite orb_true_r in Hb2. discriminate.
    + inversion Heq as [[Hc Hrest]]. destruct (IH a2 Hrest) as [-> ->]. auto.
Qed.

Lemma append_paren_inj (a b : string) : a ++ ")" = b ++ ")" -> a = b.
Proof.
  revert b. induction a as [|c a IH]; intros [|c2 b] Heq; simpl in Heq.
  - reflexivity.
  - inversion Heq as [[Hc Hb]]. destruct b; discriminate.
  - inversion Heq as [[Hc Hb]]. destruct a; discriminate.
  - inversion Heq. f_equal. now apply IH.
Qed.

(** The label of a course determines its id (and its title). *)
Lemma label_of_inj (c1 c2 : Course.t) :
  label_of c1 = label_of c2 ->
  Course.id c1 = Course.id c2 /\ Course.title c1 = Course.title c2.
Proof.
  unfold label_of. intros Heq.
  assert (Hshape : forall t n, t ++ " (#" ++ n ++ ")" = (t ++ " (") ++ "#" ++ (n ++ ")")).
  { intros t n. rewrite string_app_assoc. reflexivity. }
  rewrite !Hshape in Heq.
  apply split_at_last_hash in Heq.
  - destruct Heq as [Ht Hn]. split.
    + apply str_int_inj, append_paren_inj, Hn.
    + clear Hn. revert Ht. generalize (Course.title c1) (Course.title c2).
      induction s as [|x s IH]; intros [|y s0] Ht; simpl in Ht;
        try reflexivity; try (inversion Ht; f_equal; now apply IH).
      * inversion Ht as [[Hx Hs]]. destruct s0 as [|z [|z2 s0]]; discriminate.
      * inversion Ht as [[Hx Hs]]. destruct s as [|z [|z2 s]]; discriminate.
  - rewrite contains_hash_app, no_hash_in_str_int. reflexivity.
  - rewrite contains_hash_app, no_hash_in_str_int. reflexivity.
Qed.

(** What the lookup of a label returns: the value of some entry with
    that key, or nothing when no entry has it. *)
Lemma resolve_spec (options : list (string * Z)) (label : string) :
  match resolve options label with
  | Some v => In (label, v) options
  | None => forall v, ~ In (label, v) options
  end.
Proof.
  unfold resolve.
  assert (Hgen : forall acc,
             match fold_left (fun acc kv => if String.eqb (fst kv) label
                                            then Some (snd kv) else acc) options acc with
             | Some v => In (label, v) options \/ acc = Some v
             | None => (forall v, ~ In (label, v) options) /\ acc = None
             end).
  { induction options as [|[k v0] options IH]; intros acc; simpl.
    - destruct acc; auto.
    - specialize (IH (if String.eqb k label then Some v0 else acc)).
      destruct (fold_left _ options _) as [v|].
      + destruct IH as [Hin | Hacc]; [auto|].
        destruct (String.eqb k label) eqn:Hk.
        * apply String.eqb_eq in Hk. inversion Hacc; subst. auto.
        * auto.
      + destruct IH as [Hnone Hacc].
        destruct (String.eqb k label) eqn:Hk; [discriminate|].
        apply String.eqb_neq in Hk. split; [|exact Hacc].
        intros v [Heq | Hin]; [inversion Heq; congruence | now apply (Hnone v)]. }
  specialize (Hgen None). destruct (fold_left _ options None) as [v|].
  - destruct Hgen as [Hin | Hacc]; [exact Hin | discriminate].
  - apply Hgen.
Qed.

(** The options built from the course list give back, for the label of
    any listed course, the id of that course; a label that belongs to no
    listed course raises KeyError and changes nothing. *)
Theorem course_options_lookup {S} (courses_df : list Course.t) (s : S) :
  (forall c, In c courses_df ->
             dict_get (course_options courses_df) (label_of c) s = (inr (Course.id c), s))
  /\ (forall label, (forall c, In c courses_df -> label_of c <> label) ->
                    dict_get (course_options courses_df) label s
                    = (inl (KeyError label), s)).
Proof.
  split.
  - intros c Hc. rewrite ManageMore.dict_get_resolve.
    pose proof (resolve_spec (course_options courses_df) (label_of c)) as Hres.
    destruct (resolve (course_options courses_df) (label_of c)) as [v|].
    + unfold course_options in Hres. apply in_map_iff in Hres.
      destruct Hres as [c' [Heq Hc']]. inversion Heq as [[Hlabel Hid]].
      apply label_of_inj in Hlabel. destruct Hlabel as [Hsame _].
      now rewrite <- Hsame.
    + exfalso. apply (Hres (Course.id c)). unfold course_options.
      apply in_map_iff. exists c. auto.
  - intros label Hnone. rewrite ManageMore.dict_get_resolve.
    pose proof (resolve_spec (course_options courses_df) label) as Hres.
    destruct (resolve (course_options courses_df) label) as [v|]; [|reflexivity].
    exfalso. unfold course_options in Hres. apply in_map_iff in Hres.
    destruct Hres as [c [Heq Hc]]. inversion Heq. now apply (Hnone c).
Qed.

Lemma course_options_lookup_witness :
  dict_get (S := database) (course_options Example.catalogue)
           (label_of Example.ghost) Example.academy
  = (inr 7, Example.academy).
Proof.
  apply (proj1 (course_options_lookup Example.catalogue Example.academy) Example.ghost).
  simpl. tauto.
Defined.

End OptionsFacts.

(* ================================================================== *)
(** * More about the student search                                    *)
(* ================================================================== *)

Module SearchMore.
Import Text TextFacts Dashboard SearchFacts.

(** A pattern that ends in a percent sign always parses: a backslash
    before the final sign turns it into a literal, never into a dangling
    escape. *)
Lemma tokenize_percent_end (t : string) :
  (exists ts, tokenize (t ++ "%") = Some ts)
  /\ (forall c, exists ts, tokenize (String c (t ++ "%")) = Some ts).
Proof.
  induction t as [|d t [IH1 IH2]].
  - split; [eexists; reflexivity|].
    intros c. simpl. destruct (Ascii.eqb c backslash); eexists; reflexivity.
  - split; [apply IH2|].
    intros c. change (String d t ++ "%") with (String d (t ++ "%")).
    cbn [tokenize]. destruct (Ascii.eqb c backslash).
    + destruct IH1 as [ts ->]. eexists; reflexivity.
    + destruct (IH2 d) as [ts Hts]. cbn [tokenize] in Hts. rewrite Hts.
      eexists; reflexivity.
Qed.

Lemma ilike_wrapped_defined (fold : string -> string) (Hfold : folding fold)
      (term s : string) :
  exists b, ilike fold s ("%" ++ term ++ "%") = Some b.
Proof.
  unfold ilike, like. rewrite (fold_wrapped fold Hfold).
  change ("%" ++ fold term ++ "%") with (String percent (fold term ++ "%")).
  cbn [tokenize]. change (Ascii.eqb percent backslash) with false. cbv iota.
  destruct (proj1 (tokenize_percent_end (fold term))) as [ts ->].
  eexists; reflexivity.
Qed.

Lemma students_where_always (fold : string -> string) (Hfold : folding fold)
      (term : string) (s : Student.t) :
  exists b, students_where fold term s = Some b.
Proof.
  unfold students_where. cbv zeta.
  destruct (ilike_wrapped_defined fold Hfold term (Student.first_name s)) as [a ->].
  destruct (ilike_wrapped_defined fold Hfold term (Student.last_name s)) as [b ->].
  destruct (ilike_wrapped_defined fold Hfold term (Student.email s)) as [c ->].
  destruct (ilike_wrapped_defined fold Hfold term
              (Student.first_name s ++ " " ++ Student.last_name s)) as [f ->].
  eexists; reflexivity.
Qed.

Lemma filter_split {A} (f : A -> bool) (l : list A) :
  Permutation (filter f l ++ filter (fun x => negb (f x)) l) l.
Proof.
  induction l as [|x l IH]; simpl; [constructor|].
  destruct (f x); simpl.
  - now constructor.
  - rewrite <- Permutation_middle. now constructor.
Qed.

(** Whatever the term, and whatever the lower-casing and the collation
    of the database, the search query does not fail: it returns at most
    50 rows, each of them a row of the student table and none of them
    twice as often as in the table, in the order of last name then first
    name. *)
Theorem student_search_always_answers
        (collate : string -> string -> comparison)
        (collate_antisym : forall a b, collate b a = CompOpp (collate a b))
        (fold : string -> string) (Hfold : folding fold)
        (term : string) (d : database) :
  term <> "" ->
  exists found rest,
    student_search collate fold term d = Some (Some found)
    /\ (List.length found <= 50)%nat
    /\ Permutation (found ++ rest) (student d)
    /\ Sorted (fun a b => by_last_first collate a b = true) found.
Proof.
  intros Hne.
  destruct (select_where_defined (students_where fold term) (student d)) as [f [_ Hsel]].
  { intros x _. now apply students_where_always. }
  set (all := order_by (by_last_first collate) (filter f (student d))).
  exists (firstn 50 all), (skipn 50 all ++ filter (fun x => negb (f x)) (student d))%list.
  repeat split.
  - unfold student_search. apply String.eqb_neq in Hne. rewrite Hne.
    unfold query_students, students_matching. now rewrite Hsel.
  - apply firstn_le_length.
  - rewrite app_assoc, firstn_skipn. subst all.
    rewrite order_by_perm. apply filter_split.
  - apply Sorted_firstn, order_by_sorted, by_last_first_total, collate_antisym.
Qed.

Lemma student_search_always_answers_witness :
  exists found rest,
    student_search String.compare lower "\%_" Example.academy = Some (Some found)
    /\ Permutation (found ++ rest) (student Example.academy).
Proof.
  destruct (student_search_always_answers String.compare
              (fun a b => String.compare_antisym b a) lower lower_folding
              "\%_" Example.academy)
    as (found & rest & Hrun & _ & Hperm & _); [discriminate|].
  exists found, rest. auto.
Defined.

Lemma tokenize_only_percent (t : string) :
  only_percent t = true ->
  exists n, tokenize (t ++ "%") = Some (repeat TAny (S n)).
Proof.
  induction t as [|c t IH]; intros Hp.
  - exists O. reflexivity.
  - simpl in Hp. apply andb_true_iff in Hp. destruct Hp as [Hc Hp].
    apply Ascii.eqb_eq in Hc. subst c. destruct (IH Hp) as [n Hn].
    exists (S n). change (String "%" t ++ "%") with (String "%" (t ++ "%")).
    cbn [tokenize]. change (Ascii.eqb "%" backslash) with false. cbv iota.
    rewrite Hn. reflexivity.
Qed.

Lemma matches_all_any (n : nat) (s : string) : matches (repeat TAny (S n)) s = true.
Proof.
  induction n as [|n IH].
  - apply matches_only_any.
  - change (repeat TAny (S (S n))) with (TAny :: repeat TAny (S n)).
    apply matches_any. exists "", s. split; [reflexivity | exact IH].
Qed.

Lemma only_percent_fold (fold : string -> string) (Hfold : folding fold) (t : string) :
  only_percent t = true -> fold t = t.
Proof.
  induction t as [|c t IH]; intros Hp.
  - apply (fold_empty fold Hfold).
  - simpl in Hp. apply andb_true_iff in Hp. destruct Hp as [Hc Hp].
    apply Ascii.eqb_eq in Hc. subst c.
    change (String "%" t) with (String percent t).
    rewrite (fold_percent_cons fold Hfold), IH by exact Hp. reflexivity.
Qed.

(** A term made of percent signs is a pattern that matches every text:
    the search then lists the whole student table, up to the limit,
    whatever the lower-casing and the collation of the database. *)
Theorem student_search_percent_lists_all
        (collate : string -> string -> comparison)
        (fold : string -> string) (Hfold : folding fold)
        (term : string) (d : database) :
  term <> "" -> only_percent term = true ->
  student_search collate fold term d
  = Some (Some (firstn 50 (order_by (by_last_first collate) (student d)))).
Proof.
  intros Hne Hp.
  assert (Hlike : forall s, ilike fold s ("%" ++ term ++ "%") = Some true).
  { intros s. unfold ilike, like. rewrite (fold_wrapped fold Hfold).
    rewrite (only_percent_fold fold Hfold term Hp).
    change ("%" ++ term ++ "%") with (String percent (term ++ "%")).
    cbn [tokenize]. change (Ascii.eqb percent backslash) with false. cbv iota.
    destruct (tokenize_only_percent term Hp) as [n ->].
    cbn [option_map]. unfold tok_of. rewrite Ascii.eqb_refl.
    change (TAny :: repeat TAny (S n)) with (repeat TAny (S (S n))).
    now rewrite matches_all_any. }
  unfold student_search. apply String.eqb_neq in Hne. rewrite Hne.
  unfold query_students, students_matching.
  rewrite (select_where_filter _ (fun _ => true)).
  - cbn [option_map]. do 3 f_equal.
    induction (student d) as [|x l IH]; simpl; [reflexivity | now rewrite IH].
  - intros s _. unfold students_where. cbv zeta. rewrite !Hlike. reflexivity.
Qed.

Lemma student_search_percent_lists_all_witness :
  student_search String.compare lower "%" Example.academy
  = Some (Some [Example.eve; Example.ann; Example.bob]).
Proof.
  pose proof (student_search_percent_lists_all String.compare lower lower_folding
                "%" Example.academy ltac:(discriminate) eq_refl) as H.
  vm_compute in H. vm_compute. exact H.
Defined.

End SearchMore.

(* ================================================================== *)
(** * More about the overview and the student tab                      *)
(* ================================================================== *)

Module TabsMore.
Import Dashboard OverviewFacts.

(** ** ORDER BY followed by LIMIT *)

Section TopRows.
Context {A : Type}.
Variable leb : A -> A -> bool.
Hypothesis leb_total : forall a b, leb a b = true \/ leb b a = true.
Hypothesis leb_trans : forall a b c, leb a b = true -> leb b c = true -> leb a c = true.

Lemma order_by_strongly_sorted (l : list A) :
  StronglySorted (fun a b => leb a b = true) (order_by leb l).
Proof.
  apply Sorted_StronglySorted; [|now apply order_by_sorted].
  intros a b c. apply leb_trans.
Qed.

Lemma firstn_before_skipn (R : A -> A -> Prop) (n : nat) (l : list A) :
  StronglySorted R l ->
  forall a b, In a (firstn n l) -> In b (skipn n l) -> R a b.
Proof.
  revert l. induction n as [|n IH]; intros l Hs a b Ha Hb; [contradiction|].
  destruct l as [|x l]; [contradiction|].
  apply StronglySorted_inv in Hs. destruct Hs as [Hs Hall].
  simpl in Ha, Hb. destruct Ha as [<- | Ha].
  - rewrite Forall_forall in Hall. apply Hall.
    rewrite <- (firstn_skipn n l). apply in_or_app. now right.
  - now apply (IH l).
Qed.

(** The first [n] rows of a sorted table: they and the rows left out make
    up the table, and no row left out comes before a row kept. *)
Lemma top_rows (n : nat) (l : list A) :
  Permutation (firstn n (order_by leb l) ++ skipn n (order_by leb l)) l
  /\ (forall a b, In a (firstn n (order_by leb l)) ->
                  In b (skipn n (order_by leb l)) -> leb a b = true)
  /\ Sorted (fun a b => leb a b = true) (firstn n (order_by leb l))
  /\ (List.length (firstn n (order_by leb l)) <= n)%nat.
Proof.
  split; [rewrite firstn_skipn; apply order_by_perm|].
  split; [apply firstn_before_skipn, order_by_strongly_sorted|].
  split; [apply Sorted_firstn, order_by_sorted, leb_total | apply firstn_le_length].
Qed.

End TopRows.

(** The chart shows at most ten courses of the table, those with the
    most enrollments, in descending order; its height is 35 per bar but
    at least 200.  It is replaced by a note exactly when the table is
    empty. *)
Theorem overview_chart_top_ten (course_stats_df : list course_stats) :
  (overview_chart course_stats_df = None <-> course_stats_df = [])
  /\ exists rest,
      Permutation (chart_df course_stats_df ++ rest) course_stats_df
      /\ (forall a b, In a (chart_df course_stats_df) -> In b rest ->
                      total_enrollments b <= total_enrollments a)
      /\ Sorted (fun a b => total_enrollments b <= total_enrollments a)
                (chart_df course_stats_df)
      /\ (List.length (chart_df course_stats_df) <= 10)%nat
      /\ 200 <= chart_height (chart_df course_stats_df) <= 350.
Proof.
  split.
  - unfold overview_chart. destruct course_stats_df; split; congruence.
  - set (leb := fun a b : course_stats => total_enrollments b <=? total_enrollments a).
    destruct (top_rows leb) with (n := 10%nat) (l := course_stats_df)
      as (Hperm & Htop & Hsorted & Hlen).
    + intros a b. subst leb. simpl. rewrite !Z.leb_le. lia.
    + intros a b c. subst leb. simpl. rewrite !Z.leb_le. lia.
    + exists (skipn 10 (order_by leb course_stats_df)). unfold chart_df. fold leb.
      split; [exact Hperm|].
      split; [intros a b Ha Hb; apply Z.leb_le; now apply Htop|].
      split; [eapply Sorted_weaken; [|exact Hsorted]; intros a b; apply Z.leb_le|].
      split; [exact Hlen|]. unfold chart_height. lia.
Qed.

(** The ten example students are the rows of the student table with the
    smallest ids, in ascending order of id. *)
Theorem sample_students_smallest_ids (d : database) :
  exists rest,
    Permutation (sample_students d ++ rest) (student d)
    /\ (forall a b, In a (sample_students d) -> In b rest ->
                    Student.id a <= Student.id b)
    /\ Sorted (fun a b => Student.id a <= Student.id b) (sample_students d)
    /\ (List.length (sample_students d) <= 10)%nat.
Proof.
  set (leb := fun a b : Student.t => Student.id a <=? Student.id b).
  destruct (top_rows leb) with (n := 10%nat) (l := student d)
    as (Hperm & Htop & Hsorted & Hlen).
  - intros a b. subst leb. simpl. rewrite !Z.leb_le. lia.
  - intros a b c. subst leb. simpl. rewrite !Z.leb_le. lia.
  - exists (skipn 10 (order_by leb (student d))). unfold sample_students. fold leb.
    split; [exact Hperm|].
    split; [intros a b Ha Hb; apply Z.leb_le; now apply Htop|].
    split; [eapply Sorted_weaken; [|exact Hsorted]; intros a b; apply Z.leb_le|].
    exact Hlen.
Qed.

(** A date range whose end lies before its start selects no course: the
    overview is empty (and no error is raised for it). *)
Theorem course_overview_reversed_range
        (collate : string -> string -> comparison)
        (teacher_choice : string) (level_filter : list string)
        (start_filter end_filter : date) (d : database) (rows : list course_stats) :
  end_filter < start_filter ->
  course_overview collate teacher_choice level_filter start_filter end_filter d
  = inr rows ->
  rows = [].
Proof.
  intros Hrev Hrun. unfold course_overview in Hrun.
  destruct (build_filters (teachers_df collate d) teacher_choice level_filter
                          start_filter end_filter) as [e|filters] eqn:Hbuild;
    [discriminate|].
  inversion Hrun; subst rows. clear Hrun.
  assert (Hdates : In (start_date_ge start_filter) filters
                   /\ In (start_date_le end_filter) filters).
  { unfold build_filters in Hbuild. cbv zeta in Hbuild.
    destruct (String.eqb teacher_choice "All").
    - inversion Hbuild. split; apply in_or_app; right; simpl; auto.
    - destruct (filter _ (teachers_df collate d)); [discriminate|].
      inversion Hbuild. split; right; apply in_or_app; right; simpl; auto. }
  destruct Hdates as [Hge Hle].
  assert (Hnone : filter (where_clause filters) (from_clause d) = []).
  { induction (from_clause d) as [|r l IH]; [reflexivity|]. simpl.
    assert (Hw : where_clause filters r = false).
    { unfold where_clause. apply not_true_is_false. intros Hall.
      rewrite forallb_forall in Hall.
      pose proof (Hall _ Hge) as H1. pose proof (Hall _ Hle) as H2.
      simpl in H1, H2. apply Z.leb_le in H1. apply Z.leb_le in H2. lia. }
    now rewrite Hw. }
  unfold query_courses_stats. rewrite Hnone. reflexivity.
Qed.

Lemma course_overview_reversed_range_witness :
  course_overview String.compare "All" [] 739000 738000 Example.academy = inr [].
Proof.
  destruct (course_overview String.compare "All" [] 739000 738000 Example.academy)
    as [e|rows] eqn:Hrun.
  - vm_compute in Hrun. discriminate.
  - f_equal.
    apply (course_overview_reversed_range String.compare "All" [] 739000 738000
             Example.academy rows); [lia | exact Hrun].
Defined.

(** ** The enrollments of one student *)

Lemma in_enrollment_join_course (d : database) (e : Enrollment.t) (c : Course.t) :
  In (e, c) (enrollment_join_course d) <->
  In e (enrollment d) /\ In c (course d) /\ Course.id c = Enrollment.course_id e.
Proof.
  unfold enrollment_join_course. rewrite in_flat_map. split.
  - intros [e' [He Hin]]. apply in_map_iff in Hin. destruct Hin as [c' [Heq Hc]].
    inversion Heq; subst. apply filter_In in Hc. destruct Hc as [Hc Hid].
    apply Z.eqb_eq in Hid. auto.
  - intros (He & Hc & Hid). exists e. split; [exact He|].
    apply in_map_iff. exists c. split; [reflexivity|].
    apply filter_In. split; [exact Hc | now apply Z.eqb_eq].
Qed.

Lemma filter_by_key_length {A} (f : A -> Z) (l : list A) (x : Z) :
  NoDup (map f l) ->
  List.length (filter (fun c => f c =? x) l)
  = if existsb (fun c => f c =? x) l then 1%nat else 0%nat.
Proof.
  induction l as [|c l IH]; intros Hnd; simpl; [reflexivity|].
  inversion Hnd as [|? ? Hnotin Hnd']; subst.
  destruct (f c =? x) eqn:Hc; simpl.
  - rewrite IH by assumption.
    assert (Hno : existsb (fun c0 => f c0 =? x) l = false).
    { apply not_true_is_false. intros Hex. apply existsb_exists in Hex.
      destruct Hex as [c' [Hc' Heq]]. apply Z.eqb_eq in Hc, Heq.
      apply Hnotin. rewrite Hc, <- Heq. now apply in_map. }
    now rewrite Hno.
  - now apply IH.
Qed.

(** The enrollment table of a student lists the student's enrollments
    joined with their courses, most recent first: a row for each
    enrollment of the student and each course with its course id, and
    nothing else; when course ids are unique that is one row for every
    enrollment of the student whose course exists. *)
Theorem enrollments_query_rows (sid : Z) (d : database) :
  (forall v, In v (enrollments_query sid d) <->
             exists e c, In e (enrollment d) /\ Enrollment.student_id e = sid
                         /\ In c (course d) /\ Course.id c = Enrollment.course_id e
                         /\ v = view_of e c)
  /\ Sorted (fun a b => view_enrollment_date b <= view_enrollment_date a)
            (enrollments_query sid d)
  /\ (NoDup (map Course.id (course d)) ->
      List.length (enrollments_query sid d)
      = List.length (filter (fun e => (Enrollment.student_id e =? sid)
                                      && Schema.course_exists d (Enrollment.course_id e))%bool
                            (enrollment d))).
Proof.
  split; [|split].
  - intros v. unfold enrollments_query. rewrite order_by_In, in_map_iff. split.
    + intros [[e c] [Hv Hin]]. apply filter_In in Hin. destruct Hin as [Hin Hsid].
      apply in_enrollment_join_course in Hin. apply Z.eqb_eq in Hsid.
      exists e, c. simpl in *. intuition.
    + intros (e & c & He & Hsid & Hc & Hid & ->). exists (e, c). split; [reflexivity|].
      apply filter_In. split; [now apply in_enrollment_join_course|].
      now apply Z.eqb_eq.
  - unfold enrollments_query.
    eapply Sorted_weaken; [|apply order_by_sorted].
    + intros a b Hab. now apply Z.leb_le.
    + intros a b. simpl. rewrite !Z.leb_le. lia.
  - intros Hnd. unfold enrollments_query.
    rewrite order_by_length, length_map. unfold enrollment_join_course.
    induction (enrollment d) as [|e es IH]; [reflexivity|].
    cbn [flat_map filter]. rewrite filter_app, length_app, IH. clear IH.
    assert (Hhead :
              List.length
                (filter (fun ec : Enrollment.t * Course.t =>
                           Enrollment.student_id (fst ec) =? sid)
                        (map (fun c => (e, c))
                             (filter (fun c => Course.id c =? Enrollment.course_id e)
                                     (course d))))
              = if ((Enrollment.student_id e =? sid)
                    && Schema.course_exists d (Enrollment.course_id e))%bool
                then 1%nat else 0%nat).
    { assert (Hf : forall cs : list Course.t,
                 filter (fun ec : Enrollment.t * Course.t =>
                           Enrollment.student_id (fst ec) =? sid)
                        (map (fun c => (e, c)) cs)
                 = if Enrollment.student_id e =? sid
                   then map (fun c => (e, c)) cs else []).
      { intros cs. induction cs as [|c cs IHc]; simpl.
        - destruct (Enrollment.student_id e =? sid); reflexivity.
        - rewrite IHc. destruct (Enrollment.student_id e =? sid); reflexivity. }
      rewrite Hf. destruct (Enrollment.student_id e =? sid); cbn [andb];
        [|reflexivity].
      rewrite length_map. unfold Schema.course_exists.
      apply (filter_by_key_length Course.id). exact Hnd. }
    rewrite Hhead.
    destruct ((Enrollment.student_id e =? sid)
              && Schema.course_exists d (Enrollment.course_id e))%bool; reflexivity.
Qed.

Lemma enrollments_query_rows_witness :
  List.length (enrollments_query 1 Example.academy) = 1%nat.
Proof.
  rewrite (proj2 (proj2 (enrollments_query_rows 1 Example.academy))).
  - reflexivity.
  - simpl. repeat constructor; simpl; intuition discriminate.
Defined.

(** The enrollments shown after a search are always those of one of the
    students found, and never those of a student with id zero: the
    test [if selected_id:] skips that id. *)
Theorem shown_enrollments_of_found
        (students_found : list Student.t) (selectbox_index : nat) (d : database)
        (shown : list enrollment_view) :
  shown_enrollments students_found selectbox_index d = Some shown ->
  exists s, In s students_found /\ Student.id s <> 0
            /\ shown = enrollments_query (Student.id s) d.
Proof.
  unfold shown_enrollments. destruct students_found as [|first rest]; [discriminate|].
  cbv zeta.
  set (selected := match rest with
                   | [] => Student.id first
                   | _ => nth selectbox_index (map Student.id (first :: rest))
                              (Student.id first)
                   end).
  assert (Hsel : exists s, In s (first :: rest) /\ Student.id s = selected).
  { subst selected. destruct rest as [|second rest]; [exists first; simpl; auto|].
    destruct (nth_in_or_default selectbox_index
                (map Student.id (first :: second :: rest)) (Student.id first))
      as [Hin | Hdef].
    - apply in_map_iff in Hin. destruct Hin as [s [Hs Hin]]. exists s. auto.
    - exists first. split; [simpl; auto | now rewrite Hdef]. }
  destruct (selected =? 0) eqn:Hz; [discriminate|].
  intros Heq. inversion Heq; subst shown.
  destruct Hsel as [s [Hs Hid]]. exists s. apply Z.eqb_neq in Hz.
  split; [exact Hs|]. split; [congruence | now rewrite Hid].
Qed.

Lemma shown_enrollments_of_found_witness :
  exists s, In s [Example.ann; Example.bob] /\ Student.id s <> 0
            /\ enrollments_query 2 Example.academy
               = enrollments_query (Student.id s) Example.academy.
Proof.
  apply (shown_enrollments_of_found [Example.ann; Example.bob] 1 Example.academy).
  reflexivity.
Defined.

End TabsMore.

(* ================================================================== *)
(** * The example queries                                              *)
(* ================================================================== *)

Module InsightsFacts.
Import Dashboard OverviewFacts.

Lemma sum_perm (l l' : list Z) : Permutation l l' -> sum l = sum l'.
Proof.
  unfold sum. induction 1; simpl; lia.
Qed.

Lemma sum_map_add {K} (f g : K -> Z) (ks : list K) :
  sum (map (fun k => f k + g k) ks) = sum (map f ks) + sum (map g ks).
Proof. unfold sum. induction ks as [|k ks IH]; simpl; lia. Qed.

Lemma sum_map_zero {K} (ks : list K) : sum (map (fun _ => 0) ks) = 0.
Proof. unfold sum. induction ks as [|k ks IH]; simpl; lia. Qed.

Section Groups.
Context {A K : Type}.
Variable key : A -> K.
Variable test : K -> K -> bool.
Hypothesis test_spec : forall a b, test a b = true <-> a = b.

Lemma sum_indicator (a : K) (ks : list K) :
  NoDup ks ->
  sum (map (fun k => if test a k then 1 else 0) ks)
  = if existsb (test a) ks then 1 else 0.
Proof.
  induction ks as [|k ks IH]; intros Hnd; [reflexivity|].
  inversion Hnd as [|? ? Hnotin Hnd']; subst. simpl.
  change (fold_right Z.add 0 (map (fun k0 => if test a k0 then 1 else 0) ks))
    with (sum (map (fun k0 => if test a k0 then 1 else 0) ks)).
  rewrite IH by assumption.
  destruct (test a k) eqn:Hk; simpl; [|reflexivity].
  apply test_spec in Hk. subst k.
  assert (Hno : existsb (test a) ks = false).
  { apply not_true_is_false. intros Hex. apply existsb_exists in Hex.
    destruct Hex as [k [Hin Hk]]. apply test_spec in Hk. now subst. }
  now rewrite Hno.
Qed.

(** The sizes of the groups add up to the size of the table. *)
Lemma group_counts_total (l : list A) (ks : list K) :
  NoDup ks -> (forall x, In x l -> In (key x) ks) ->
  sum (map (fun k => count_where (fun x => test (key x) k) l) ks)
  = Z.of_nat (List.length l).
Proof.
  intros Hnd. induction l as [|x l IH]; intros Hkeys.
  - unfold count_where. simpl. apply sum_map_zero.
  - assert (Hstep : forall k,
               count_where (fun y => test (key y) k) (x :: l)
               = (if test (key x) k then 1 else 0)
                 + count_where (fun y => test (key y) k) l).
    { intros k. unfold count_where. cbn [filter].
      destruct (test (key x) k); cbn [List.length]; lia. }
    rewrite (map_ext _ _ Hstep), sum_map_add, IH, sum_indicator by
        (try assumption; intros; apply Hkeys; now right).
    assert (Hin : existsb (test (key x)) ks = true).
    { apply existsb_exists. exists (key x). split; [apply Hkeys; now left|].
      now apply test_spec. }
    rewrite Hin. cbn [List.length]. lia.
Qed.

End Groups.

Lemma string_eqb_flip (a b : string) : String.eqb a b = true <-> a = b.
Proof. apply String.eqb_eq. Qed.

Lemma sorted_by_count_desc {K} (rows : list (K * Z)) :
  Sorted (fun a b => snd b <= snd a) (order_by (fun a b => snd b <=? snd a) rows).
Proof.
  eapply Sorted_weaken; [|apply order_by_sorted].
  - intros a b Hab. now apply Z.leb_le.
  - intros a b. simpl. rewrite !Z.leb_le. lia.
Qed.

(** The status distribution has one row per status that occurs, with the
    number of enrollments of that status (at least one); the numbers add
    up to the size of the enrollment table, and the rows are in
    descending order of number. *)
Theorem enrollment_status_distribution_counts (d : database) :
  NoDup (map fst (enrollment_status_distribution d))
  /\ (forall k n, In (k, n) (enrollment_status_distribution d) <->
                  (exists e, In e (enrollment d) /\ Enrollment.status e = k)
                  /\ n = count_where (fun e => String.eqb (Enrollment.status e) k)
                                     (enrollment d))
  /\ (forall k n, In (k, n) (enrollment_status_distribution d) -> 1 <= n)
  /\ sum (map snd (enrollment_status_distribution d))
     = Z.of_nat (List.length (enrollment d))
  /\ Sorted (fun a b => snd b <= snd a) (enrollment_status_distribution d).
Proof.
  unfold enrollment_status_distribution.
  set (keys := nodup string_dec (map Enrollment.status (enrollment d))).
  set (row := fun k => (k, count_where (fun e => String.eqb (Enrollment.status e) k)
                                       (enrollment d))).
  assert (Hin : forall k n, In (k, n) (order_by (fun a b => snd b <=? snd a) (map row keys))
                            <-> (exists e, In e (enrollment d) /\ Enrollment.status e = k)
                                /\ n = snd (row k)).
  { intros k n. rewrite order_by_In, in_map_iff. subst keys. split.
    - intros [k' [Heq Hk']]. inversion Heq; subst. apply nodup_In, in_map_iff in Hk'.
      destruct Hk' as [e [He1 He2]]. split; [eauto | reflexivity].
    - intros [[e [He Hk]] ->]. exists k. split; [reflexivity|].
      apply nodup_In, in_map_iff. eauto. }
  split; [|split; [|split; [|split]]].
  - eapply Permutation_NoDup.
    { apply Permutation_map. symmetry. apply order_by_perm. }
    rewrite map_map. simpl. rewrite map_id. apply NoDup_nodup.
  - exact Hin.
  - intros k n Hkn. apply Hin in Hkn. destruct Hkn as [[e [He Hk]] ->].
    subst row. simpl. unfold count_where.
    assert (Hfe : In e (filter (fun e0 => String.eqb (Enrollment.status e0) k)
                               (enrollment d))).
    { apply filter_In. split; [exact He | now apply String.eqb_eq]. }
    destruct (filter _ (enrollment d)); [contradiction | cbn [List.length]; lia].
  - rewrite (sum_perm _ (map snd (map row keys)))
      by (apply Permutation_map, order_by_perm).
    rewrite map_map. subst row. cbn [snd].
    apply (group_counts_total Enrollment.status String.eqb string_eqb_flip).
    + apply NoDup_nodup.
    + intros e He. apply nodup_In, in_map, He.
  - apply sorted_by_count_desc.
Qed.

(** How many rows of the join of enrollments with courses satisfy a
    condition on the enrollment, when course ids are unique. *)
Lemma join_course_length (p : Enrollment.t -> bool) (d : database) :
  NoDup (map Course.id (course d)) ->
  List.length (filter (fun ec => p (fst ec)) (enrollment_join_course d))
  = List.length (filter (fun e => (p e && Schema.course_exists d (Enrollment.course_id e))%bool)
                        (enrollment d)).
Proof.
  intros Hnd. unfold enrollment_join_course.
  induction (enrollment d) as [|e es IH]; [reflexivity|].
  cbn [flat_map filter]. rewrite filter_app, length_app, IH. clear IH.
  assert (Hf : forall cs : list Course.t,
             filter (fun ec : Enrollment.t * Course.t => p (fst ec))
                    (map (fun c => (e, c)) cs)
             = if p e then map (fun c => (e, c)) cs else []).
  { intros cs. induction cs as [|c cs IHc]; simpl.
    - destruct (p e); reflexivity.
    - rewrite IHc. destruct (p e); reflexivity. }
  rewrite Hf. destruct (p e); cbn [andb]; [|reflexivity].
  rewrite length_map. unfold Schema.course_exists.
  rewrite (TabsMore.filter_by_key_length Course.id _ _ Hnd).
  destruct (existsb _ (course d)); reflexivity.
Qed.

(** Active enrollments per level: one row per level that has an active
    enrollment, each with a number of at least one, in descending order;
    when course ids are unique the numbers add up to the number of active
    enrollments whose course exists. *)
Theorem active_enrollments_per_level_counts (d : database) :
  NoDup (map fst (active_enrollments_per_level d))
  /\ (forall k n, In (k, n) (active_enrollments_per_level d) -> 1 <= n)
  /\ (forall e c, In e (enrollment d) -> Enrollment.status e = "active" ->
                  In c (course d) -> Course.id c = Enrollment.course_id e ->
                  exists n, In (Course.level c, n) (active_enrollments_per_level d))
  /\ Sorted (fun a b => snd b <= snd a) (active_enrollments_per_level d)
  /\ (NoDup (map Course.id (course d)) ->
      sum (map snd (active_enrollments_per_level d))
      = count_where (fun e => (String.eqb (Enrollment.status e) "active"
                               && Schema.course_exists d (Enrollment.course_id e))%bool)
                    (enrollment d)).
Proof.
  unfold active_enrollments_per_level. cbv zeta.
  set (rows := filter (fun ec => String.eqb (Enrollment.status (fst ec)) "active")
                      (enrollment_join_course d)).
  set (keys := nodup string_dec (map (fun ec : Enrollment.t * Course.t =>
                                        Course.level (snd ec)) rows)).
  set (row := fun k => (k, count_where (fun ec : Enrollment.t * Course.t =>
                                          String.eqb (Course.level (snd ec)) k) rows)).
  split; [|split; [|split; [|split]]].
  - eapply Permutation_NoDup.
    { apply Permutation_map. symmetry. apply order_by_perm. }
    rewrite map_map. simpl. rewrite map_id. apply NoDup_nodup.
  - intros k n Hkn. apply order_by_In, in_map_iff in Hkn.
    destruct Hkn as [k' [Heq Hk']]. subst row. injection Heq as Hk Hn. subst k' n.
    apply nodup_In, in_map_iff in Hk'. destruct Hk' as [ec [Hlv Hec]].
    unfold count_where.
    assert (Hfe : In ec (filter (fun ec0 : Enrollment.t * Course.t =>
                                   String.eqb (Course.level (snd ec0)) k) rows)).
    { apply filter_In. split; [exact Hec | now apply String.eqb_eq]. }
    destruct (filter _ rows); [contradiction | cbn [List.length]; lia].
  - intros e c He Hactive Hc Hid. eexists.
    apply order_by_In, in_map_iff. exists (Course.level c). split; [reflexivity|].
    apply nodup_In, in_map_iff. exists (e, c). split; [reflexivity|].
    subst rows. apply filter_In. split.
    + now apply TabsMore.in_enrollment_join_course.
    + simpl. now apply String.eqb_eq.
  - apply sorted_by_count_desc.
  - intros Hnd.
    rewrite (sum_perm _ (map snd (map row keys)))
      by (apply Permutation_map, order_by_perm).
    rewrite map_map. subst row. cbn [snd].
    rewrite (group_counts_total (fun ec : Enrollment.t * Course.t => Course.level (snd ec))
                                String.eqb string_eqb_flip).
    + subst rows. unfold count_where. f_equal.
      apply (join_course_length (fun e => String.eqb (Enrollment.status e) "active")).
      exact Hnd.
    + apply NoDup_nodup.
    + intros ec Hec. apply nodup_In. now apply (in_map (fun ec => Course.level (snd ec))).
Qed.

Lemma active_enrollments_per_level_counts_witness :
  sum (map snd (active_enrollments_per_level Example.academy)) = 1.
Proof.
  rewrite (proj2 (proj2 (proj2 (proj2
             (active_enrollments_per_level_counts Example.academy))))).
  - reflexivity.
  - simpl. repeat constructor; simpl; intuition discriminate.
Defined.

(** ** Left joins grouped by the left table *)

Section LeftJoin.
Context {P C K : Type}.
Variable kids : P -> list C.
Variable key : P -> K.
Variable dec : forall a b : K, {a = b} + {a <> b}.

Local Abbreviation joined_rows :=
  (fun p : P =>
     match kids p with
     | [] => [(p, None)]
     | cs => map (fun c => (p, Some c)) cs
     end).

Lemma joined_rows_fst (p : P) (r : P * option C) : In r (joined_rows p) -> fst r = p.
Proof.
  cbv beta. destruct (kids p) as [|c cs].
  - intros [<- | []]. reflexivity.
  - intros Hin. apply in_map_iff in Hin. destruct Hin as [c' [<- _]]. reflexivity.
Qed.

Lemma joined_rows_count (p : P) :
  count_where (fun r : P * option C => match snd r with Some _ => true | None => false end)
              (joined_rows p)
  = Z.of_nat (List.length (kids p)).
Proof.
  unfold count_where. cbv beta. destruct (kids p) as [|c cs]; [reflexivity|].
  f_equal. generalize (c :: cs). intros l.
  induction l as [|x l IH]; simpl; [reflexivity | now rewrite IH].
Qed.

(** With unique keys, the group of a row of the left table holds exactly
    the joined rows of that row. *)
Lemma group_of_parent (parents : list P) (p : P) :
  NoDup (map key parents) -> In p parents ->
  filter (fun r : P * option C => if dec (key (fst r)) (key p) then true else false)
         (flat_map joined_rows parents)
  = joined_rows p.
Proof.
  assert (Hall : forall q, key q = key p ->
                           filter (fun r : P * option C =>
                                     if dec (key (fst r)) (key p) then true else false)
                                  (joined_rows q) = joined_rows q).
  { intros q Hq. apply forallb_filter_id. apply forallb_forall. intros r Hr.
    rewrite (joined_rows_fst q r Hr), Hq. destruct (dec (key p) (key p)); congruence. }
  assert (Hnone : forall q, key q <> key p ->
                            filter (fun r : P * option C =>
                                      if dec (key (fst r)) (key p) then true else false)
                                   (joined_rows q) = []).
  { intros q Hq. pose proof (joined_rows_fst q) as Hfst. cbv beta in Hfst |- *.
    induction (match kids q with
               | [] => [(q, None)]
               | cs => map (fun c => (q, Some c)) cs
               end) as [|r l IH]; [reflexivity|].
    simpl. rewrite (Hfst r) by now left.
    destruct (dec (key q) (key p)); [congruence|].
    apply IH. intros; apply Hfst; now right. }
  induction parents as [|a parents IH]; intros Hnd Hin; [contradiction|].
  inversion Hnd as [|? ? Hnotin Hnd']; subst.
  cbn [flat_map]. rewrite filter_app. destruct Hin as [-> | Hin].
  - rewrite Hall by reflexivity.
    assert (Hrest : filter (fun r : P * option C =>
                              if dec (key (fst r)) (key p) then true else false)
                           (flat_map joined_rows parents) = []).
    { clear IH Hnd Hnd'. induction parents as [|b parents IHp]; [reflexivity|].
      cbn [flat_map]. rewrite filter_app, Hnone, IHp.
      - reflexivity.
      - intros Hb. apply Hnotin. now right.
      - intros Hb. apply Hnotin. left. exact Hb. }
    rewrite Hrest. apply app_nil_r.
  - rewrite Hnone, IH by (try assumption; intros Ha; apply Hnotin; rewrite Ha;
                          now apply in_map).
    reflexivity.
Qed.

Lemma joined_keys (parents : list P) (k : K) :
  In k (map (fun r : P * option C => key (fst r)) (flat_map joined_rows parents))
  <-> exists p, In p parents /\ k = key p.
Proof.
  rewrite in_map_iff. split.
  - intros [r [<- Hr]]. apply in_flat_map in Hr. destruct Hr as [p [Hp Hr]].
    exists p. split; [exact Hp|]. now rewrite (joined_rows_fst p r Hr).
  - intros [p [Hp ->]].
    assert (Hne : exists r, In r (joined_rows p)).
    { cbv beta. destruct (kids p) as [|c cs]; eexists; simpl; eauto. }
    destruct Hne as [r Hr]. exists r. split.
    + now rewrite (joined_rows_fst p r Hr).
    + apply in_flat_map. eauto.
Qed.

End LeftJoin.

Section Ordering.
Variable collate : string -> string -> comparison.
Hypothesis collate_antisym : forall a b, collate b a = CompOpp (collate a b).

Lemma sorted_count_desc_then_name {K} (name : K -> string) (rows : list (K * Z)) :
  Sorted (fun a b => snd b <= snd a)
         (order_by (count_desc_then_name collate name) rows).
Proof.
  eapply Sorted_weaken; [|apply order_by_sorted].
  - intros a b. unfold count_desc_then_name.
    destruct (snd b <? snd a) eqn:H1; [apply Z.ltb_lt in H1; lia|].
    destruct (snd a <? snd b) eqn:H2; [discriminate|].
    apply Z.ltb_ge in H1, H2. lia.
  - intros a b. unfold count_desc_then_name, le_of.
    rewrite (collate_antisym (name (fst a)) (name (fst b))).
    destruct (snd b <? snd a) eqn:H1; [auto|].
    destruct (snd a <? snd b) eqn:H2; [auto|].
    destruct (collate (name (fst a)) (name (fst b))); simpl; auto.
Qed.

Lemma NoDup_pair_key {A} (f : A -> Z) (g : A -> string) (l : list A) :
  NoDup (map f l) -> NoDup (map (fun x => (f x, g x)) l).
Proof.
  intros Hnd. apply NoDup_map_in; [|eapply NoDup_map_inv; exact Hnd].
  intros x y Hx Hy Heq. inversion Heq. eapply NoDup_map_eq; eauto.
Qed.

(** Students per course, when course ids are unique: one row for every
    course, also for a course without enrollments, with the number of
    enrollments in that course, in descending order of that number. *)
Theorem students_per_course_counts (d : database) :
  NoDup (map Course.id (course d)) ->
  (forall c, In c (course d) ->
             In ((Course.id c, Course.title c),
                 count_where (fun e => Enrollment.course_id e =? Course.id c)
                             (enrollment d))
                (students_per_course collate d))
  /\ (forall row, In row (students_per_course collate d) ->
                  exists c, In c (course d)
                            /\ row = ((Course.id c, Course.title c),
                                      count_where (fun e => Enrollment.course_id e
                                                            =? Course.id c)
                                                  (enrollment d)))
  /\ NoDup (map fst (students_per_course collate d))
  /\ List.length (students_per_course collate d) = List.length (course d)
  /\ Sorted (fun a b => snd b <= snd a) (students_per_course collate d).
Proof.
  intros Hnd.
  pose proof (NoDup_pair_key Course.id Course.title (course d) Hnd) as Hkeys.
  set (kids := fun c : Course.t =>
                 filter (fun e => Enrollment.course_id e =? Course.id c) (enrollment d)).
  set (key := fun c : Course.t => (Course.id c, Course.title c)).
  assert (Hgroup : forall c, In c (course d) ->
             count_where
               (fun r : Course.t * option Enrollment.t =>
                  match snd r with Some _ => true | None => false end)
               (filter (fun r : Course.t * option Enrollment.t =>
                          if pair_dec (key (fst r)) (key c) then true else false)
                       (flat_map (fun c => match kids c with
                                           | [] => [(c, None)]
                                           | es => map (fun e => (c, Some e)) es
                                           end) (course d)))
             = count_where (fun e => Enrollment.course_id e =? Course.id c)
                           (enrollment d)).
  { intros c Hc. rewrite (group_of_parent kids key pair_dec (course d) c Hkeys Hc).
    apply (joined_rows_count kids). }
  assert (Hin : forall row, In row (students_per_course collate d) <->
                            exists c, In c (course d)
                                      /\ row = (key c,
                                                count_where
                                                  (fun e => Enrollment.course_id e
                                                            =? Course.id c)
                                                  (enrollment d))).
  { intros row. unfold students_per_course. cbv zeta.
    rewrite order_by_In, in_map_iff. split.
    - intros [k [<- Hk]]. apply nodup_In in Hk.
      destruct (proj1 (joined_keys kids key (course d) k) Hk) as [c [Hc ->]].
      exists c. split; [exact Hc|]. f_equal. now apply Hgroup.
    - intros [c [Hc ->]]. exists (key c). split; [f_equal; now apply Hgroup|].
      apply nodup_In.
      exact (proj2 (joined_keys kids key (course d) (key c))
                   (ex_intro _ c (conj Hc eq_refl))). }
  assert (Hfst : Permutation (map fst (students_per_course collate d))
                             (map key (course d))).
  { unfold students_per_course. cbv zeta.
    rewrite (Permutation_map fst (order_by_perm _ _)), map_map. cbn [fst]. rewrite map_id.
    apply NoDup_Permutation; [apply NoDup_nodup | exact Hkeys|].
    intros k. rewrite nodup_In. split.
    + intros Hk. destruct (proj1 (joined_keys kids key (course d) k) Hk) as [c [H1 H2]].
      apply in_map_iff. exists c. auto.
    + intros Hk. apply in_map_iff in Hk. destruct Hk as [c [H1 H2]].
      exact (proj2 (joined_keys kids key (course d) k)
                   (ex_intro _ c (conj H2 (eq_sym H1)))). }
  split; [intros c Hc; apply Hin; eauto|].
  split; [intros row Hrow; now apply Hin|].
  split; [eapply Permutation_NoDup; [symmetry; exact Hfst | exact Hkeys]|].
  split.
  - rewrite <- (length_map fst), (Permutation_length Hfst). apply length_map.
  - apply sorted_count_desc_then_name.
Qed.

(** Courses per teacher, when teacher ids are unique: one row for every
    teacher, also for a teacher without courses, with the number of
    courses that name the teacher, in descending order of that number. *)
Theorem courses_per_teacher_counts (d : database) :
  NoDup (map Teacher.id (teacher d)) ->
  (forall t, In t (teacher d) ->
             In ((Teacher.id t, teacher_name t),
                 count_where (fun c => Course.teacher_id c =? Teacher.id t) (course d))
                (courses_per_teacher collate d))
  /\ (forall row, In row (courses_per_teacher collate d) ->
                  exists t, In t (teacher d)
                            /\ row = ((Teacher.id t, teacher_name t),
                                      count_where (fun c => Course.teacher_id c
                                                            =? Teacher.id t)
                                                  (course d)))
  /\ NoDup (map fst (courses_per_teacher collate d))
  /\ List.length (courses_per_teacher collate d) = List.length (teacher d)
  /\ Sorted (fun a b => snd b <= snd a) (courses_per_teacher collate d).
Proof.
  intros Hnd.
  pose proof (NoDup_pair_key Teacher.id teacher_name (teacher d) Hnd) as Hkeys.
  set (kids := fun t : Teacher.t =>
                 filter (fun c => Course.teacher_id c =? Teacher.id t) (course d)).
  set (key := fun t : Teacher.t => (Teacher.id t, teacher_name t)).
  assert (Hgroup : forall t, In t (teacher d) ->
             count_where
               (fun r : Teacher.t * option Course.t =>
                  match snd r with Some _ => true | None => false end)
               (filter (fun r : Teacher.t * option Course.t =>
                          if pair_dec (key (fst r)) (key t) then true else false)
                       (flat_map (fun t => match kids t with
                                           | [] => [(t, None)]
                                           | cs => map (fun c => (t, Some c)) cs
                                           end) (teacher d)))
             = count_where (fun c => Course.teacher_id c =? Teacher.id t) (course d)).
  { intros t Ht. rewrite (group_of_parent kids key pair_dec (teacher d) t Hkeys Ht).
    apply (joined_rows_count kids). }
  assert (Hin : forall row, In row (courses_per_teacher collate d) <->
                            exists t, In t (teacher d)
                                      /\ row = (key t,
                                                count_where
                                                  (fun c => Course.teacher_id c
                                                            =? Teacher.id t)
                                                  (course d))).
  { intros row. unfold courses_per_teacher. cbv zeta.
    rewrite order_by_In, in_map_iff. split.
    - intros [k [<- Hk]]. apply nodup_In in Hk.
      destruct (proj1 (joined_keys kids key (teacher d) k) Hk) as [t [Ht ->]].
      exists t. split; [exact Ht|]. f_equal. now apply Hgroup.
    - intros [t [Ht ->]]. exists (key t). split; [f_equal; now apply Hgroup|].
      apply nodup_In.
      exact (proj2 (joined_keys kids key (teacher d) (key t))
                   (ex_intro _ t (conj Ht eq_refl))). }
  assert (Hfst : Permutation (map fst (courses_per_teacher collate d))
                             (map key (teacher d))).
  { unfold courses_per_teacher. cbv zeta.
    rewrite (Permutation_map fst (order_by_perm _ _)), map_map. cbn [fst]. rewrite map_id.
    apply NoDup_Permutation; [apply NoDup_nodup | exact Hkeys|].
    intros k. rewrite nodup_In. split.
    + intros Hk. destruct (proj1 (joined_keys kids key (teacher d) k) Hk) as [t [H1 H2]].
      apply in_map_iff. exists t. auto.
    + intros Hk. apply in_map_iff in Hk. destruct Hk as [t [H1 H2]].
      exact (proj2 (joined_keys kids key (teacher d) k)
                   (ex_intro _ t (conj H2 (eq_sym H1)))). }
  split; [intros t Ht; apply Hin; eauto|].
  split; [intros row Hrow; now apply Hin|].
  split; [eapply Permutation_NoDup; [symmetry; exact Hfst | exact Hkeys]|].
  split.
  - rewrite <- (length_map fst), (Permutation_length Hfst). apply length_map.
  - apply sorted_count_desc_then_name.
Qed.

End Ordering.

Lemma students_per_course_counts_witness :
  In ((2, "Docker & Containers #2"), 0) (students_per_course String.compare Example.academy).
Proof.
  apply (proj1 (students_per_course_counts String.compare
                  (fun a b => String.compare_antisym b a) Example.academy
                  (Schema.course_pkey _ academy_well_formed)) Example.docker).
  simpl. tauto.
Defined.

Lemma courses_per_teacher_counts_witness :
  In ((2, "Alan Turing"), 1) (courses_per_teacher String.compare Example.academy).
Proof.
  apply (proj1 (courses_per_teacher_counts String.compare
                  (fun a b => String.compare_antisym b a) Example.academy
                  (Schema.teacher_pkey _ academy_well_formed)) Example.alan).
  simpl. tauto.
Defined.

End InsightsFacts.

(* ================================================================== *)
(** * More about the data generator                                    *)
(* ================================================================== *)

Module GeneratorMore.
Import Py Generator GeneratorFacts.

(** ** Loops that collect rows *)

Lemma for_collect_rows {S A B} (l : list A) (body : A -> M S B) :
  forall s ys s',
    for_collect l body s = (inr ys, s') ->
    Forall2 (fun x y => exists s1 s2, body x s1 = (inr y, s2)) l ys.
Proof.
  induction l as [|x l IH]; intros s ys s' Hrun.
  - simpl in Hrun. unfold ret in Hrun. inversion Hrun; subst. constructor.
  - simpl in Hrun. apply bind_inr in Hrun. destruct Hrun as (y & s1 & Hy & Hrest).
    apply bind_inr in Hrest. destruct Hrest as (ys1 & s2 & Hys & Hret).
    unfold ret in Hret. inversion Hret; subst.
    constructor; [eauto | eapply IH; eauto].
Qed.

Lemma for_collect_returns {S A B} (l : list A) (body : A -> M S B) :
  (forall x s, In x l -> exists y s', body x s = (inr y, s')) ->
  forall s, exists ys s', for_collect l body s = (inr ys, s').
Proof.
  induction l as [|x l IH]; intros Hbody s.
  - simpl. unfold ret. eauto.
  - destruct (Hbody x s (or_introl eq_refl)) as (y & s1 & Hy).
    destruct (IH (fun x s Hin => Hbody x s (or_intror Hin)) s1) as (ys & s2 & Hys).
    exists (y :: ys), s2. simpl.
    rewrite (bind_ok _ _ _ _ _ Hy), (bind_ok _ _ _ _ _ Hys). reflexivity.
Qed.

Lemma for_collect_state {S A B} (Rel : S -> S -> Prop)
      (Rel_refl : forall s, Rel s s)
      (Rel_trans : forall a b c, Rel a b -> Rel b c -> Rel a c)
      (l : list A) (body : A -> M S B) :
  (forall x s, Rel s (snd (body x s))) ->
  forall s, Rel s (snd (for_collect l body s)).
Proof.
  intros Hbody. induction l as [|x l IH]; intros s; simpl.
  - apply Rel_refl.
  - apply (ManageMore.bind_state Rel Rel_trans); [apply Hbody|].
    intros y s1. apply (ManageMore.bind_state Rel Rel_trans); [apply IH|].
    intros ys s2. apply Rel_refl.
Qed.

Lemma Forall2_map_eq {A B C} (f : B -> C) (g : A -> C) (l : list A) (ys : list B) :
  Forall2 (fun x y => f y = g x) l ys -> map f ys = map g l.
Proof. induction 1; simpl; congruence. Qed.

Lemma Forall2_Forall_r {A B} (P : B -> Prop) (l : list A) (ys : list B) :
  Forall2 (fun _ y => P y) l ys -> Forall P ys.
Proof. induction 1; constructor; assumption. Qed.

Lemma Forall2_weaken {A B} (P Q : A -> B -> Prop) (l : list A) (ys : list B) :
  (forall x y, P x y -> Q x y) -> Forall2 P l ys -> Forall2 Q l ys.
Proof. intros HPQ. induction 1; constructor; auto. Qed.

Lemma range_length (a b : Z) : List.length (range a b) = Z.to_nat (b - a).
Proof. unfold range. now rewrite length_map, length_seq. Qed.

Section Run.
Context {R F : Type} `{Random R} `{Faker F}.

Local Abbreviation W := (world R F).

Lemma with_fake_run {A} (f : F -> A * F) (w : W) :
  with_fake f w
  = (inr (fst (f (fake w))), mkworld (rng w) (snd (f (fake w))) (files w) (os w)).
Proof. unfold with_fake. destruct (f (fake w)); reflexivity. Qed.

Lemma with_rng_run {A} (f : R -> A * R) (w : W) :
  with_rng f w
  = (inr (fst (f (rng w))), mkworld (snd (f (rng w))) (fake w) (files w) (os w)).
Proof. unfold with_rng. destruct (f (rng w)); reflexivity. Qed.

(** [random.choice] of a sequence that is not empty returns one of its
    members. *)
Lemma choice_spec {A} (seq : list A) (w : W) :
  seq <> [] -> exists x w', choice seq w = (inr x, w') /\ In x seq.
Proof.
  intros Hne. unfold choice. destruct seq as [|x0 seq]; [congruence|].
  unfold bind. rewrite with_rng_run. unfold ret.
  do 2 eexists. split; [reflexivity|].
  apply nth_In.
  pose proof (randbelow_range (Z.of_nat (List.length (x0 :: seq))) (rng w)
                              ltac:(simpl; lia)) as Hr.
  lia.
Qed.

Lemma choice_member {A} (seq : list A) (w : W) (x : A) (w' : W) :
  choice seq w = (inr x, w') -> In x seq.
Proof.
  destruct seq as [|x0 seq]; [discriminate|]. intros Hrun.
  destruct (choice_spec (x0 :: seq) w) as (y & w1 & Hy & Hin); [discriminate|].
  rewrite Hy in Hrun. inversion Hrun; subst. exact Hin.
Qed.

(** [random_date_between] returns a date of the closed range; with the
    end before the start it raises ValueError and draws nothing. *)
Theorem random_date_between_range (start end_ : date) (w : W) :
  (start <= end_ ->
   exists dt w', random_date_between start end_ w = (inr dt, w')
                 /\ start <= dt <= end_)
  /\ (end_ < start ->
      random_date_between start end_ w
      = (inl (ValueError "empty range for randrange()"), w)).
Proof.
  split.
  - apply (proj1 (random_date_between_spec start end_ w)).
  - intros Hlt. unfold random_date_between, randint.
    assert (Hw : (0 <? end_ - start + 1 - 0) = false) by (apply Z.ltb_ge; lia).
    rewrite Hw. reflexivity.
Qed.

Ltac run_steps :=
  cbv [bind ret];
  repeat (first [rewrite with_fake_run | rewrite with_rng_run];
          cbn [fst snd fake rng files os]).

Ltac run_steps_in Hb :=
  cbv [bind ret] in Hb;
  repeat (first [rewrite with_fake_run in Hb | rewrite with_rng_run in Hb];
          cbn [fst snd fake rng files os] in Hb).

(** [generate_teachers] never raises: it returns [NUM_TEACHERS] teachers
    numbered 1, 2, ... in order, each with the email built from its names
    and number, and it draws from Faker only: the state of [random] and
    the files are left as they were. *)
Theorem generate_teachers_rows (w : W) :
  exists teachers w',
    generate_teachers w = (inr teachers, w')
    /\ map Teacher.id teachers = range 1 (NUM_TEACHERS + 1)
    /\ List.length teachers = 40%nat
    /\ Forall (fun t => Teacher.email t
                        = Text.lower (Teacher.first_name t) ++ "."
                          ++ Text.lower (Teacher.last_name t)
                          ++ Dashboard.str_int (Teacher.id t) ++ "@example.edu") teachers
    /\ rng w' = rng w /\ files w' = files w.
Proof.
  unfold generate_teachers.
  match goal with |- context [ for_collect ?l ?b ] => set (body := b); set (ids := l) end.
  destruct (for_collect_returns ids body) with (s := w) as (ts & w' & Hrun).
  { intros i s _. subst body. run_steps. eauto. }
  exists ts, w'. split; [exact Hrun|].
  pose proof (for_collect_rows ids body w ts w' Hrun) as Hrows.
  assert (Hshape : Forall2 (fun i t => Teacher.id t = i
                                       /\ Teacher.email t
                                          = Text.lower (Teacher.first_name t) ++ "."
                                            ++ Text.lower (Teacher.last_name t)
                                            ++ Dashboard.str_int (Teacher.id t)
                                            ++ "@example.edu") ids ts).
  { eapply Forall2_weaken; [|exact Hrows]. intros i t (s1 & s2 & Hb).
    subst body. run_steps_in Hb. inversion Hb; subst. split; reflexivity. }
  assert (Hids : map Teacher.id ts = ids).
  { rewrite <- (map_id ids). apply Forall2_map_eq.
    eapply Forall2_weaken; [|exact Hshape]. intros i t [Hi _]. exact Hi. }
  split; [exact Hids|].
  split; [rewrite <- (length_map Teacher.id), Hids; subst ids; now rewrite range_length|].
  split.
  { apply (Forall2_Forall_r _ ids). eapply Forall2_weaken; [|exact Hshape].
    intros i t [_ He]. exact He. }
  pose proof (for_collect_state (fun a b : W => rng b = rng a /\ files b = files a)
                (fun s => conj eq_refl eq_refl)
                (fun a b c Hab Hbc => conj (eq_trans (proj1 Hbc) (proj1 Hab))
                                           (eq_trans (proj2 Hbc) (proj2 Hab)))
                ids body) as Hstate.
  assert (Hbody : forall i s, rng (snd (body i s)) = rng s
                              /\ files (snd (body i s)) = files s).
  { intros i s. subst body. run_steps. auto. }
  specialize (Hstate Hbody w). rewrite Hrun in Hstate. exact Hstate.
Qed.

(** [generate_students] never raises: it returns [NUM_STUDENTS] students
    numbered 1, 2, ... in order, each registered between 2021-01-01 and
    2025-01-01 (both included), and writes no file. *)
Theorem generate_students_rows (w : W) :
  exists students w',
    generate_students w = (inr students, w')
    /\ map Student.id students = range 1 (NUM_STUDENTS + 1)
    /\ List.length students = 1500%nat
    /\ Forall (fun s => mkdate 2021 1 1 <= Student.registration_date s <= mkdate 2025 1 1
                        /\ Student.email s
                           = Text.lower (Student.first_name s) ++ "."
                             ++ Text.lower (Student.last_name s)
                             ++ Dashboard.str_int (Student.id s)
                             ++ "@student.example.com") students.
Proof.
  assert (Hwin : mkdate 2021 1 1 <= mkdate 2025 1 1) by (vm_compute; discriminate).
  unfold generate_students. cbv zeta.
  match goal with |- context [ for_collect ?l ?b ] => set (body := b); set (ids := l) end.
  destruct (for_collect_returns ids body) with (s := w) as (ss & w' & Hrun).
  { intros i s _. subst body. run_steps.
    match goal with
    | |- context [ random_date_between ?a ?b ?w0 ] =>
        destruct (proj1 (random_date_between_spec a b w0) Hwin) as (dt & w1 & Hdt & _)
    end.
    rewrite Hdt. eauto. }
  exists ss, w'. split; [exact Hrun|].
  pose proof (for_collect_rows ids body w ss w' Hrun) as Hrows.
  assert (Hshape : Forall2 (fun i s =>
                              Student.id s = i
                              /\ mkdate 2021 1 1 <= Student.registration_date s
                                 <= mkdate 2025 1 1
                              /\ Student.email s
                                 = Text.lower (Student.first_name s) ++ "."
                                   ++ Text.lower (Student.last_name s)
                                   ++ Dashboard.str_int (Student.id s)
                                   ++ "@student.example.com") ids ss).
  { eapply Forall2_weaken; [|exact Hrows]. intros i s (s1 & s2 & Hb).
    subst body. run_steps_in Hb.
    match type of Hb with
    | context [ random_date_between ?a ?b ?w0 ] =>
        pose proof (proj2 (random_date_between_spec a b w0)) as Hspec;
        destruct (random_date_between a b w0) as [[e|dt] w1]
    end; [discriminate|].
    specialize (Hspec dt w1 eq_refl). inversion Hb; subst. simpl. auto. }
  assert (Hids : map Student.id ss = ids).
  { rewrite <- (map_id ids). apply Forall2_map_eq.
    eapply Forall2_weaken; [|exact Hshape]. intros i t [Hi _]. exact Hi. }
  split; [exact Hids|].
  split; [rewrite <- (length_map Student.id), Hids; subst ids; now rewrite range_length|].
  apply (Forall2_Forall_r _ ids). eapply Forall2_weaken; [|exact Hshape].
  intros i t [_ He]. exact He.
Qed.

(** [generate_courses] needs a teacher: with no teacher it raises
    IndexError at once.  With teachers it returns [NUM_COURSES] courses
    numbered 1, 2, ... in order; each is taught by one of the given
    teachers, has one of the three levels, 3, 4 or 5 credits, a title
    from the pool followed by its number, a start date in 2023-01-01 ..
    2025-12-31 and an end date 30 to 90 days after its start. *)
Theorem generate_courses_rows (teachers : list Teacher.t) (w : W) :
  (teachers = [] ->
   generate_courses teachers w
   = (inl (IndexError "Cannot choose from an empty sequence"), w))
  /\ (teachers <> [] ->
      exists courses w',
        generate_courses teachers w = (inr courses, w')
        /\ map Course.id courses = range 1 (NUM_COURSES + 1)
        /\ List.length courses = 120%nat
        /\ Forall (fun c =>
                     In (Course.teacher_id c) (map Teacher.id teachers)
                     /\ In (Course.level c) levels
                     /\ In (Course.credits c) [3; 4; 5]
                     /\ (exists base, In base titles_samples
                                      /\ Course.title c
                                         = base ++ " #" ++ Dashboard.str_int (Course.id c))
                     /\ mkdate 2023 1 1 <= Course.start_date c <= mkdate 2025 12 31
                     /\ Course.start_date c + 30 <= Course.end_date c
                        <= Course.start_date c + 90) courses).
Proof.
  assert (Hwin : mkdate 2023 1 1 <= mkdate 2025 12 31) by (vm_compute; discriminate).
  split.
  - intros ->. unfold generate_courses. cbv zeta.
    unfold range. change (Z.to_nat (NUM_COURSES + 1 - 1)) with (S 119).
    cbn [seq map for_collect]. reflexivity.
  - intros Hne. unfold generate_courses. cbv zeta.
    match goal with |- context [ for_collect ?l ?b ] => set (body := b); set (ids := l) end.
    destruct (for_collect_returns ids body) with (s := w) as (cs & w' & Hrun).
    { intros i s _. subst body. cbv beta.
      destruct (choice_spec teachers s Hne) as (t & s1 & Ht & _).
      rewrite (bind_ok _ _ _ _ _ Ht).
      destruct (choice_spec levels s1 ltac:(discriminate)) as (lv & s2 & Hlv & _).
      rewrite (bind_ok _ _ _ _ _ Hlv).
      destruct (choice_spec titles_samples s2 ltac:(discriminate)) as (bt & s3 & Hbt & _).
      rewrite (bind_ok _ _ _ _ _ Hbt).
      rewrite (bind_ok _ _ _ _ _ (with_fake_run (paragraph 3) s3)).
      match goal with |- context [ bind (choice [3; 4; 5]) _ ?s4 ] =>
        destruct (choice_spec [3; 4; 5] s4 ltac:(discriminate)) as (cr & s5 & Hcr & _)
      end.
      rewrite (bind_ok _ _ _ _ _ Hcr).
      destruct (proj1 (random_date_between_spec (mkdate 2023 1 1) (mkdate 2025 12 31) s5)
                      Hwin) as (sd & s6 & Hsd & _).
      rewrite (bind_ok _ _ _ _ _ Hsd).
      destruct (proj1 (randint_spec 30 90 s6) ltac:(lia)) as (du & s7 & Hdu & _).
      rewrite (bind_ok _ _ _ _ _ Hdu). unfold ret. eauto. }
    exists cs, w'. split; [exact Hrun|].
    pose proof (for_collect_rows ids body w cs w' Hrun) as Hrows.
    assert (Hshape :
              Forall2 (fun i c =>
                         Course.id c = i
                         /\ In (Course.teacher_id c) (map Teacher.id teachers)
                         /\ In (Course.level c) levels
                         /\ In (Course.credits c) [3; 4; 5]
                         /\ (exists base, In base titles_samples
                                          /\ Course.title c
                                             = base ++ " #"
                                               ++ Dashboard.str_int (Course.id c))
                         /\ mkdate 2023 1 1 <= Course.start_date c <= mkdate 2025 12 31
                         /\ Course.start_date c + 30 <= Course.end_date c
                            <= Course.start_date c + 90) ids cs).
    { eapply Forall2_weaken; [|exact Hrows]. intros i c (s1 & s2 & Hb).
      subst body. cbv beta in Hb.
      apply bind_inr in Hb. destruct Hb as (t & w1 & Ht & Hb).
      apply bind_inr in Hb. destruct Hb as (lv & w2 & Hlv & Hb).
      apply bind_inr in Hb. destruct Hb as (bt & w3 & Hbt & Hb).
      apply bind_inr in Hb. destruct Hb as (ds & w4 & _ & Hb).
      apply bind_inr in Hb. destruct Hb as (cr & w5 & Hcr & Hb).
      apply bind_inr in Hb. destruct Hb as (sd & w6 & Hsd & Hb).
      apply bind_inr in Hb. destruct Hb as (du & w7 & Hdu & Hb).
      unfold ret in Hb. inversion Hb; subst. cbn.
      apply choice_member in Ht, Hlv, Hbt, Hcr.
      apply (proj2 (random_date_between_spec _ _ _)) in Hsd.
      apply (proj2 (randint_spec 30 90 _)) in Hdu.
      split; [reflexivity|]. split; [now apply in_map|].
      split; [exact Hlv|]. split; [exact Hcr|].
      split; [exists bt; auto|]. split; [exact Hsd | lia]. }
    assert (Hids : map Course.id cs = ids).
    { rewrite <- (map_id ids). apply Forall2_map_eq.
      eapply Forall2_weaken; [|exact Hshape]. intros i t [Hi _]. exact Hi. }
    split; [exact Hids|].
    split; [rewrite <- (length_map Course.id), Hids; subst ids; now rewrite range_length|].
    apply (Forall2_Forall_r _ ids). eapply Forall2_weaken; [|exact Hshape].
    intros i t [_ He]. exact He.
Qed.

End Run.

Lemma generate_courses_rows_witness :
  exists courses w',
    generate_courses [Example.ada; Example.alan] Example.start = (inr courses, w')
    /\ List.length courses = 120%nat.
Proof.
  destruct (proj2 (generate_courses_rows [Example.ada; Example.alan] Example.start))
    as (courses & w' & Hrun & _ & Hlen & _); [discriminate|].
  exists courses, w'. auto.
Defined.

Lemma random_date_between_range_witness :
  exists dt w', random_date_between 738000 738010 Example.start = (inr dt, w')
                /\ 738000 <= dt <= 738010.
Proof.
  apply (proj1 (random_date_between_range 738000 738010 Example.start)). lia.
Defined.

End GeneratorMore.

(* ================================================================== *)
(** * The generated enrollments                                        *)
(* ================================================================== *)

Module EnrollmentFacts.
Import Py Generator GeneratorFacts GeneratorMore.

(** An invariant that may speak of the items already processed. *)
Lemma for_fold_inv_prefix {S A B} (I : list A -> B -> Prop) (l : list A)
      (body : B -> A -> M S B) :
  (forall pre x post acc s acc' s',
      l = (pre ++ x :: post)%list -> I pre acc ->
      body acc x s = (inr acc', s') -> I (pre ++ [x])%list acc') ->
  forall acc s r s', I [] acc -> for_fold l acc body s = (inr r, s') -> I l r.
Proof.
  intros Hbody.
  assert (Hgen : forall rest pre acc s r s',
             l = (pre ++ rest)%list -> I pre acc ->
             for_fold rest acc body s = (inr r, s') -> I l r).
  { induction rest as [|x rest IH]; intros pre acc s r s' Hl Hacc Hrun.
    - simpl in Hrun. unfold ret in Hrun. inversion Hrun; subst.
      now rewrite app_nil_r.
    - simpl in Hrun. apply bind_inr in Hrun. destruct Hrun as (acc1 & s1 & Hx & Hrest).
      apply (IH (pre ++ [x])%list acc1 s1 r s').
      + now rewrite <- app_assoc.
      + eapply Hbody; eauto.
      + exact Hrest. }
  intros acc s r s' Hacc Hrun. now apply (Hgen l [] acc s r s').
Qed.

Lemma seq_extend (a : Z) (n m : nat) :
  (map (fun k => a + Z.of_nat k) (seq 0 n)
   ++ map (fun k => a + Z.of_nat n + Z.of_nat k) (seq 0 m))%list
  = map (fun k => a + Z.of_nat k) (seq 0 (n + m)).
Proof.
  rewrite seq_app, map_app. f_equal.
  assert (Hshift : forall s,
             map (fun k => a + Z.of_nat n + Z.of_nat k) (seq s m)
             = map (fun k => a + Z.of_nat k) (seq (s + n) m)).
  { induction m as [|m IH]; intros s; [reflexivity|].
    cbn [seq map]. f_equal; [lia|]. apply (IH (S s)). }
  apply (Hshift 0%nat).
Qed.

Section Run.
Context {R F : Type} `{Random R} `{Faker F}.

Local Abbreviation W := (world R F).

(** [random.sample]: as many items as asked for, all from the population,
    no position twice: what is distinct in the population is distinct in
    the sample. *)
Lemma sample_distinct {A B} (population : list A) (k : Z) (w : W)
      (l : list A) (w' : W) (f : A -> B) :
  sample population k w = (inr l, w') ->
  List.length l = Z.to_nat k /\ 0 <= k
  /\ incl l population
  /\ (NoDup (map f population) -> NoDup (map f l)).
Proof.
  intros Hrun. pose proof (proj2 (sample_spec population k w) l w' Hrun) as Hincl.
  unfold sample in Hrun.
  destruct ((0 <=? k) && (k <=? Z.of_nat (List.length population)))%bool eqn:Hk;
    [|discriminate].
  apply andb_true_iff in Hk. destruct Hk as [Hk0 Hkn].
  apply Z.leb_le in Hk0. apply Z.leb_le in Hkn.
  destruct population as [|x0 pop].
  - unfold ret in Hrun. inversion Hrun; subst. simpl in *.
    repeat split; try lia; try assumption. intros _. constructor.
  - remember (x0 :: pop) as pl eqn:Hpl.
    assert (Hle : (Z.to_nat k <= List.length pl)%nat) by lia.
    pose proof (sample_indices_spec _ _ (rng w) Hle) as (Hlen & Hnd & Hidx).
    unfold bind in Hrun. rewrite with_rng_run in Hrun. unfold ret in Hrun.
    injection Hrun as <- _.
    set (idx := fst (sample_indices (List.length pl) (Z.to_nat k) (rng w))) in *.
    split; [now rewrite length_map|]. split; [exact Hk0|]. split; [exact Hincl|].
    intros Hdistinct. rewrite map_map.
    apply OverviewFacts.NoDup_map_in; [|exact Hnd].
    intros i j Hi Hj Heq. rewrite Forall_forall in Hidx.
    rewrite <- !(map_nth f) in Heq.
    apply (proj1 (NoDup_nth (map f pl) (f x0)) Hdistinct);
      rewrite ?length_map; auto.
Qed.

Lemma enroll_row_status (student : Student.t) (acc : list enrollment_row * Z)
      (course : Course.t) (w : W) (row : enrollment_row) (next : Z) (w' : W) :
  enroll student acc course w = (inr ((fst acc ++ [row])%list, next), w') ->
  In (status row) ["completed"; "active"; "dropped"].
Proof.
  destruct acc as [rows n]. unfold enroll. intros Hrun.
  apply bind_inr in Hrun. destruct Hrun as (dt & w1 & _ & Hrun).
  apply bind_inr in Hrun. destruct Hrun as ([st gr] & w2 & Hsg & Hret).
  unfold ret in Hret. injection Hret as Hrows _ _.
  apply app_inv_head in Hrows. injection Hrows as <-. cbn [status].
  destruct (choose_status_and_grade_run (Course.start_date course)
              (Course.end_date course) dt w1) as (st' & _ & Hin & Hcases).
  destruct Hcases as [(_ & g & _ & _ & Hr) | (_ & Hr)];
    rewrite Hr in Hsg; inversion Hsg; subst; exact Hin.
Qed.

(** The inner loop: one row per chosen course, in order, numbered on
    from the current number, all for the student at hand. *)
Lemma enroll_loop_rows (student : Student.t) (chosen : list Course.t) :
  forall acc (w : W) acc' (w' : W),
    for_fold chosen acc (enroll student) w = (inr acc', w') ->
    exists new,
      fst acc' = (fst acc ++ new)%list
      /\ snd acc' = snd acc + Z.of_nat (List.length chosen)
      /\ map course_id new = map Course.id chosen
      /\ map id new = map (fun k => snd acc + Z.of_nat k) (seq 0 (List.length chosen))
      /\ Forall (fun e => student_id e = Student.id student
                          /\ In (status e) ["completed"; "active"; "dropped"]) new.
Proof.
  induction chosen as [|course chosen IH]; intros acc w acc' w' Hrun.
  - simpl in Hrun. unfold ret in Hrun. inversion Hrun; subst.
    exists []. rewrite app_nil_r, Z.add_0_r. repeat split; constructor.
  - simpl in Hrun. apply bind_inr in Hrun. destruct Hrun as (acc1 & w1 & Hx & Hrest).
    pose proof (proj2 (enroll_spec student acc course w) acc1 w1 Hx)
      as (row & Hacc1 & Hid & Hsid & Hcid & _ & _).
    assert (Hst : In (status row) ["completed"; "active"; "dropped"]).
    { subst acc1. eapply enroll_row_status; exact Hx. }
    destruct (IH acc1 w1 acc' w' Hrest) as (new & Hrows & Hnext & Hcids & Hids & Hall).
    subst acc1. cbn [fst snd] in *.
    exists (row :: new). repeat split.
    + rewrite Hrows, <- app_assoc. reflexivity.
    + rewrite Hnext. cbn [List.length]. lia.
    + cbn [map]. now rewrite Hcid, Hcids.
    + cbn [map List.length seq]. rewrite Hid, Z.add_0_r. f_equal.
      rewrite Hids, <- seq_shift, map_map. apply map_ext. intros k. lia.
    + constructor; [auto | exact Hall].
Qed.

(** What holds of the rows built so far after each student. *)
Lemma generate_enrollments_invariant (students : list Student.t) (courses : list Course.t)
      (w : W) (es : list enrollment_row) (w' : W) :
  generate_enrollments students courses w = (inr es, w') ->
  map id es = range 1 (Z.of_nat (List.length es) + 1)
  /\ Forall (fun e => In (student_id e) (map Student.id students)
                      /\ In (course_id e) (map Course.id courses)
                      /\ In (status e) ["completed"; "active"; "dropped"]) es
  /\ (List.length students <= List.length es <= 4 * List.length students)%nat
  /\ (NoDup (map Student.id students) -> NoDup (map Course.id courses) ->
      NoDup (map (fun e => (student_id e, course_id e)) es)).
Proof.
  intros Hrun. unfold generate_enrollments in Hrun.
  apply bind_inr in Hrun. destruct Hrun as (r & w1 & Hloop & Hret).
  unfold ret in Hret. inversion Hret; subst es w'. clear Hret.
  set (Inv := fun (pre : list Student.t) (acc : list enrollment_row * Z) =>
                snd acc = 1 + Z.of_nat (List.length (fst acc))
                /\ map id (fst acc)
                   = map (fun k => 1 + Z.of_nat k) (seq 0 (List.length (fst acc)))
                /\ Forall (fun e => In (student_id e) (map Student.id pre)
                                    /\ In (course_id e) (map Course.id courses)
                                    /\ In (status e) ["completed"; "active"; "dropped"])
                          (fst acc)
                /\ (List.length pre <= List.length (fst acc) <= 4 * List.length pre)%nat
                /\ (NoDup (map Student.id students) -> NoDup (map Course.id courses) ->
                    NoDup (map (fun e => (student_id e, course_id e)) (fst acc)))).
  assert (Hfinal : Inv students r).
  { revert Hloop. apply for_fold_inv_prefix.
    - intros pre student post acc s acc' s' Hsplit (Hnext & Hids & Hall & Hlen & Hnd) Hbody.
      apply bind_inr in Hbody. destruct Hbody as (num & s1 & Hnum & Hbody).
      apply (proj2 (randint_spec _ _ _)) in Hnum.
      unfold MIN_ENROLLMENTS_PER_STUDENT, MAX_ENROLLMENTS_PER_STUDENT in Hnum.
      apply bind_inr in Hbody. destruct Hbody as (chosen & s2 & Hsample & Hinner).
      destruct (sample_distinct courses num s1 chosen s2 Course.id Hsample)
        as (Hclen & _ & Hincl & Hdistinct).
      destruct (enroll_loop_rows student chosen acc s2 acc' s' Hinner)
        as (new & Hrows & Hnext' & Hcids & Hnewids & Hnew).
      assert (Hnewlen : List.length new = List.length chosen).
      { rewrite <- (length_map course_id), Hcids. apply length_map. }
      unfold Inv. rewrite Hrows, Hnext', length_app, Hnewlen.
      split; [rewrite Hnext; lia|].
      split.
      { rewrite map_app, Hids, Hnewids, Hnext, <- Hnewlen. apply seq_extend. }
      split.
      { apply Forall_app. split.
        - eapply Forall_impl; [|exact Hall]. intros e (Hs & Hc & Hst).
          split; [|auto]. rewrite map_app. apply in_or_app. now left.
        - rewrite Forall_forall in Hnew. apply Forall_forall. intros e He.
          destruct (Hnew e He) as [Hs Hst]. split; [|split; [|exact Hst]].
          + rewrite Hs, map_app. apply in_or_app. right. simpl. auto.
          + assert (Hc : In (course_id e) (map course_id new)) by now apply in_map.
            rewrite Hcids in Hc. apply in_map_iff in Hc. destruct Hc as [c [<- Hc]].
            apply in_map. now apply Hincl. }
      split; [rewrite length_app; simpl; lia|].
      intros Hns Hnc. rewrite map_app. apply NoDup_app.
      + now apply Hnd.
      + assert (Hpairs : map (fun e => (student_id e, course_id e)) new
                         = map (fun c => (Student.id student, c)) (map course_id new)).
        { rewrite map_map. apply map_ext_in. intros e He.
          rewrite Forall_forall in Hnew. now rewrite (proj1 (Hnew e He)). }
        rewrite Hpairs, Hcids. apply OverviewFacts.NoDup_map_in; [|now apply Hdistinct].
        intros a b _ _ Hab. now inversion Hab.
      + intros pr Hold Hnewp.
        apply in_map_iff in Hold. destruct Hold as [e1 [<- He1]].
        apply in_map_iff in Hnewp. destruct Hnewp as [e2 [Heq He2]].
        rewrite Forall_forall in Hall, Hnew.
        destruct (Hall e1 He1) as [Hin1 _]. destruct (Hnew e2 He2) as [Hs2 _].
        injection Heq as Hsid _. rewrite Hs2 in Hsid.
        rewrite Hsplit, map_app in Hns. cbn [map] in Hns.
        apply NoDup_remove_2 in Hns. apply Hns.
        apply in_or_app. left. now rewrite Hsid.
    - unfold Inv. simpl. repeat split; try lia; constructor. }
  destruct Hfinal as (Hnext & Hids & Hall & Hlen & Hnd).
  split; [|auto].
  rewrite Hids. unfold range.
  replace (Z.to_nat (Z.of_nat (List.length (fst r)) + 1 - 1)) with (List.length (fst r))
    by lia.
  reflexivity.
Qed.

(** The generated enrollments are numbered 1, 2, ... in order; each
    belongs to one of the given students and one of the given courses and
    has one of the three statuses; every student gets at least one and at
    most four of them. *)
Theorem generate_enrollments_integrity
        (students : list Student.t) (courses : list Course.t)
        (w : W) (es : list enrollment_row) (w' : W) :
  generate_enrollments students courses w = (inr es, w') ->
  map id es = range 1 (Z.of_nat (List.length es) + 1)
  /\ Forall (fun e => In (student_id e) (map Student.id students)
                      /\ In (course_id e) (map Course.id courses)
                      /\ In (status e) ["completed"; "active"; "dropped"]) es
  /\ (List.length students <= List.length es <= 4 * List.length students)%nat.
Proof.
  intros Hrun. apply generate_enrollments_invariant in Hrun. tauto.
Qed.

(** With distinct student ids and distinct course ids, no student is
    enrolled twice in the same course. *)
Theorem generate_enrollments_no_repeat
        (students : list Student.t) (courses : list Course.t)
        (w : W) (es : list enrollment_row) (w' : W) :
  NoDup (map Student.id students) -> NoDup (map Course.id courses) ->
  generate_enrollments students courses w = (inr es, w') ->
  NoDup (map (fun e => (student_id e, course_id e)) es).
Proof.
  intros Hs Hc Hrun. apply generate_enrollments_invariant in Hrun.
  now apply Hrun.
Qed.

End Run.

Lemma generate_enrollments_integrity_witness :
  exists es w',
    generate_enrollments [Example.ann; Example.bob] Example.catalogue Example.start
    = (inr es, w')
    /\ (2 <= List.length es <= 8)%nat.
Proof.
  destruct (generate_enrollments [Example.ann; Example.bob] Example.catalogue
                                 Example.start) as [[e|es] w'] eqn:Hrun.
  - vm_compute in Hrun. discriminate.
  - exists es, w'. split; [reflexivity|].
    destruct (generate_enrollments_integrity _ _ _ _ _ Hrun) as (_ & _ & Hlen).
    simpl in Hlen. lia.
Defined.

Lemma generate_enrollments_no_repeat_witness :
  exists es w',
    generate_enrollments [Example.ann; Example.bob] Example.catalogue Example.start
    = (inr es, w')
    /\ NoDup (map (fun e => (student_id e, course_id e)) es).
Proof.
  destruct (generate_enrollments [Example.ann; Example.bob] Example.catalogue
                                 Example.start) as [[e|es] w'] eqn:Hrun.
  - vm_compute in Hrun. discriminate.
  - exists es, w'. split; [reflexivity|].
    apply (generate_enrollments_no_repeat [Example.ann; Example.bob] Example.catalogue
             Example.start es w'); [| |exact Hrun];
      simpl; repeat constructor; simpl; intuition discriminate.
Defined.

End EnrollmentFacts.

(* ================================================================== *)
(** * The files the script writes                                      *)
(* ================================================================== *)

Module ScriptFacts.
Import Py Generator GeneratorFacts GeneratorMore EnrollmentFacts.

(** ** The generators leave the file system alone *)

Section Keeps.
Context {R F : Type} `{Random R} `{Faker F}.

Local Abbreviation W := (world R F).

Lemma keeps_ret {A} (a : A) : forall w : W, disk (snd (ret a w)) = disk w.
Proof. reflexivity. Qed.

Lemma keeps_raise {A} (e : exn) : forall w : W, disk (snd (raise (A := A) e w)) = disk w.
Proof. reflexivity. Qed.

Lemma keeps_with_rng {A} (f : R -> A * R) :
  forall w : W, disk (snd (with_rng f w)) = disk w.
Proof. intros w. now rewrite with_rng_run. Qed.

Lemma keeps_with_fake {A} (f : F -> A * F) :
  forall w : W, disk (snd (with_fake f w)) = disk w.
Proof. intros w. now rewrite with_fake_run. Qed.

Lemma keeps_bind {A B} (c : M W A) (k : A -> M W B) :
  (forall w, disk (snd (c w)) = disk w) ->
  (forall a w, disk (snd (k a w)) = disk w) ->
  forall w, disk (snd (bind c k w)) = disk w.
Proof.
  intros Hc Hk w. unfold bind. specialize (Hc w).
  destruct (c w) as [[e|a] w1]; simpl in *; [exact Hc|].
  now rewrite Hk.
Qed.

Lemma keeps_for_collect {A B} (l : list A) (body : A -> M W B) :
  (forall x w, disk (snd (body x w)) = disk w) ->
  forall w, disk (snd (for_collect l body w)) = disk w.
Proof.
  intros Hbody. induction l as [|x l IH]; [reflexivity|]. simpl.
  apply keeps_bind; [apply Hbody|]. intros y.
  apply keeps_bind; [apply IH|]. intros ys. apply keeps_ret.
Qed.

Lemma keeps_for_fold {A B} (l : list A) (body : B -> A -> M W B) :
  (forall acc x w, disk (snd (body acc x w)) = disk w) ->
  forall acc w, disk (snd (for_fold l acc body w)) = disk w.
Proof.
  intros Hbody. induction l as [|x l IH]; intros acc; [reflexivity|]. simpl.
  apply keeps_bind; [apply Hbody|]. intros acc'. apply IH.
Qed.

Ltac keeps :=
  repeat first
    [ apply keeps_ret | apply keeps_raise | apply keeps_with_rng | apply keeps_with_fake
    | apply keeps_bind; [|intros ?]
    | apply keeps_for_collect; intros ?
    | apply keeps_for_fold; intros ? ?
    | match goal with
      | |- forall w, disk (snd ((if ?b then _ else _) w)) = disk w => destruct b
      | |- forall w, disk (snd ((match ?l with [] => _ | _ :: _ => _ end) w)) = disk w =>
          destruct l
      | |- forall w, disk (snd ((let '(_, _) := ?p in _) w)) = disk w => destruct p
      end ].

Lemma keeps_randint (a b : Z) : forall w : W, disk (snd (randint a b w)) = disk w.
Proof. unfold randint. keeps. Qed.

Lemma keeps_choice {A} (seq : list A) : forall w : W, disk (snd (choice seq w)) = disk w.
Proof. unfold choice. keeps. Qed.

Lemma keeps_choices {A} (population : list A) (weights : list float) :
  forall w : W, disk (snd (choices population weights w)) = disk w.
Proof. unfold choices. cbv zeta. keeps. Qed.

Lemma keeps_sample {A} (population : list A) (k : Z) :
  forall w : W, disk (snd (sample population k w)) = disk w.
Proof. unfold sample. cbv zeta. keeps. Qed.

Lemma keeps_random_date_between (a b : date) :
  forall w : W, disk (snd (random_date_between a b w)) = disk w.
Proof. unfold random_date_between. cbv zeta. apply keeps_bind; [apply keeps_randint|]. keeps. Qed.

Lemma keeps_generate_students : forall w : W, disk (snd (generate_students w)) = disk w.
Proof.
  unfold generate_students. cbv zeta. apply keeps_for_collect. intros i.
  repeat (apply keeps_bind; [first [apply keeps_with_fake | apply keeps_random_date_between]
                            | intros ?]).
  apply keeps_ret.
Qed.

Lemma keeps_generate_courses (teachers : list Teacher.t) :
  forall w : W, disk (snd (generate_courses teachers w)) = disk w.
Proof.
  unfold generate_courses. cbv zeta. apply keeps_for_collect. intros i.
  repeat (apply keeps_bind;
          [first [apply keeps_with_fake | apply keeps_random_date_between
                 | apply keeps_choice | apply keeps_randint]
          | intros ?]).
  apply keeps_ret.
Qed.

Lemma keeps_choose_status_and_grade (cs ce ed : date) :
  forall w : W, disk (snd (choose_status_and_grade cs ce ed w)) = disk w.
Proof.
  unfold choose_status_and_grade.
  apply keeps_bind.
  { destruct (ce <? today); [|destruct (today <? cs)]; apply keeps_choices. }
  intros status. apply keeps_bind; [|intros ?; apply keeps_ret].
  destruct (String.eqb status "completed"); [|apply keeps_ret].
  apply keeps_bind; [apply keeps_choices | intros ?; apply keeps_ret].
Qed.

Lemma keeps_generate_enrollments (students : list Student.t) (courses : list Course.t) :
  forall w : W, disk (snd (generate_enrollments students courses w)) = disk w.
Proof.
  unfold generate_enrollments.
  apply keeps_bind; [|intros ?; apply keeps_ret].
  apply keeps_for_fold. intros acc student.
  apply keeps_bind; [apply keeps_randint | intros num].
  apply keeps_bind; [apply keeps_sample | intros chosen].
  apply keeps_for_fold. intros [rows next] course. unfold enroll. cbv zeta.
  apply keeps_bind; [apply keeps_random_date_between | intros dt].
  apply keeps_bind; [apply keeps_choose_status_and_grade | intros [st gr]].
  apply keeps_ret.
Qed.

(** ** Steps that never raise *)

Lemma returns_ret {A} (a : A) : forall w : W, exists b w', ret a w = (inr b, w').
Proof. intros w. unfold ret. eauto. Qed.

Lemma returns_with_rng {A} (f : R -> A * R) :
  forall w : W, exists a w', with_rng f w = (inr a, w').
Proof. intros w. rewrite with_rng_run. eauto. Qed.

Lemma returns_with_fake {A} (f : F -> A * F) :
  forall w : W, exists a w', with_fake f w = (inr a, w').
Proof. intros w. rewrite with_fake_run. eauto. Qed.

Lemma returns_bind {A B} (c : M W A) (k : A -> M W B) :
  (forall w, exists a w', c w = (inr a, w')) ->
  (forall a w, exists b w', k a w = (inr b, w')) ->
  forall w, exists b w', bind c k w = (inr b, w').
Proof.
  intros Hc Hk w. destruct (Hc w) as (a & w1 & Ha).
  rewrite (bind_ok _ _ _ _ _ Ha). apply Hk.
Qed.

Lemma returns_choice {A} (seq : list A) :
  seq <> [] -> forall w : W, exists x w', choice seq w = (inr x, w').
Proof. intros Hne w. destruct (choice_spec seq w Hne) as (x & w' & Hx & _). eauto. Qed.

Lemma returns_randint (a b : Z) :
  a <= b -> forall w : W, exists n w', randint a b w = (inr n, w').
Proof.
  intros Hab w. destruct (proj1 (randint_spec a b w) Hab) as (n & w' & Hn & _). eauto.
Qed.

Lemma returns_random_date_between (a b : date) :
  a <= b -> forall w : W, exists dt w', random_date_between a b w = (inr dt, w').
Proof.
  intros Hab w.
  destruct (proj1 (random_date_between_spec a b w) Hab) as (n & w' & Hn & _). eauto.
Qed.

Lemma for_collect_length {A B} (l : list A) (body : A -> M W B) (w : W)
      (ys : list B) (w' : W) :
  for_collect l body w = (inr ys, w') -> List.length ys = List.length l.
Proof.
  intros Hrun. apply for_collect_rows in Hrun. symmetry.
  induction Hrun; simpl; congruence.
Qed.

Lemma generate_teachers_returns (w : W) :
  exists teachers w',
    generate_teachers w = (inr teachers, w')
    /\ Z.of_nat (List.length teachers) = NUM_TEACHERS
    /\ disk w' = disk w.
Proof.
  unfold generate_teachers.
  match goal with |- context [ for_collect ?l ?b ] => set (body := b); set (ids := l) end.
  destruct (for_collect_returns ids body) with (s := w) as (ts & w' & Hrun).
  { intros i s _. subst body. cbv beta.
    repeat (apply returns_bind; [apply returns_with_fake | intros ?]).
    apply returns_ret. }
  exists ts, w'. split; [exact Hrun|]. split.
  - apply for_collect_length in Hrun. subst ids. rewrite Hrun, range_length.
    unfold NUM_TEACHERS. lia.
  - assert (K : forall w0 : W, disk (snd (for_collect ids body w0)) = disk w0).
    { apply keeps_for_collect. intros i. subst body. cbv beta.
      repeat (apply keeps_bind; [apply keeps_with_fake | intros ?]).
      apply keeps_ret. }
    specialize (K w). rewrite Hrun in K. exact K.
Qed.

Lemma generate_students_returns (w : W) :
  exists students w',
    generate_students w = (inr students, w')
    /\ Z.of_nat (List.length students) = NUM_STUDENTS.
Proof.
  assert (Hwin : mkdate 2021 1 1 <= mkdate 2025 1 1) by (vm_compute; discriminate).
  unfold generate_students. cbv zeta.
  match goal with |- context [ for_collect ?l ?b ] => set (body := b); set (ids := l) end.
  destruct (for_collect_returns ids body) with (s := w) as (ss & w' & Hrun).
  { intros i s _. subst body. cbv beta.
    repeat (apply returns_bind; [apply returns_with_fake | intros ?]).
    apply returns_bind; [now apply returns_random_date_between | intros ?].
    apply returns_ret. }
  exists ss, w'. split; [exact Hrun|].
  apply for_collect_length in Hrun. subst ids. rewrite Hrun, range_length.
  unfold NUM_STUDENTS. lia.
Qed.

Lemma generate_courses_returns (teachers : list Teacher.t) (w : W) :
  teachers <> [] ->
  exists courses w',
    generate_courses teachers w = (inr courses, w')
    /\ Z.of_nat (List.length courses) = NUM_COURSES.
Proof.
  intros Hne.
  assert (Hwin : mkdate 2023 1 1 <= mkdate 2025 12 31) by (vm_compute; discriminate).
  unfold generate_courses. cbv zeta.
  match goal with |- context [ for_collect ?l ?b ] => set (body := b); set (ids := l) end.
  destruct (for_collect_returns ids body) with (s := w) as (cs & w' & Hrun).
  { intros i s _. subst body. cbv beta.
    repeat (apply returns_bind;
            [first [ apply returns_with_fake
                   | apply returns_choice; first [exact Hne | discriminate]
                   | now apply returns_random_date_between
                   | apply returns_randint; lia ]
            | intros ?]).
    apply returns_ret. }
  exists cs, w'. split; [exact Hrun|].
  apply for_collect_length in Hrun. subst ids. rewrite Hrun, range_length.
  unfold NUM_COURSES. lia.
Qed.

(** ** The run as a whole *)

(** Four files written one after the other, starting with none: all
    four are written when the file system does what it is asked; and
    otherwise the writing stops with OSError at the first file that
    fails, which is missing or cut short, the files before it being
    complete. *)
Lemma four_writes (p1 p2 p3 p4 : string) (r1 r2 r3 r4 : list rowdict)
      (f1 f2 f3 f4 : list string) (w : W) :
  files w = [] ->
  let full := [ (p1, csv_line f1 ++ csv_rows f1 r1); (p2, csv_line f2 ++ csv_rows f2 r2);
                (p3, csv_line f3 ++ csv_rows f3 r3); (p4, csv_line f4 ++ csv_rows f4 r4) ] in
  let writes := write_csv p1 r1 f1 ;;; write_csv p2 r2 f2 ;;;
                write_csv p3 r3 f3 ;;; write_csv p4 r4 f4 in
  ((forall k, (k < 4)%nat -> nth k (os w) Done = Done) ->
   exists w', writes w = (inr tt, w') /\ files w' = full)
  /\ (forall r w',
        writes w = (r, w') ->
        (r = inr tt /\ files w' = full)
        \/ (exists msg k,
              r = inl (OSError msg) /\ (k < 4)%nat
              /\ (files w' = firstn k full
                  \/ exists n,
                      files w'
                      = (firstn k full
                         ++ [(fst (nth k full ("", "")),
                              String.substring 0 n (snd (nth k full ("", ""))))])%list))).
Proof.
  intros Hfiles full writes. destruct w as [g f fl o]. cbn [files] in Hfiles. subst fl.
  cbn [os]. split.
  - intros Hdone.
    pose proof (Hdone 0%nat ltac:(lia)) as D0. pose proof (Hdone 1%nat ltac:(lia)) as D1.
    pose proof (Hdone 2%nat ltac:(lia)) as D2. pose proof (Hdone 3%nat ltac:(lia)) as D3.
    clear Hdone.
    destruct o as [|a1 [|a2 [|a3 [|a4 o]]]]; cbn [nth] in D0, D1, D2, D3; subst;
      eexists; (split; [reflexivity|]); reflexivity.
  - intros r w' Hrun. subst writes.
    destruct o as [|[|m1|n1 m1] [|[|m2|n2 m2] [|[|m3|n3 m3] [|[|m4|n4 m4] o]]]];
      cbv [bind write_csv next_answer] in Hrun;
      cbn [os files rng fake fst snd app] in Hrun;
      inversion Hrun; subst r w'; cbn [files];
      first
        [ solve [left; split; reflexivity]
        | right; eexists;
          first
            [ solve [exists 0%nat; split; [reflexivity|]; split; [lia|];
                     first [left; reflexivity | right; eexists; reflexivity]]
            | solve [exists 1%nat; split; [reflexivity|]; split; [lia|];
                     first [left; reflexivity | right; eexists; reflexivity]]
            | solve [exists 2%nat; split; [reflexivity|]; split; [lia|];
                     first [left; reflexivity | right; eexists; reflexivity]]
            | solve [exists 3%nat; split; [reflexivity|]; split; [lia|];
                     first [left; reflexivity | right; eexists; reflexivity]] ] ].
Qed.

Section Main.
Variable isoformat : date -> string.
Variable DATA_DIR : string.

(** The script raises nothing but the OSError of a file system that
    fails.  Whatever the states of [random] and Faker at the start, the
    four generators return 40 teachers, 1500 students, 120 courses and
    between 1500 and 6000 enrollments.  When the file system does what
    it is asked (create the directory, write four files), the script
    ends normally and has written exactly four files, in this order and
    under these names, each made of its header line and one line per
    row.  Otherwise it ends with OSError at the first request that
    fails: the files before it are complete, the file that failed is
    missing or cut short, and nothing comes after it. *)
Theorem script_writes_four_files (answers : list os_answer) (g : R) (f : F) :
  exists teachers students courses enrollments,
    Z.of_nat (List.length teachers) = 40
    /\ Z.of_nat (List.length students) = 1500
    /\ Z.of_nat (List.length courses) = 120
    /\ 1500 <= Z.of_nat (List.length enrollments) <= 6000
    /\ let full :=
         [ (path_join DATA_DIR "teachers.csv",
            csv_line ["id"; "first_name"; "last_name"; "email"; "bio"]
            ++ csv_rows ["id"; "first_name"; "last_name"; "email"; "bio"]
                        (map teacher_dict teachers));
           (path_join DATA_DIR "students.csv",
            csv_line ["id"; "first_name"; "last_name"; "email"; "registration_date"]
            ++ csv_rows ["id"; "first_name"; "last_name"; "email"; "registration_date"]
                        (map (student_dict isoformat) students));
           (path_join DATA_DIR "courses.csv",
            csv_line ["id"; "title"; "description"; "level"; "credits";
                      "start_date"; "end_date"; "teacher_id"]
            ++ csv_rows ["id"; "title"; "description"; "level"; "credits";
                         "start_date"; "end_date"; "teacher_id"]
                        (map (course_dict isoformat) courses));
           (path_join DATA_DIR "enrollments.csv",
            csv_line ["id"; "student_id"; "course_id"; "enrollment_date";
                      "status"; "final_grade"]
            ++ csv_rows ["id"; "student_id"; "course_id"; "enrollment_date";
                         "status"; "final_grade"]
                        (map (enrollment_dict isoformat) enrollments)) ] in
       ((forall k, (k < 5)%nat -> nth k answers Done = Done) ->
        exists w',
          script isoformat DATA_DIR (mkworld g f [] answers) = (inr tt, w')
          /\ files w' = full)
       /\ (forall r w',
             script isoformat DATA_DIR (mkworld g f [] answers) = (r, w') ->
             (r = inr tt /\ files w' = full)
             \/ (exists msg k,
                   r = inl (OSError msg) /\ (k < 4)%nat
                   /\ (files w' = firstn k full
                       \/ exists n,
                           files w'
                           = (firstn k full
                              ++ [(fst (nth k full ("", "")),
                                   String.substring 0 n
                                     (snd (nth k full ("", ""))))])%list))).
Proof.
  set (w0 := mkworld (seed 42) (faker_seed 42) [] (tl answers) : W).
  destruct (generate_teachers_returns w0) as (ts & w1 & Hts & Htlen & Hd1).
  destruct (generate_students_returns w1) as (ss & w2 & Hss & Hslen).
  assert (Htne : ts <> []).
  { intros ->. unfold NUM_TEACHERS in Htlen. discriminate. }
  destruct (generate_courses_returns ts w2 Htne) as (cs & w3 & Hcs & Hclen).
  pose proof (generate_courses_window ts w2 cs w3 Hcs) as Hcall.
  destruct (generate_enrollments_returns ss cs w3) as (es & w4 & Hes).
  { unfold NUM_COURSES in Hclen. lia. }
  { intros c Hc. rewrite Forall_forall in Hcall. specialize (Hcall c Hc). lia. }
  pose proof (generate_enrollments_invariant ss cs w3 es w4 Hes) as (_ & _ & Helen & _).
  unfold NUM_TEACHERS in Htlen. unfold NUM_STUDENTS in Hslen. unfold NUM_COURSES in Hclen.
  assert (Hdisk : disk w4 = ([], tl answers)).
  { pose proof (keeps_generate_enrollments ss cs w3) as K4. rewrite Hes in K4.
    pose proof (keeps_generate_courses ts w2) as K3. rewrite Hcs in K3.
    pose proof (keeps_generate_students w1) as K2. rewrite Hss in K2.
    cbn [snd] in K2, K3, K4. rewrite K4, K3, K2, Hd1. reflexivity. }
  pose proof (f_equal fst Hdisk) as Hfiles. pose proof (f_equal snd Hdisk) as Hos.
  unfold disk in Hfiles, Hos. cbn [fst snd] in Hfiles, Hos. clear Hdisk.
  exists ts, ss, cs, es.
  split; [exact Htlen|]. split; [exact Hslen|]. split; [exact Hclen|]. split; [lia|].
  intros full.
  assert (Hmain : main isoformat DATA_DIR w0
                  = (write_csv (path_join DATA_DIR "teachers.csv") (map teacher_dict ts)
                               ["id"; "first_name"; "last_name"; "email"; "bio"] ;;;
                     write_csv (path_join DATA_DIR "students.csv")
                               (map (student_dict isoformat) ss)
                               ["id"; "first_name"; "last_name"; "email";
                                "registration_date"] ;;;
                     write_csv (path_join DATA_DIR "courses.csv")
                               (map (course_dict isoformat) cs)
                               ["id"; "title"; "description"; "level"; "credits";
                                "start_date"; "end_date"; "teacher_id"] ;;;
                     write_csv (path_join DATA_DIR "enrollments.csv")
                               (map (enrollment_dict isoformat) es)
                               ["id"; "student_id"; "course_id"; "enrollment_date";
                                "status"; "final_grade"]) w4).
  { unfold main.
    rewrite (bind_ok _ _ _ _ _ Hts), (bind_ok _ _ _ _ _ Hss),
      (bind_ok _ _ _ _ _ Hcs), (bind_ok _ _ _ _ _ Hes). reflexivity. }
  match type of Hmain with
  | _ = (write_csv ?p1 ?r1 ?f1 ;;; write_csv ?p2 ?r2 ?f2 ;;;
         write_csv ?p3 ?r3 ?f3 ;;; write_csv ?p4 ?r4 ?f4) _ =>
      pose proof (four_writes p1 p2 p3 p4 r1 r2 r3 r4 f1 f2 f3 f4 w4 Hfiles)
        as [Hall Hany]
  end.
  cbv zeta in Hall, Hany. rewrite <- Hmain in Hall, Hany. rewrite Hos in Hall.
  assert (Hscript :
            script isoformat DATA_DIR (mkworld g f [] answers)
            = match answers with
              | [] | Done :: _ => main isoformat DATA_DIR w0
              | Refused msg :: rest | Broke _ msg :: rest =>
                  (inl (OSError msg), mkworld (seed 42) (faker_seed 42) [] rest)
              end).
  { subst w0. destruct answers as [|[|msg|n msg] rest]; reflexivity. }
  rewrite Hscript. split.
  - intros Hdone.
    assert (Hrest : forall k, (k < 4)%nat -> nth k (tl answers) Done = Done).
    { intros k Hk. specialize (Hdone (S k) ltac:(lia)).
      destruct answers as [|a rest]; [now destruct k | exact Hdone]. }
    specialize (Hdone 0%nat ltac:(lia)).
    destruct answers as [|a rest]; [exact (Hall Hrest)|].
    cbn [nth] in Hdone. subst a. exact (Hall Hrest).
  - intros r w' Hrun.
    destruct answers as [|[|msg|n msg] rest];
      try (now apply Hany);
      inversion Hrun; subst r w'; right; exists msg, 0%nat;
      (split; [reflexivity|]); (split; [lia|]); left; reflexivity.
Qed.

End Main.
End Keeps.

(** ** CSV fields *)

Lemma double_quotes_inj (a b : string) : double_quotes a = double_quotes b -> a = b.
Proof.
  revert b. induction a as [|c a IH]; intros [|d b] Heq; simpl in Heq.
  - reflexivity.
  - destruct (Ascii.eqb d quotechar); discriminate.
  - destruct (Ascii.eqb c quotechar); discriminate.
  - destruct (Ascii.eqb c quotechar) eqn:Hc, (Ascii.eqb d quotechar) eqn:Hd;
      inversion Heq; subst; try congruence.
    + f_equal. now apply IH.
    + f_equal. now apply IH.
Qed.

Lemma append_char_inj (a b : string) (c : ascii) :
  a ++ String c "" = b ++ String c "" -> a = b.
Proof.
  revert b. induction a as [|x a IH]; intros [|y b] Heq; simpl in Heq.
  - reflexivity.
  - inversion Heq as [[Hc Hb]]. destruct b; discriminate.
  - inversion Heq as [[Hc Hb]]. destruct a; discriminate.
  - inversion Heq. f_equal. now apply IH.
Qed.

(** Two different values are never written as the same CSV field, and a
    field is written unchanged unless it holds a comma, a quote or a line
    break. *)
Theorem csv_field_inj (a b : string) :
  (csv_field a = csv_field b -> a = b)
  /\ (needs_quoting a = false -> csv_field a = a).
Proof.
  split.
  - assert (Hstart : forall s t,
               needs_quoting s = false -> s <> String quotechar t).
    { intros s t Hs ->. cbn [needs_quoting] in Hs.
      rewrite (Ascii.eqb_refl quotechar), orb_true_r in Hs. discriminate. }
    unfold csv_field.
    destruct (needs_quoting a) eqn:Ha, (needs_quoting b) eqn:Hb; intros Heq.
    + inversion Heq as [Hq]. now apply append_char_inj, double_quotes_inj in Hq.
    + exfalso. symmetry in Heq. now apply (Hstart b _ Hb) in Heq.
    + exfalso. now apply (Hstart a _ Ha) in Heq.
    + exact Heq.
  - unfold csv_field. now intros ->.
Qed.

Lemma csv_field_inj_witness : csv_field "Docker & Containers" = "Docker & Containers".
Proof. apply (proj2 (csv_field_inj "Docker & Containers" "")). reflexivity. Defined.

End ScriptFacts.
